(** * The training loop of [trainer.py]: a shallow embedding and its properties

    The development follows the source file top to bottom:
    - [Py]        the Python built-ins the loop relies on ([in], [str.split],
                  [str.join], [int], [str], [or]);
    - [Accessors] the module-level globals and their read accessors;
    - [Epochs]    the generator [_make_infinite_epochs];
    - [Schedule]  the event list handling inside [train];
    - [Trainer]   the body of [train] as a state-and-exception passing program
                  that records every observable effect in a trace. *)

From Stdlib Require Import ZArith List String Ascii Bool Lia.
From Stdlib Require Import DecimalString DecimalPos.
Import ListNotations.

Local Open Scope string_scope.
Local Open Scope list_scope.
Local Open Scope Z_scope.

(* ====================================================================== *)
(** ** Python built-ins on text and integers *)
(* ====================================================================== *)

Module Py.

(** [sub in s] for strings. *)
Fixpoint contains (sub s : string) : bool :=
  if String.prefix sub s then true
  else match s with
       | EmptyString => false
       | String _ s' => contains sub s'
       end.

(** [s.split(sep)] for a non-empty literal [sep]: matches are looked for
    from the left and do not overlap.  [skip] counts the characters of a
    match that are still to be passed over, [cur] is the piece being built. *)
Fixpoint split_go (sep : string) (skip : nat) (cur s : string) : list string :=
  match s with
  | EmptyString => [cur]
  | String c s' =>
      match skip with
      | S k => split_go sep k cur s'
      | O =>
          if String.prefix sep s
          then cur :: split_go sep (Nat.pred (String.length sep)) "" s'
          else split_go sep O (cur ++ String c "")%string s'
      end
  end.

Definition split (sep s : string) : list string := split_go sep O "" s.

(** [sep.join(l)]. *)
Fixpoint join (sep : string) (l : list string) : string :=
  match l with
  | [] => ""
  | [x] => x
  | x :: rest => (x ++ sep ++ join sep rest)%string
  end.

(** [l[-1]] on a list that [split] returned (never empty). *)
Definition last_piece (l : list string) : string := List.last l "".

(** [str(n)] for an integer, up to the interpreter's limit on the number
    of digits. *)
Definition str (n : Z) : string := NilZero.string_of_int (Z.to_int n).

(** *** [int(text)], base ten, on ASCII text

    The interpreter strips white space on both sides (tab to carriage
    return, and the space), reads an optional sign and then digits; a
    single underscore may separate two digits.
    Every other text raises [ValueError], here [None].

    This is [int] on the texts that [int_text] below accepts.  Outside
    them the interpreter does more than the model: it also strips the
    white space beyond ASCII and reads the decimal digits of other scripts,
    and it raises [ValueError] on a text with more digits than its limit
    allows (4300 unless configured, never fewer than 640).  Statements
    about [int] on a text that is not produced by [str] therefore carry
    [int_text] as a hypothesis. *)

Definition is_space (c : ascii) : bool :=
  let n := nat_of_ascii c in
  ((9 <=? n)%nat && (n <=? 13)%nat) || (n =? 32)%nat.

Definition digit_of (c : ascii) : option Z :=
  let n := nat_of_ascii c in
  if ((48 <=? n)%nat && (n <=? 57)%nat)%bool then Some (Z.of_nat n - 48) else None.

Definition is_underscore (c : ascii) : bool := (nat_of_ascii c =? 95)%nat.

Fixpoint lstrip (s : string) : string :=
  match s with
  | String c s' => if is_space c then lstrip s' else s
  | EmptyString => EmptyString
  end.

(** Characters of [s] up to its last non-space one. *)
Fixpoint rstrip (s : string) : string :=
  match s with
  | EmptyString => EmptyString
  | String c s' =>
      match rstrip s' with
      | EmptyString => if is_space c then EmptyString else String c EmptyString
      | r => String c r
      end
  end.

(** Reads the digits after the first one; [acc] is the value so far. *)
Fixpoint digits_tail (acc : Z) (s : string) : option Z :=
  match s with
  | EmptyString => Some acc
  | String c s' =>
      match digit_of c with
      | Some d => digits_tail (10 * acc + d) s'
      | None =>
          if is_underscore c then
            match s' with
            | String c' s'' =>
                match digit_of c' with
                | Some d => digits_tail (10 * acc + d) s''
                | None => None
                end
            | EmptyString => None
            end
          else None
      end
  end.

Definition digits (s : string) : option Z :=
  match s with
  | String c s' =>
      match digit_of c with
      | Some d => digits_tail d s'
      | None => None
      end
  | EmptyString => None
  end.

Definition int (text : string) : option Z :=
  match rstrip (lstrip text) with
  | String "-" s' => option_map Z.opp (digits s')
  | String "+" s' => digits s'
  | s => digits s
  end.

(** The texts on which [int] above is the interpreter's [int]: ASCII
    characters only, and no longer than the smallest digit limit that can
    be configured. *)
Definition is_ascii (c : ascii) : bool := (nat_of_ascii c <? 128)%nat.

Fixpoint all_ascii (s : string) : bool :=
  match s with
  | EmptyString => true
  | String c s' => is_ascii c && all_ascii s'
  end.

Definition int_text (s : string) : bool :=
  all_ascii s && (String.length s <=? 640)%nat.

(** [a or b] where [a] is [None] or an integer: [None] and [0] are falsy. *)
Definition or_int (a : option Z) (b : Z) : Z :=
  match a with
  | Some n => if n =? 0 then b else n
  | None => b
  end.

(** The number that the decimal digits [d], most significant first, stand
    for when [acc] is the value of the digits read before them. *)
Fixpoint value_acc (d : Decimal.uint) (acc : Z) : Z :=
  match d with
  | Decimal.Nil => acc
  | Decimal.D0 d' => value_acc d' (10 * acc + 0)
  | Decimal.D1 d' => value_acc d' (10 * acc + 1)
  | Decimal.D2 d' => value_acc d' (10 * acc + 2)
  | Decimal.D3 d' => value_acc d' (10 * acc + 3)
  | Decimal.D4 d' => value_acc d' (10 * acc + 4)
  | Decimal.D5 d' => value_acc d' (10 * acc + 5)
  | Decimal.D6 d' => value_acc d' (10 * acc + 6)
  | Decimal.D7 d' => value_acc d' (10 * acc + 7)
  | Decimal.D8 d' => value_acc d' (10 * acc + 8)
  | Decimal.D9 d' => value_acc d' (10 * acc + 9)
  end.

End Py.

(* ====================================================================== *)
(** ** What the program can be observed to do *)
(* ====================================================================== *)

Inductive Exn : Type :=
| ValueError (msg : string)
| ZeroDivisionError
| OverflowError
| RuntimeError (msg : string).

(** A call either hands back a value or raises. *)
Inductive Outcome (A : Type) : Type :=
| Returns (a : A)
| Raises (e : Exn).
Arguments Returns {A} a.
Arguments Raises {A} e.

(** The calls [train] makes on its collaborators and on the logger, in the
    order they happen.  [B] is the type of a batch. *)
Inductive Effect (B : Type) : Type :=
| CfgDump                                 (* cfg.dump(); _logger.info(cfg) *)
| LogNewEpoch                             (* _logger.info("New epoch starts.") *)
| Fetched (b : B)                         (* the [for] statement received [b] *)
| EngineStep (b : B)                      (* engines.step(feeder, batch) *)
| WriterOpen                              (* SummaryWriter(...) *)
| WriterAddScalar (step : Z)              (* _writer.add_scalar("Loss/train", ...) *)
| WriterFlush                             (* _writer.flush() *)
| LoggerStats (step : Z)                  (* logger(data=stats) *)
| LogInfo (msg : string)                  (* _logger.info(msg) *)
| LogError                                (* _logger.error(e) *)
| LogRemaining (remaining_iters : Z)      (* the estimate of a "time" command *)
| PrintDebug                              (* print(" --- 100 DEBUG ---") *)
| SaveCheckpoint (step : Z) (tag : string)(* engines.save_checkpoint(tag=...) *)
| EnginesEval                             (* engines.eval() *)
| EvalFn (step : Z)                       (* the [eval_fn] given to [train] runs *)
| EnginesTrain.                           (* engines.train() *)
Arguments CfgDump {B}.
Arguments LogNewEpoch {B}.
Arguments Fetched {B} b.
Arguments EngineStep {B} b.
Arguments WriterOpen {B}.
Arguments WriterAddScalar {B} step.
Arguments WriterFlush {B}.
Arguments LoggerStats {B} step.
Arguments LogInfo {B} msg.
Arguments LogError {B}.
Arguments LogRemaining {B} remaining_iters.
Arguments PrintDebug {B}.
Arguments SaveCheckpoint {B} step tag.
Arguments EnginesEval {B}.
Arguments EvalFn {B} step.
Arguments EnginesTrain {B}.

(** The fields of [Config] and [Engines] that [trainer.py] reads.  Both
    classes live in other modules of the package. *)
Record Config : Type := mkConfig {
  cfg_name : string;
  max_iter : Z;
  save_ckpt_every : option Z;
  eval_every : Z;
  save_on_quit : bool
}.

Record Engines : Type := mkEngines {
  global_step : Z;
  cfg : Config
}.

(* ====================================================================== *)
(** ** Module globals and their accessors *)
(* ====================================================================== *)

Module Accessors.

(** [_engines: Engines] and [_command: str] are declared without a value:
    reading either raises [NameError] until something assigns it. *)
Record Globals : Type := mkGlobals {
    _engines : option Engines;
    _command : option string
  }.

Definition at_import : Globals := {| _engines := None; _command := None |}.

Definition not_setup : string :=
  "Trainer has not been setup. Have you called trainer.train?".

(** The result is [None] (Python's) or the step. *)
Definition get_global_step (g : Globals) : Outcome (option Z) :=
  match _engines g with
  | Some e => Returns (Some (global_step e))
  | None => Returns None
  end.

Definition get_cfg (g : Globals) : Outcome Config :=
  match _engines g with
  | Some e => Returns (cfg e)
  | None => Raises (RuntimeError not_setup)
  end.

Definition get_cmd (g : Globals) : Outcome string :=
  match _command g with
  | Some c => Returns c
  | None => Raises (RuntimeError not_setup)
  end.

Definition get_iteration := get_global_step.

End Accessors.

(* ====================================================================== *)
(** ** Operator input *)
(* ====================================================================== *)

(** What a process can see of its surroundings: its place in the job and the
    lines waiting on its standard input. *)
Record Console : Type := mkConsole {
  global_leader : bool;
  local_leader : bool;
  stdin : list string
}.

(** The body that is left after the reading and broadcasting code was
    commented out: nothing is read, the answer is one space. *)
Definition _non_blocking_input (w : Console) : string * Console := (" ", w).

(** Follows the spec's words, for comparison: the line the global leader
    reads from the operator, empty when nothing is waiting. *)
Definition spec_leader_read (leader : Console) : string :=
  match stdin leader with
  | line :: _ => line
  | [] => ""
  end.

(* ====================================================================== *)
(** ** [_make_infinite_epochs] *)
(* ====================================================================== *)

Module Epochs.
Section Gen.
Context {B : Type}.
(** The data loader, iterated afresh on every pass. *)
Variable dl : list B.

(** One [next()] on the generator.  [rest] is what the running
    [yield from dl] still has to deliver; it is empty before the first call
    and after the last item of a pass.  With an empty [dl] the generator
    logs for ever and never yields: [None]. *)
Definition next (rest : list B) : option (list (Effect B) * B * list B) :=
  match rest with
  | b :: rest' => Some ([], b, rest')
  | [] =>
      match dl with
      | b :: rest' => Some ([LogNewEpoch], b, rest')
      | [] => None
      end
  end.

(** The trace of [n] successive [next()] calls. *)
Fixpoint pull (n : nat) (rest : list B) : option (list (Effect B)) :=
  match n with
  | O => Some []
  | S n' =>
      match next rest with
      | Some (log, b, rest') =>
          option_map (fun t => log ++ Fetched b :: t) (pull n' rest')
      | None => None
      end
  end.

End Gen.

(** The generator as the [for] statement meets it: freshly created, asked
    for its first [n] items.  The result is what was logged and yielded. *)
Definition _make_infinite_epochs {B} (dl : list B) (n : nat) : option (list (Effect B)) :=
  pull dl n [].

(** The items and the number of pass notifications of a trace. *)
Fixpoint items {B} (t : list (Effect B)) : list B :=
  match t with
  | [] => []
  | Fetched b :: t' => b :: items t'
  | _ :: t' => items t'
  end.

Fixpoint notifications {B} (t : list (Effect B)) : nat :=
  match t with
  | [] => O
  | LogNewEpoch :: t' => S (notifications t')
  | _ :: t' => notifications t'
  end.

(** What one full pass leaves in the trace. *)
Definition pass {B} (dl : list B) : list (Effect B) := LogNewEpoch :: map Fetched dl.

(** What follows the third pass when two more items are pulled. *)
Definition two_more {B} (dl : list B) : list (Effect B) :=
  if (List.length dl =? 1)%nat then pass dl ++ pass dl
  else LogNewEpoch :: map Fetched (firstn 2 dl).

End Epochs.

(* ====================================================================== *)
(** ** The event list *)
(* ====================================================================== *)

Module Schedule.

(** [(what, int(when))] *)
Definition Event : Type := (string * Z)%type.

(** [events.append((what, int(when)))] inside [try], with the two log
    calls: the new list and what was logged. *)
Definition register {B} (command what when : string) (events : list Event)
  : list Event * Effect B :=
  match Py.int when with
  | Some n => (events ++ [(what, n)], LogInfo ("Event " ++ command ++ " registered.")%string)
  | None => (events, LogError)
  end.

(** [[e for e in events if e[1] >= engines.global_step]] *)
Definition prune (step : Z) (events : list Event) : list Event :=
  filter (fun e => step <=? snd e) events.

(** The events selected by [if e[1] == engines.global_step]. *)
Definition due (step : Z) (events : list Event) : list Event :=
  filter (fun e => snd e =? step) events.

(** [[e[0] for e in events if e[1] == engines.global_step]] *)
Definition fired (step : Z) (events : list Event) : list string :=
  map fst (due step events).

(** Lines 187 and 188 together: the list kept in [events] and the
    commands of the tick. *)
Definition resolve (step : Z) (command : string) (events : list Event)
  : list Event * list string :=
  let events' := prune step events in
  (events', command :: fired step events').

(** ["@".join(map(str, e))] *)
Definition show (e : Event) : string := Py.join "@" [fst e; Py.str (snd e)].

End Schedule.

(* ====================================================================== *)
(** ** [train] *)
(* ====================================================================== *)

Module Trainer.

Definition nl : string := String (ascii_of_nat 10) EmptyString.

(** [x in [a, b, ...]] for a list of string literals. *)
Definition mem (x : string) (l : list string) : bool := existsb (String.eqb x) l.

(** [what, when = pieces] *)
Definition unpack2 (pieces : list string) : Outcome (string * string) :=
  match pieces with
  | [what; when] => Returns (what, when)
  | _ :: _ :: _ :: _ => Raises (ValueError "too many values to unpack (expected 2)")
  | _ => Raises (ValueError "not enough values to unpack")
  end.

Section Train.
Context {B : Type}.

(** Modelled from the spec: the elapsed time of a step is reported by
    [Engines.step] and the duration is worded by [humanize.precisedelta],
    both defined outside this file; the spec has the remaining iterations
    multiplied by the last elapsed time and the duration logged.
    [estimate step remaining_iters] is the exception that lines 206 and 207
    raise after the step [step], if any: [OverflowError] when the product is
    more than a float or a [timedelta] holds. *)
Variable estimate : Z -> Z -> option Exn.

(** Stands for the call [_non_blocking_input()]; [train] itself is the
    instance at [_non_blocking_input], see [train] below. *)
Variable poll : Console -> string * Console.

(** [train_dl] *)
Variable dl : list B.

(** The local variables of [train] that change, the generator's position,
    the process's surroundings and everything done so far. *)
Record State : Type := mkState {
    engines : Engines;
    events : list Schedule.Event;
    rest : list B;
    console : Console;
    trace : list (Effect B)
  }.

Definition emit (e : Effect B) (s : State) : State :=
  {| engines := engines s; events := events s; rest := rest s;
     console := console s; trace := trace s ++ [e] |}.

Definition emits (l : list (Effect B)) (s : State) : State :=
  {| engines := engines s; events := events s; rest := rest s;
     console := console s; trace := trace s ++ l |}.

Definition set_events (evs : list Schedule.Event) (s : State) : State :=
  {| engines := engines s; events := evs; rest := rest s;
     console := console s; trace := trace s |}.

Definition set_console (w : Console) (s : State) : State :=
  {| engines := engines s; events := events s; rest := rest s;
     console := w; trace := trace s |}.

Definition set_rest (r : list B) (s : State) : State :=
  {| engines := engines s; events := events s; rest := r;
     console := console s; trace := trace s |}.

Definition step_of (s : State) : Z := global_step (engines s).
Definition cfg_of (s : State) : Config := cfg (engines s).

(** The module globals as they stand while [train] runs: [_engines] is
    the very object the loop works on, [_command] is never assigned (the
    [global _command] statement is commented out). *)
Definition globals_of (s : State) : Accessors.Globals :=
  {| Accessors._engines := Some (engines s); Accessors._command := None |}.

(** How a piece of the loop body ends: it falls through with a value, it
    executes [return], or an exception leaves it. *)
Inductive Flow (A : Type) : Type :=
  | Next (a : A) (s : State)
  | Return_ (s : State)
  | Raise (e : Exn) (s : State).
Arguments Next {A} a s.
Arguments Return_ {A} s.
Arguments Raise {A} e s.

Definition bind {A A'} (m : Flow A) (k : A -> State -> Flow A') : Flow A' :=
  match m with
  | Next a s => k a s
  | Return_ s => Return_ s
  | Raise e s => Raise e s
  end.

(** *** Lines 168 to 173 *)

(** Modelled from the spec: [Engines.step] is defined in another module;
    the spec has the iteration advanced by exactly one per step and reported
    in the statistics.  Moving the batch to the device leaves no trace. *)
Definition train_step (batch : B) (s : State) : State :=
  let e' := {| global_step := global_step (engines s) + 1; cfg := cfg (engines s) |} in
  emits [EngineStep batch; WriterAddScalar (global_step e'); WriterFlush;
         LoggerStats (global_step e')]
    {| engines := e'; events := events s; rest := rest s;
       console := console s; trace := trace s |}.

(** *** Line 175 *)
Definition poll_command (s : State) : string * State :=
  let (command, w) := poll (console s) in (command, set_console w s).

(** *** Lines 177 to 184: the live command after the registration *)
Definition register_block (command : string) (s : State) : Flow string :=
  if Py.contains "@" command then
    match unpack2 (Py.split "@" command) with
    | Returns (what, when) =>
        let (evs, logged) := Schedule.register command what when (events s) in
        Next "" (emit logged (set_events evs s))
    | Raises e => Raise e s
    end
  else Next command s.

(** *** Lines 191 to 196 *)
Definition show_events (command : string) (s : State) : State :=
  if mem command ["event show"; "event"]
  then emit (LogInfo ("Events:" ++ nl ++ Py.join nl (map Schedule.show (events s)))%string) s
  else s.

Definition clear_events (command : string) (s : State) : State :=
  if String.eqb command "event clear" then set_events [] s else s.

(** *** Lines 198 to 207 *)

(** Lines 199 to 204: the target iteration of a ["time"] command. *)
Definition time_target (command : string) (s : State) : Z * State :=
  let default := max_iter (cfg_of s) in
  if Py.contains " to " command then
    match Py.int (Py.last_piece (Py.split " to " command)) with
    | Some n => (n, s)
    | None => (default, emit LogError s)
    end
  else (default, s).

(** Lines 205 to 207 stand outside the [try]: what they raise leaves the
    loop.  The trace keeps [remaining_iters]. *)
Definition time_query (command : string) (s : State) : Flow unit :=
  if Py.contains "time" command then
    let (target_iter, s1) := time_target command s in
    let remaining_iters := target_iter - step_of s + 1 in
    match estimate (step_of s) remaining_iters with
    | Some e => Raise e s1
    | None => Next tt (emit (LogRemaining remaining_iters) s1)
    end
  else Next tt s.

(** *** Lines 209 to 221 *)
Definition saving_commands (c : Config) : list string :=
  ["save"] ++ (if save_on_quit c then ["quit"] else []).

(** Line 209: [cfg.save_ckpt_every or cfg.eval_every]. *)
Definition cadence (c : Config) : Z :=
  Py.or_int (save_ckpt_every c) (eval_every c).

Definition checkpoint (command : string) (s : State) : Flow unit :=
  let every := cadence (cfg_of s) in
  let step := step_of s in
  if every =? 0 then Raise ZeroDivisionError s
  else if (step mod every =? 0) || mem command (saving_commands (cfg_of s))
          || (step =? 100) || (step =? 300) || (step =? 500)
  then Next tt (emit (SaveCheckpoint step ("ckpt_" ++ Py.str (step / every))%string)
                  (emit PrintDebug s))
  else Next tt s.

(** *** Line 148, lines 153 to 155 and 254 to 256 *)

(** Modelled from the spec: [global_leader_only] is defined in another
    module; the spec has the wrapped callback executed on the global leader
    only, the other ranks going on without it. *)
Definition global_leader_only (fn : State -> State) (s : State) : State :=
  if global_leader (console s) then fn s else s.

(** [eval_fn] after line 148.  [EvalFn] records a run of the callback that
    was passed to [train]. *)
Definition eval_fn : State -> State :=
  global_leader_only (fun s => emit (EvalFn (step_of s)) s).

Definition evaluate (s : State) : State :=
  emit EnginesTrain (eval_fn (emit EnginesEval s)).

Definition evaluation (command : string) (s : State) : Flow unit :=
  let every := eval_every (cfg_of s) in
  if every =? 0 then Raise ZeroDivisionError s
  else if (step_of s mod every =? 0) || mem command ["eval"]
  then Next tt (evaluate s)
  else Next tt s.

(** *** Lines 258 and 259 *)
Definition quit (command : string) (s : State) : Flow unit :=
  if mem command ["quit"] then Return_ s else Next tt s.

(** The body of [for command in commands]. *)
Definition process_command (command : string) (s : State) : Flow unit :=
  bind (time_query command (clear_events command (show_events command s)))
    (fun _ s0 => bind (checkpoint command s0)
      (fun _ s1 => bind (evaluation command s1) (fun _ s2 => quit command s2))).

Fixpoint process_commands (commands : list string) (s : State) : Flow unit :=
  match commands with
  | [] => Next tt s
  | command :: later =>
      bind (process_command command s) (fun _ s' => process_commands later s')
  end.

(** *** The body of the [for batch in ...] loop after the [break] test *)
Definition tick (batch : B) (s : State) : Flow unit :=
  let (command, s1) := poll_command (train_step batch s) in
  bind (register_block command s1) (fun live s2 =>
    let (events', commands) := Schedule.resolve (step_of s2) live (events s2) in
    process_commands commands (set_events events' s2)).

(** How the loop is left. *)
Inductive LoopExit : Type :=
  | Broke (s : State)              (* [break]: the step reached [max_iter] *)
  | Returned (s : State)           (* [return] inside the loop *)
  | Crashed (e : Exn) (s : State)  (* an exception left the loop *)
  | Starved (s : State)            (* the generator never yields: empty [dl] *)
  | OutOfFuel (s : State).

(** The [for] statement asks the generator for a batch first and tests the
    step afterwards.  [fuel] bounds the number of rounds. *)
Fixpoint loop (fuel : nat) (s : State) : LoopExit :=
  match fuel with
  | O => OutOfFuel s
  | S fuel' =>
      match Epochs.next dl (rest s) with
      | None => Starved (emit LogNewEpoch s)
      | Some (logged, batch, rest') =>
          let s1 := emits (logged ++ [Fetched batch]) (set_rest rest' s) in
          if max_iter (cfg_of s1) <=? step_of s1 then Broke s1
          else match tick batch s1 with
               | Next _ s2 => loop fuel' s2
               | Return_ s2 => Returned s2
               | Raise e s2 => Crashed e s2
               end
      end
  end.

Inductive Result : Type :=
  | Finished (s : State)
  | Failed (e : Exn) (s : State)
  | Hangs (s : State)
  | Unfinished (s : State).

(** [train], from the engines that [engines_loader()] returned. *)
Definition train_from (fuel : nat) (loaded : Engines) (w : Console) : Result :=
  let s0 := {| engines := loaded; events := []; rest := []; console := w; trace := [] |} in
  let s1 := if local_leader w then emit CfgDump s0 else s0 in
  let (command, s2) := poll_command s1 in
  let s3 := if mem command ["eval"; "eval_quit"] then evaluate s2 else s2 in
  if mem command ["quit"; "eval_quit"] then Finished s3
  else
    match loop fuel (emit WriterOpen s3) with
    | Broke s => Finished (emit WriterFlush s)
    | Returned s => Finished s
    | Crashed e s => Failed e s
    | Starved s => Hangs s
    | OutOfFuel s => Unfinished s
    end.

(** Rounds after which the loop has certainly been left. *)
Definition enough (s : State) : nat :=
  S (Z.to_nat (max_iter (cfg_of s) - step_of s)).

End Train.

Arguments Next {B A} a s.
Arguments Return_ {B A} s.
Arguments Raise {B A} e s.

(** [train] as the file has it. *)
Definition train {B} (estimate : Z -> Z -> option Exn) (dl : list B) (fuel : nat)
  (loaded : Engines) (w : Console) : Result (B := B) :=
  train_from estimate _non_blocking_input dl fuel loaded w.

(** Number of trace entries that satisfy [p]. *)
Definition count {B} (p : Effect B -> bool) (t : list (Effect B)) : nat :=
  List.length (filter p t).

Definition is_fetch {B} (e : Effect B) : bool :=
    match e with Fetched _ => true | _ => false end.
Definition is_step {B} (e : Effect B) : bool :=
    match e with EngineStep _ => true | _ => false end.
Definition is_flush {B} (e : Effect B) : bool :=
    match e with WriterFlush => true | _ => false end.
Definition is_save {B} (e : Effect B) : bool :=
    match e with SaveCheckpoint _ _ => true | _ => false end.

(** The steps at which [save_checkpoint] was called, in order. *)
Fixpoint saved_at {B} (t : list (Effect B)) : list Z :=
  match t with
  | [] => []
  | SaveCheckpoint step _ :: t' => step :: saved_at t'
  | _ :: t' => saved_at t'
  end.

(** The state in which a piece of the loop body ends. *)
Definition flow_state {B A} (f : Flow (B := B) A) : State (B := B) :=
  match f with
  | Next _ s => s
  | Return_ s => s
  | Raise _ s => s
  end.

(** Entries other than a fetch, a training step and a flush. *)
Definition handling_only {B} (e : Effect B) : bool :=
  negb (is_fetch e || is_step e || is_flush e).

(** [s'] comes from [s] by command handling alone: the engines, the
    generator and the surroundings are untouched and the trace has grown by
    entries of command handling. *)
Definition handled {B} (s s' : State (B := B)) : Prop :=
  engines s' = engines s /\ rest s' = rest s /\ console s' = console s
  /\ exists t, trace s' = trace s ++ t /\ forallb handling_only t = true.

Definition fetches {B} (s : State (B := B)) : nat := count is_fetch (trace s).
Definition steps {B} (s : State (B := B)) : nat := count is_step (trace s).
Definition flushes {B} (s : State (B := B)) : nat := count is_flush (trace s).

(** The test of line 216 for a command that is not a saving command. *)
Definition save_due (every step : Z) : bool :=
  (step mod every =? 0) || (step =? 100) || (step =? 300) || (step =? 500).

(** The [n] steps that follow [from]: [from + 1], ..., [from + n]. *)
Fixpoint steps_after (from : Z) (n : nat) : list Z :=
  match n with
  | O => []
  | S n' => (from + 1) :: steps_after (from + 1) n'
  end.

(** The state in which [train] ends, or is found when the fuel is used up. *)
Definition result_state {B} (r : Result (B := B)) : State (B := B) :=
  match r with
  | Finished s => s
  | Failed _ s => s
  | Hangs s => s
  | Unfinished s => s
  end.


Definition is_eval_fn {B} (e : Effect B) : bool :=
  match e with EvalFn _ => true | _ => false end.

(** The steps at which the [eval_fn] given to [train] ran, in order. *)
Fixpoint evaluated_at {B} (t : list (Effect B)) : list Z :=
  match t with
  | [] => []
  | EvalFn step :: t' => step :: evaluated_at t'
  | _ :: t' => evaluated_at t'
  end.

(** Number of runs of the [eval_fn] given to [train]. *)
Definition evaluations {B} (s : State (B := B)) : nat := count is_eval_fn (trace s).

(** Number of calls of [save_checkpoint]. *)
Definition saves {B} (s : State (B := B)) : nat := count is_save (trace s).



(** The state in which the loop is left. *)
Definition exit_state {B} (x : LoopExit (B := B)) : State (B := B) :=
  match x with
  | Broke s | Returned s | Crashed _ s | Starved s | OutOfFuel s => s
  end.

(** The test of line 216 for any command. *)
Definition save_wanted (c : Config) (step : Z) (command : string) : bool :=
  (step mod cadence c =? 0) || mem command (saving_commands c)
  || (step =? 100) || (step =? 300) || (step =? 500).

(** The test of line 253. *)
Definition eval_wanted (c : Config) (step : Z) (command : string) : bool :=
  (step mod eval_every c =? 0) || mem command ["eval"].

End Trainer.

(* ====================================================================== *)
(** * Properties *)
(* ====================================================================== *)

(** ** The built-ins on sample inputs *)

Example split_one : Py.split "@" "save@7" = ["save"; "7"]. Proof. reflexivity. Qed.
Example split_two : Py.split "@" "a@1@2" = ["a"; "1"; "2"]. Proof. reflexivity. Qed.
Example split_none : Py.split "@" "" = [""]. Proof. reflexivity. Qed.
Example split_overlap : Py.split " to " "a to to 5" = ["a"; "to 5"]. Proof. reflexivity. Qed.
Example int_neg : Py.int " -5 " = Some (-5). Proof. reflexivity. Qed.
Example int_us : Py.int "1_000" = Some 1000. Proof. reflexivity. Qed.
Example int_bad1 : Py.int "1__0" = None. Proof. reflexivity. Qed.
Example int_bad2 : Py.int "- 5" = None. Proof. reflexivity. Qed.
Example int_bad3 : Py.int "" = None. Proof. reflexivity. Qed.
Example int_bad4 : Py.int "7x" = None. Proof. reflexivity. Qed.
Example str_neg : Py.str (-5) = "-5". Proof. reflexivity. Qed.
Example str_zero : Py.str 0 = "0". Proof. reflexivity. Qed.
Example str_big : Py.str 120 = "120". Proof. reflexivity. Qed.

(** ** Accessors before [train] *)

(** C10: while nothing has assigned the module globals, [get_global_step]
    (and its alias [get_iteration]) returns [None], and [get_cfg] and
    [get_cmd] raise [RuntimeError] with the "has not been setup" message. *)
Theorem accessors_before_setup :
  forall g : Accessors.Globals,
    Accessors._engines g = None ->
    Accessors._command g = None ->
    Accessors.get_global_step g = Returns None
    /\ Accessors.get_iteration g = Returns None
    /\ Accessors.get_cfg g = Raises (RuntimeError Accessors.not_setup)
    /\ Accessors.get_cmd g = Raises (RuntimeError Accessors.not_setup).
Proof.
  intros g He Hc.
  unfold Accessors.get_iteration, Accessors.get_global_step,
    Accessors.get_cfg, Accessors.get_cmd.
  rewrite He, Hc. repeat split.
Qed.

Lemma accessors_before_setup_witness :
  Accessors.get_global_step Accessors.at_import = Returns None
  /\ Accessors.get_iteration Accessors.at_import = Returns None
  /\ Accessors.get_cfg Accessors.at_import = Raises (RuntimeError Accessors.not_setup)
  /\ Accessors.get_cmd Accessors.at_import = Raises (RuntimeError Accessors.not_setup).
Proof.
  apply (accessors_before_setup Accessors.at_import); reflexivity.
Defined.

(** Once [train] runs, the step and the configuration are readable, and
    [get_cmd] still raises: nothing assigns [_command]. *)
Lemma accessors_during_train {B} (s : Trainer.State (B := B)) :
  Accessors.get_global_step (Trainer.globals_of s) = Returns (Some (Trainer.step_of s))
  /\ Accessors.get_cfg (Trainer.globals_of s) = Returns (Trainer.cfg_of s)
  /\ Accessors.get_cmd (Trainer.globals_of s) = Raises (RuntimeError Accessors.not_setup).
Proof. repeat split. Qed.

(** ** The command of a tick *)

(** C2, as stated, fails: the global leader's operator typed [quit], and the
    command the tick works with is not that line; the tick handles the
    one-space command, falls through and leaves the line unread. *)
Lemma command_is_not_the_operator_line :
  let leader := {| global_leader := true; local_leader := true; stdin := ["quit"] |} in
  let s := {| Trainer.engines :=
                {| global_step := 0;
                   cfg := {| cfg_name := "run"; max_iter := 5;
                             save_ckpt_every := Some 2; eval_every := 5;
                             save_on_quit := false |} |};
              Trainer.events := [];
              Trainer.rest := [];
              Trainer.console := leader;
              Trainer.trace := [] |} in
  spec_leader_read leader = "quit"
  /\ fst (_non_blocking_input leader) <> spec_leader_read leader
  /\ exists s',
       Trainer.tick (fun _ _ => None) _non_blocking_input 7%nat s = Trainer.Next tt s'
       /\ Trainer.tick (fun _ _ => None) _non_blocking_input 7%nat s
          = Trainer.process_commands (fun _ _ => None) [" "] (Trainer.train_step 7%nat s)
       /\ stdin (Trainer.console s') = ["quit"].
Proof.
  split; [reflexivity|]. split; [discriminate|].
  eexists. repeat split.
Qed.

(** ** The event list *)

Lemma in_prune (step : Z) (evs : list Schedule.Event) (e : Schedule.Event) :
  In e (Schedule.prune step evs) <-> In e evs /\ step <= snd e.
Proof.
  unfold Schedule.prune. rewrite filter_In, Z.leb_le. reflexivity.
Qed.

Lemma in_due (step : Z) (evs : list Schedule.Event) (e : Schedule.Event) :
  In e (Schedule.due step evs) <-> In e evs /\ snd e = step.
Proof.
  unfold Schedule.due. rewrite filter_In, Z.eqb_eq. reflexivity.
Qed.

(** Pruning first does not change which events are due. *)
Lemma due_prune (step : Z) (evs : list Schedule.Event) :
  Schedule.due step (Schedule.prune step evs) = Schedule.due step evs.
Proof.
  unfold Schedule.due, Schedule.prune.
  induction evs as [|e evs IH]; simpl; [reflexivity|].
  destruct (Z.leb_spec step (snd e)) as [Hle|Hlt]; simpl.
  - now rewrite IH.
  - rewrite IH. destruct (Z.eqb_spec (snd e) step); [lia | reflexivity].
Qed.

Lemma prune_app (step : Z) (l1 l2 : list Schedule.Event) :
  Schedule.prune step (l1 ++ l2) = Schedule.prune step l1 ++ Schedule.prune step l2.
Proof. apply filter_app. Qed.

Lemma prune_all_pending (step : Z) (evs : list Schedule.Event) :
  Forall (fun e => step <= snd e) (Schedule.prune step evs).
Proof.
  apply Forall_forall. intros e He. apply in_prune in He. tauto.
Qed.

(** C7: an event whose trigger lies before the current step is in neither
    part of what [resolve] produces: not in the list that is kept, not among
    the events whose commands fire; the outcome is the one the list without
    that event gives. *)
Theorem stale_event_dropped :
  forall (step : Z) (live : string) (before after : list Schedule.Event)
         (e : Schedule.Event),
    snd e < step ->
    let r := Schedule.resolve step live (before ++ e :: after) in
    ~ In e (fst r)
    /\ ~ In e (Schedule.due step (fst r))
    /\ snd r = live :: map fst (Schedule.due step (fst r))
    /\ r = Schedule.resolve step live (before ++ after).
Proof.
  intros step live before after e Hlt r. subst r.
  unfold Schedule.resolve; simpl.
  assert (Hdrop : Schedule.prune step (before ++ e :: after)
                  = Schedule.prune step (before ++ after)).
  { rewrite !prune_app. f_equal. unfold Schedule.prune at 1; simpl.
    destruct (Z.leb_spec step (snd e)); [lia | reflexivity]. }
  repeat split.
  - intro Hin. apply in_prune in Hin. lia.
  - intro Hin. apply in_due in Hin. lia.
  - now rewrite Hdrop.
Qed.

Lemma stale_event_dropped_witness :
  let r := Schedule.resolve 5 " " ([("eval", 9)] ++ ("save", 3) :: [("quit", 5)]) in
  ~ In ("save", 3) (fst r)
  /\ ~ In ("save", 3) (Schedule.due 5 (fst r))
  /\ snd r = " " :: map fst (Schedule.due 5 (fst r))
  /\ r = Schedule.resolve 5 " " ([("eval", 9)] ++ [("quit", 5)]).
Proof.
  apply (stale_event_dropped 5 " " [("eval", 9)] [("quit", 5)] ("save", 3)).
  simpl. lia.
Defined.

(** C4, as stated, fails: at step 5 the event [save@5] fires, and the list
    kept for the rest of that tick still holds it. *)
Lemma fired_event_is_still_listed :
  let r := Schedule.resolve 5 " " [("save", 5)] in
  snd r = [" "; "save"] /\ In ("save", 5) (fst r).
Proof. split; [reflexivity | left; reflexivity]. Qed.

(** C4, amended: the commands that fire at a step are those of the
    registrations whose trigger equals the step, one per registration and in
    registration order; such an event stays in the list during the tick in
    which it fires; and at every later step it is neither kept nor due,
    whatever the list then holds, so it cannot fire again. *)
Theorem event_fires_in_one_tick_only :
  forall (step : Z) (live : string) (evs : list Schedule.Event)
         (e : Schedule.Event),
    In e evs ->
    snd e = step ->
    let r := Schedule.resolve step live evs in
    snd r = live :: map fst (filter (fun x => snd x =? step) evs)
    /\ In (fst e) (snd r)
    /\ In e (fst r)
    /\ forall (later : Z) (live' : string) (evs' : list Schedule.Event),
         step < later ->
         let r' := Schedule.resolve later live' evs' in
         ~ In e (fst r') /\ ~ In e (Schedule.due later (fst r')).
Proof.
  intros step live evs e Hin Htrig r. subst r.
  unfold Schedule.resolve; simpl.
  unfold Schedule.fired. rewrite due_prune.
  split; [reflexivity | split; [| split]].
  - right. apply in_map. apply in_due. tauto.
  - apply in_prune. split; [assumption | lia].
  - intros later live' evs' Hlater. simpl. split; intro H.
    + apply in_prune in H. lia.
    + apply in_due in H. lia.
Qed.

Lemma event_fires_in_one_tick_only_witness :
  let r := Schedule.resolve 5 " " [("save", 5); ("eval", 8)] in
  snd r = " " :: map fst (filter (fun x => snd x =? 5) [("save", 5); ("eval", 8)])
  /\ In "save" (snd r)
  /\ In ("save", 5) (fst r)
  /\ forall (later : Z) (live' : string) (evs' : list Schedule.Event),
       5 < later ->
       let r' := Schedule.resolve later live' evs' in
       ~ In ("save", 5) (fst r') /\ ~ In ("save", 5) (Schedule.due later (fst r')).
Proof.
  apply (event_fires_in_one_tick_only 5 " " [("save", 5); ("eval", 8)] ("save", 5)).
  - left; reflexivity.
  - reflexivity.
Defined.

(** ** The infinite epoch generator *)

Section EpochFacts.
Context {B : Type}.

Lemma items_app (t1 t2 : list (Effect B)) :
  Epochs.items (t1 ++ t2) = Epochs.items t1 ++ Epochs.items t2.
Proof.
  induction t1 as [|e t1 IH]; simpl; [reflexivity|].
  destruct e; simpl; rewrite IH; reflexivity.
Qed.

Lemma items_fetched (l : list B) : Epochs.items (map Fetched l) = l.
Proof. induction l as [|b l IH]; simpl; [reflexivity | now rewrite IH]. Qed.

Lemma notifications_app (t1 t2 : list (Effect B)) :
  Epochs.notifications (t1 ++ t2)
  = (Epochs.notifications t1 + Epochs.notifications t2)%nat.
Proof.
  induction t1 as [|e t1 IH]; simpl; [reflexivity|].
  destruct e; simpl; rewrite IH; reflexivity.
Qed.

Lemma notifications_fetched (l : list B) :
  Epochs.notifications (map Fetched l) = O.
Proof. induction l as [|b l IH]; simpl; [reflexivity | exact IH]. Qed.

Lemma items_pass (dl : list B) : Epochs.items (Epochs.pass dl) = dl.
Proof. unfold Epochs.pass. simpl. apply items_fetched. Qed.

Lemma notifications_pass (dl : list B) : Epochs.notifications (Epochs.pass dl) = 1%nat.
Proof. unfold Epochs.pass. simpl. now rewrite notifications_fetched. Qed.

(** While the running pass has items left they come out in order and nothing
    is logged. *)
Lemma pull_within_pass (dl : list B) (k : nat) :
  forall r : list B,
    (k <= List.length r)%nat ->
    Epochs.pull dl k r = Some (map Fetched (firstn k r)).
Proof.
  induction k as [|k IH]; intros r Hk; [reflexivity|].
  destruct r as [|b r]; simpl in Hk; [lia|].
  simpl. rewrite IH by lia. reflexivity.
Qed.

(** The rest of the running pass is delivered before anything else. *)
Lemma pull_rest (dl : list B) (n : nat) :
  forall r : list B,
    Epochs.pull dl (List.length r + n) r
    = option_map (fun t => map Fetched r ++ t) (Epochs.pull dl n []).
Proof.
  induction r as [|b r IH]; simpl.
  - destruct (Epochs.pull dl n []); reflexivity.
  - rewrite IH. destruct (Epochs.pull dl n []); reflexivity.
Qed.

(** From the start, or from the end of a pass, a whole pass comes next. *)
Lemma pull_pass (dl : list B) (n : nat) :
  dl <> [] ->
  Epochs.pull dl (List.length dl + n) []
  = option_map (fun t => Epochs.pass dl ++ t) (Epochs.pull dl n []).
Proof.
  intro Hne. unfold Epochs.pass. destruct dl as [|b tl]; [congruence|].
  change (List.length (b :: tl) + n)%nat with (S (List.length tl + n)).
  cbn [Epochs.pull Epochs.next]. rewrite pull_rest.
  destruct (Epochs.pull (b :: tl) n []); reflexivity.
Qed.

(** Any number of passes: the items of [dl] in order, each pass announced
    once, right before its first item. *)
Lemma pull_passes (dl : list B) (k n : nat) :
  dl <> [] ->
  Epochs.pull dl (k * List.length dl + n) []
  = option_map (fun t => List.concat (repeat (Epochs.pass dl) k) ++ t) (Epochs.pull dl n []).
Proof.
  intro Hne. induction k as [|k IH]; simpl.
  - destruct (Epochs.pull dl n []); reflexivity.
  - rewrite <- Nat.add_assoc, (pull_pass _ _ Hne), IH.
    destruct (Epochs.pull dl n []); simpl; [|reflexivity].
    now rewrite app_assoc.
Qed.

(** The start of a pass that is not completed. *)
Lemma pull_begun_pass (dl : list B) (k : nat) :
  (1 <= k <= List.length dl)%nat ->
  Epochs.pull dl k [] = Some (LogNewEpoch :: map Fetched (firstn k dl)).
Proof.
  intros [H1 Hk]. destruct k as [|k]; [lia|].
  destruct dl as [|b tl]; simpl in Hk; [lia|].
  cbn [Epochs.pull Epochs.next]. rewrite pull_within_pass by lia.
  reflexivity.
Qed.

End EpochFacts.

(** C8, as stated, fails: a source of three items, eleven items pulled; the
    pass notification has been given four times, not three. *)
Lemma fourth_pass_is_announced :
  exists t, Epochs._make_infinite_epochs [1; 2; 3] 11 = Some t
            /\ Epochs.items t = [1; 2; 3; 1; 2; 3; 1; 2; 3; 1; 2]
            /\ Epochs.notifications t = 4%nat
            /\ Epochs.notifications t <> 3%nat.
Proof. eexists. repeat split. discriminate. Qed.

(** C8, amended: over a source of length L >= 1 the generator yields the
    items in order, pass after pass, announcing each pass right before its
    first item.  Pulling 3L+2 items gives three full passes and then the
    first two items of the repeated source; the notification comes before
    items 1, L+1, 2L+1 and again before item 3L+1 (and, when L = 1, before
    item 3L+2 as well): four times, five when L = 1. *)
Theorem three_passes_and_two_items :
  forall (B : Type) (dl : list B),
    (1 <= List.length dl)%nat ->
    exists t,
      Epochs._make_infinite_epochs dl (3 * List.length dl + 2) = Some t
      /\ t = Epochs.pass dl ++ Epochs.pass dl ++ Epochs.pass dl ++ Epochs.two_more dl
      /\ Epochs.items t = dl ++ dl ++ dl ++ firstn 2 (dl ++ dl)
      /\ Epochs.notifications t = (if (List.length dl =? 1)%nat then 5 else 4)%nat.
Proof.
  intros B dl HL. unfold Epochs._make_infinite_epochs.
  assert (Hne : dl <> []) by (destruct dl; simpl in HL; [lia | discriminate]).
  exists (Epochs.pass dl ++ Epochs.pass dl ++ Epochs.pass dl ++ Epochs.two_more dl).
  assert (Htail : Epochs.pull dl 2 [] = Some (Epochs.two_more dl)).
  { unfold Epochs.two_more. destruct (Nat.eqb_spec (List.length dl) 1) as [H1|H1].
    - replace 2%nat with (2 * List.length dl + 0)%nat by lia.
      rewrite (pull_passes dl 2 0 Hne).
      cbn [List.concat repeat option_map Epochs.pull]. now rewrite !app_nil_r.
    - apply pull_begun_pass. lia. }
  split; [|split; [reflexivity | split]].
  - rewrite (pull_passes dl 3 2 Hne), Htail.
    cbn [List.concat repeat option_map].
    now rewrite app_nil_r, <- !app_assoc.
  - rewrite !items_app, !items_pass. do 3 f_equal.
    unfold Epochs.two_more. destruct (Nat.eqb_spec (List.length dl) 1) as [H1|H1].
    + rewrite items_app, items_pass.
      destruct dl as [|b [|b' tl]]; simpl in H1; try lia. reflexivity.
    + simpl. rewrite items_fetched.
      destruct dl as [|b [|b' tl]]; simpl in *; try lia. reflexivity.
  - rewrite !notifications_app, !notifications_pass.
    unfold Epochs.two_more. destruct (Nat.eqb_spec (List.length dl) 1) as [H1|H1].
    + now rewrite notifications_app, !notifications_pass.
    + simpl. now rewrite notifications_fetched.
Qed.

Lemma three_passes_and_two_items_witness :
  exists t,
    Epochs._make_infinite_epochs [10; 20; 30] 11 = Some t
    /\ t = Epochs.pass [10; 20; 30] ++ Epochs.pass [10; 20; 30]
            ++ Epochs.pass [10; 20; 30] ++ Epochs.two_more [10; 20; 30]
    /\ Epochs.items t = [10; 20; 30] ++ [10; 20; 30] ++ [10; 20; 30]
                        ++ firstn 2 ([10; 20; 30] ++ [10; 20; 30])
    /\ Epochs.notifications t = 4%nat.
Proof.
  apply (three_passes_and_two_items Z [10; 20; 30]). simpl. lia.
Defined.

(** With one item in the source every item is a pass of its own. *)
Example single_item_source :
  Epochs._make_infinite_epochs [10] 5
  = Some [LogNewEpoch; Fetched 10; LogNewEpoch; Fetched 10; LogNewEpoch; Fetched 10;
          LogNewEpoch; Fetched 10; LogNewEpoch; Fetched 10].
Proof. reflexivity. Qed.

(** ** The loop body *)

Section TrainerFacts.
Context {B : Type}.
Variable estimate : Z -> Z -> option Exn.
Variable poll : Console -> string * Console.
Variable dl : list B.

Lemma count_app (p : Effect B -> bool) (t1 t2 : list (Effect B)) :
  Trainer.count p (t1 ++ t2) = (Trainer.count p t1 + Trainer.count p t2)%nat.
Proof. unfold Trainer.count. now rewrite filter_app, length_app. Qed.

Lemma count_handling (t : list (Effect B)) :
  forallb Trainer.handling_only t = true ->
  Trainer.count Trainer.is_fetch t = O
  /\ Trainer.count Trainer.is_step t = O
  /\ Trainer.count Trainer.is_flush t = O.
Proof.
  unfold Trainer.count.
  induction t as [|e t IH]; simpl; [tauto|].
  intro H. apply andb_prop in H. destruct H as [He Ht].
  specialize (IH Ht). destruct e; simpl in *; try discriminate; exact IH.
Qed.

Lemma handled_refl (s : Trainer.State (B := B)) : Trainer.handled s s.
Proof.
  repeat split. exists []. now rewrite app_nil_r.
Qed.

Lemma handled_trans (s1 s2 s3 : Trainer.State (B := B)) :
  Trainer.handled s1 s2 -> Trainer.handled s2 s3 -> Trainer.handled s1 s3.
Proof.
  intros (He & Hr & Hc & t & Ht & Hq) (He' & Hr' & Hc' & t' & Ht' & Hq').
  repeat split; try congruence.
  exists (t ++ t'). split.
  - now rewrite Ht', Ht, app_assoc.
  - rewrite forallb_app, Hq, Hq'. reflexivity.
Qed.

Lemma handled_emit (e : Effect B) (s : Trainer.State (B := B)) :
  Trainer.handling_only e = true -> Trainer.handled s (Trainer.emit e s).
Proof.
  intro He. repeat split. exists [e]. split; [reflexivity|].
  simpl. now rewrite He.
Qed.

Lemma handled_set_events (evs : list Schedule.Event) (s : Trainer.State (B := B)) :
  Trainer.handled s (Trainer.set_events evs s).
Proof. repeat split. exists []. simpl. now rewrite app_nil_r. Qed.

Ltac handled_chain :=
  repeat (first
    [ apply handled_refl
    | apply handled_set_events
    | apply handled_emit; reflexivity
    | eapply handled_trans; [| apply handled_emit; reflexivity]
    | eapply handled_trans; [| apply handled_set_events] ]).

Lemma handled_show_events (command : string) (s : Trainer.State (B := B)) :
  Trainer.handled s (Trainer.show_events command s).
Proof. unfold Trainer.show_events. destruct Trainer.mem; handled_chain. Qed.

Lemma handled_clear_events (command : string) (s : Trainer.State (B := B)) :
  Trainer.handled s (Trainer.clear_events command s).
Proof. unfold Trainer.clear_events. destruct String.eqb; handled_chain. Qed.

Lemma handled_time_target (command : string) (s : Trainer.State (B := B)) :
  Trainer.handled s (snd (Trainer.time_target command s)).
Proof.
  unfold Trainer.time_target.
  destruct (Py.contains " to " command); [|apply handled_refl].
  destruct Py.int; simpl; handled_chain.
Qed.

Lemma handled_time_query (command : string) (s : Trainer.State (B := B)) :
  Trainer.handled s (Trainer.flow_state (Trainer.time_query estimate command s)).
Proof.
  unfold Trainer.time_query.
  destruct (Py.contains "time" command); [|apply handled_refl].
  pose proof (handled_time_target command s) as Ht.
  destruct (Trainer.time_target command s) as [target_iter s1].
  destruct estimate; simpl in *; [exact Ht|].
  eapply handled_trans; [exact Ht|]. handled_chain.
Qed.

Lemma handled_checkpoint (command : string) (s : Trainer.State (B := B)) :
  Trainer.handled s (Trainer.flow_state (Trainer.checkpoint command s)).
Proof.
  unfold Trainer.checkpoint.
  destruct (_ =? 0); [apply handled_refl|].
  match goal with |- context [if ?c then _ else _] => destruct c end;
    simpl; handled_chain.
Qed.

Lemma handled_evaluate (s : Trainer.State (B := B)) :
  Trainer.handled s (Trainer.evaluate s).
Proof.
  unfold Trainer.evaluate, Trainer.eval_fn, Trainer.global_leader_only.
  destruct (global_leader _); handled_chain.
Qed.

Lemma handled_evaluation (command : string) (s : Trainer.State (B := B)) :
  Trainer.handled s (Trainer.flow_state (Trainer.evaluation command s)).
Proof.
  unfold Trainer.evaluation.
  destruct (_ =? 0); [apply handled_refl|].
  match goal with |- context [if ?c then _ else _] => destruct c end;
    simpl; [apply handled_evaluate | apply handled_refl].
Qed.

Lemma handled_quit (command : string) (s : Trainer.State (B := B)) :
  Trainer.handled s (Trainer.flow_state (Trainer.quit command s)).
Proof. unfold Trainer.quit. destruct Trainer.mem; apply handled_refl. Qed.

Lemma handled_bind {A A'} (m : Trainer.Flow A)
      (k : A -> Trainer.State (B := B) -> Trainer.Flow A')
      (s : Trainer.State (B := B)) :
  Trainer.handled s (Trainer.flow_state m) ->
  (forall a s1, Trainer.handled s1 (Trainer.flow_state (k a s1))) ->
  Trainer.handled s (Trainer.flow_state (Trainer.bind m k)).
Proof.
  intros Hm Hk. destruct m as [a s1|s1|e s1]; simpl in *; try assumption.
  eapply handled_trans; [exact Hm | apply Hk].
Qed.

Lemma handled_process_command (command : string) (s : Trainer.State (B := B)) :
  Trainer.handled s (Trainer.flow_state (Trainer.process_command estimate command s)).
Proof.
  unfold Trainer.process_command.
  apply handled_bind.
  - eapply handled_trans; [|apply handled_time_query].
    eapply handled_trans; [|apply handled_clear_events].
    apply handled_show_events.
  - intros _ s0. apply handled_bind; [apply handled_checkpoint|].
    intros _ s1. apply handled_bind; [apply handled_evaluation|].
    intros _ s2. apply handled_quit.
Qed.

Lemma handled_process_commands (commands : list string) :
  forall s : Trainer.State (B := B),
    Trainer.handled s (Trainer.flow_state (Trainer.process_commands estimate commands s)).
Proof.
  induction commands as [|c cs IH]; intro s; simpl; [apply handled_refl|].
  apply handled_bind; [apply handled_process_command|].
  intros _ s1. apply IH.
Qed.

Lemma handled_register_block (command : string) (s : Trainer.State (B := B)) :
  Trainer.handled s (Trainer.flow_state (Trainer.register_block command s)).
Proof.
  unfold Trainer.register_block.
  destruct (Py.contains "@" command); [|apply handled_refl].
  destruct Trainer.unpack2 as [[what when]|e]; [|apply handled_refl].
  unfold Schedule.register. destruct Py.int; simpl; handled_chain.
Qed.

(** One tick: the step advances by one, the generator is not touched, and
    the trace grows by the four entries of lines 169 to 173 followed by
    entries of command handling. *)
Lemma tick_shape (b : B) (s : Trainer.State (B := B)) :
  let s' := Trainer.flow_state (Trainer.tick estimate poll b s) in
  Trainer.engines s'
  = {| global_step := Trainer.step_of s + 1; cfg := Trainer.cfg_of s |}
  /\ Trainer.rest s' = Trainer.rest s
  /\ exists t,
       Trainer.trace s'
       = Trainer.trace s
         ++ [EngineStep b; WriterAddScalar (Trainer.step_of s + 1); WriterFlush;
             LoggerStats (Trainer.step_of s + 1)] ++ t
       /\ forallb Trainer.handling_only t = true.
Proof.
  unfold Trainer.tick, Trainer.poll_command.
  destruct (poll (Trainer.console (Trainer.train_step b s))) as [command w].
  set (s1 := Trainer.set_console w (Trainer.train_step b s)).
  assert (H : Trainer.handled s1
                (Trainer.flow_state
                   (Trainer.bind (Trainer.register_block command s1)
                      (fun live s2 =>
                         let (events', commands) :=
                           Schedule.resolve (Trainer.step_of s2) live (Trainer.events s2) in
                         Trainer.process_commands estimate commands
                           (Trainer.set_events events' s2))))).
  { apply handled_bind; [apply handled_register_block|].
    intros live s2. unfold Schedule.resolve. cbv beta iota zeta.
    eapply handled_trans; [|apply handled_process_commands].
    apply handled_set_events. }
  destruct H as (He & Hr & _ & t & Ht & Hq).
  cbv zeta. rewrite He, Hr, Ht. subst s1. simpl.
  repeat split. exists t. split; [|exact Hq].
  now rewrite <- app_assoc.
Qed.

Lemma tick_counts (b : B) (s : Trainer.State (B := B)) :
  let s' := Trainer.flow_state (Trainer.tick estimate poll b s) in
  Trainer.fetches s' = Trainer.fetches s
  /\ Trainer.steps s' = S (Trainer.steps s)
  /\ Trainer.flushes s' = S (Trainer.flushes s)
  /\ Trainer.step_of s' = Trainer.step_of s + 1
  /\ Trainer.cfg_of s' = Trainer.cfg_of s.
Proof.
  destruct (tick_shape b s) as (He & _ & t & Ht & Hq).
  destruct (count_handling t Hq) as (Hf & Hs & Hl).
  cbv zeta. unfold Trainer.fetches, Trainer.steps, Trainer.flushes,
    Trainer.step_of, Trainer.cfg_of.
  rewrite He, Ht, !count_app, Hf, Hs, Hl. simpl.
  unfold Trainer.count; simpl. repeat split; lia.
Qed.

Lemma next_logged (r r' : list B) (logged : list (Effect B)) (b : B) :
  Epochs.next dl r = Some (logged, b, r') ->
  logged = [] \/ logged = [LogNewEpoch].
Proof.
  unfold Epochs.next. destruct r; [destruct dl|]; intro H;
    try discriminate; inversion H; auto.
Qed.

Lemma fetch_counts (logged : list (Effect B)) (b : B) (r : list B) (s : Trainer.State (B := B)) :
  logged = [] \/ logged = [LogNewEpoch] ->
  let s1 := Trainer.emits (logged ++ [Fetched b]) (Trainer.set_rest r s) in
  Trainer.fetches s1 = S (Trainer.fetches s)
  /\ Trainer.steps s1 = Trainer.steps s
  /\ Trainer.flushes s1 = Trainer.flushes s
  /\ Trainer.engines s1 = Trainer.engines s.
Proof.
  intros Hl. cbv zeta.
  unfold Trainer.fetches, Trainer.steps, Trainer.flushes. simpl.
  rewrite !count_app.
  destruct Hl as [-> | ->]; unfold Trainer.count; simpl; repeat split; lia.
Qed.

(** However the loop is left, the trace balances: a batch was fetched for
    every training step, every training step was followed by a flush, and on
    [break] one more batch was fetched than was trained on. *)
Lemma loop_counts (fuel : nat) :
  forall s : Trainer.State (B := B),
    match Trainer.loop estimate poll dl fuel s with
    | Trainer.Broke s' =>
        max_iter (Trainer.cfg_of s') <= Trainer.step_of s'
        /\ (exists t b, Trainer.trace s' = t ++ [Fetched b])
        /\ (Trainer.fetches s' + Trainer.steps s
            = Trainer.fetches s + Trainer.steps s' + 1)%nat
        /\ (Trainer.flushes s' + Trainer.steps s
            = Trainer.flushes s + Trainer.steps s')%nat
    | Trainer.Returned s' | Trainer.Crashed _ s' =>
        (Trainer.fetches s' + Trainer.steps s
         = Trainer.fetches s + Trainer.steps s')%nat
        /\ (Trainer.flushes s' + Trainer.steps s
            = Trainer.flushes s + Trainer.steps s')%nat
    | _ => True
    end.
Proof.
  induction fuel as [|fuel IH]; intro s; simpl; [exact I|].
  destruct (Epochs.next dl (Trainer.rest s)) as [[[logged b] r]|] eqn:Hnext;
    [|exact I].
  pose proof (fetch_counts logged b r s (next_logged _ _ _ _ Hnext)) as Hfetch.
  cbv zeta in Hfetch. destruct Hfetch as (Hf1 & Hs1 & Hl1 & He1).
  set (s1 := Trainer.emits (logged ++ [Fetched b]) (Trainer.set_rest r s)) in *.
  destruct (Z.leb_spec (max_iter (Trainer.cfg_of s1)) (Trainer.step_of s1)) as [Hmax|Hmax].
  - split; [exact Hmax|]. split; [|lia].
    exists (Trainer.trace s ++ logged), b. subst s1. simpl.
    now rewrite app_assoc.
  - pose proof (tick_counts b s1) as Htick. cbv zeta in Htick.
    destruct Htick as (Hf2 & Hs2 & Hl2 & _).
    destruct (Trainer.tick estimate poll b s1) as [[] s2|s2|e s2]; simpl in *.
    + specialize (IH s2).
      destruct (Trainer.loop estimate poll dl fuel s2) as [s'|s'|e s'|s'|s'];
        try exact I.
      * destruct IH as (H1 & H2 & H3 & H4). repeat split; try assumption; lia.
      * lia.
      * lia.
    + lia.
    + lia.
Qed.

(** The loop is left within [enough] rounds: each round either leaves it or
    advances the step by one towards [max_iter]. *)
Lemma loop_is_left (fuel : nat) :
  forall s : Trainer.State (B := B),
    (Z.to_nat (max_iter (Trainer.cfg_of s) - Trainer.step_of s) < fuel)%nat ->
    forall s', Trainer.loop estimate poll dl fuel s <> Trainer.OutOfFuel s'.
Proof.
  induction fuel as [|fuel IH]; intros s Hfuel s'; [lia|]. simpl.
  destruct (Epochs.next dl (Trainer.rest s)) as [[[logged b] r]|]; [|discriminate].
  set (s1 := Trainer.emits (logged ++ [Fetched b]) (Trainer.set_rest r s)).
  destruct (Z.leb_spec (max_iter (Trainer.cfg_of s1)) (Trainer.step_of s1)) as [Hmax|Hmax];
    [discriminate|].
  pose proof (tick_counts b s1) as Htick. cbv zeta in Htick.
  destruct Htick as (_ & _ & _ & Hstep & Hcfg).
  destruct (Trainer.tick estimate poll b s1) as [[] s2|s2|e s2]; simpl in *;
    try discriminate.
  apply IH. rewrite Hcfg, Hstep.
  unfold Trainer.cfg_of, Trainer.step_of in *.
  change (Trainer.engines s1) with (Trainer.engines s) in *. lia.
Qed.

End TrainerFacts.

(** ** Splitting and reading a registration *)

Lemma append_empty_r (s : string) : (s ++ "")%string = s.
Proof. induction s as [|c s IH]; simpl; [reflexivity | now rewrite IH]. Qed.

Lemma append_assoc3 (a b c : string) :
  ((a ++ b) ++ c)%string = (a ++ b ++ c)%string.
Proof. induction a as [|x a IH]; simpl; [reflexivity | now rewrite IH]. Qed.

Lemma prefix_at_head (c : ascii) (x : string) :
  String.prefix "@" (String c x) = if ascii_dec "@" c then true else false.
Proof.
  cbn [String.prefix]. destruct (ascii_dec "@" c); [destruct x|]; reflexivity.
Qed.

Lemma contains_at_cons (c : ascii) (x : string) :
  Py.contains "@" (String c x)
  = if ascii_dec "@" c then true else Py.contains "@" x.
Proof.
  cbn [Py.contains]. rewrite prefix_at_head.
  destruct (ascii_dec "@" c); reflexivity.
Qed.

Lemma contains_at_empty : Py.contains "@" "" = false.
Proof. reflexivity. Qed.

(** A text without [@] is one piece. *)
Lemma split_go_plain (s : string) :
  forall cur : string,
    Py.contains "@" s = false ->
    Py.split_go "@" O cur s = [(cur ++ s)%string].
Proof.
  induction s as [|c s IH]; intros cur Hno.
  - simpl. now rewrite append_empty_r.
  - rewrite contains_at_cons in Hno.
    cbn [Py.split_go]. rewrite prefix_at_head.
    destruct (ascii_dec "@" c); [discriminate|].
    rewrite IH by assumption. now rewrite append_assoc3.
Qed.

(** The first [@] ends the first piece. *)
Lemma split_go_first (what rest : string) :
  forall cur : string,
    Py.contains "@" what = false ->
    Py.split_go "@" O cur (what ++ String "@" rest)
    = (cur ++ what)%string :: Py.split_go "@" O "" rest.
Proof.
  induction what as [|c what IH]; intros cur Hno.
  - cbn [append Py.split_go]. rewrite prefix_at_head.
    destruct (ascii_dec "@" "@") as [_|Hne]; [|congruence].
    simpl. now rewrite append_empty_r.
  - rewrite contains_at_cons in Hno.
    cbn [append Py.split_go]. rewrite prefix_at_head.
    destruct (ascii_dec "@" c); [discriminate|].
    rewrite IH by assumption. now rewrite append_assoc3.
Qed.

Lemma split_one_at (what when : string) :
  Py.contains "@" what = false ->
  Py.contains "@" when = false ->
  Py.split "@" (what ++ String "@" when) = [what; when].
Proof.
  intros Hwhat Hwhen. unfold Py.split.
  rewrite split_go_first by assumption.
  now rewrite split_go_plain by assumption.
Qed.

Lemma contains_at_inserted (what when : string) :
  Py.contains "@" (what ++ String "@" when) = true.
Proof.
  induction what as [|c what IH].
  - cbn [append]. rewrite contains_at_cons.
    destruct (ascii_dec "@" "@"); congruence.
  - cbn [append]. rewrite contains_at_cons, IH.
    destruct (ascii_dec "@" c); reflexivity.
Qed.

(** A text that [digits_tail] accepts has no white space, so stripping
    leaves it as it is. *)
Lemma digit_not_space (c : ascii) (d : Z) :
  Py.digit_of c = Some d -> Py.is_space c = false.
Proof.
  unfold Py.digit_of, Py.is_space.
  destruct (Nat.leb_spec 48 (nat_of_ascii c)); [|discriminate].
  destruct (Nat.leb_spec (nat_of_ascii c) 57); [|discriminate].
  intros _.
  destruct (Nat.leb_spec (nat_of_ascii c) 13); [lia|].
  destruct (Nat.eqb_spec (nat_of_ascii c) 32); [lia|].
  now rewrite andb_false_r.
Qed.

Lemma underscore_not_space (c : ascii) :
  Py.is_underscore c = true -> Py.is_space c = false.
Proof.
  unfold Py.is_underscore, Py.is_space. intro H.
  apply Nat.eqb_eq in H. rewrite H. reflexivity.
Qed.

Lemma rstrip_cons (c : ascii) (s : string) :
  Py.is_space c = false -> Py.rstrip s = s ->
  Py.rstrip (String c s) = String c s.
Proof.
  intros Hc Hs. cbn [Py.rstrip]. rewrite Hs, Hc. destruct s; reflexivity.
Qed.

Lemma rstrip_digits_tail (s : string) :
  forall acc n, Py.digits_tail acc s = Some n -> Py.rstrip s = s.
Proof.
  induction s as [|c s IH]; intros acc n H; [reflexivity|].
  cbn [Py.digits_tail] in H.
  destruct (Py.digit_of c) as [d|] eqn:Hd.
  - apply rstrip_cons; [eapply digit_not_space; eassumption | eauto].
  - destruct (Py.is_underscore c) eqn:Hu; [|discriminate].
    destruct s as [|c' s']; [discriminate|].
    destruct (Py.digit_of c') as [d'|] eqn:Hd'; [|discriminate].
    apply rstrip_cons; [now apply underscore_not_space|].
    apply (IH acc n). cbn [Py.digits_tail]. now rewrite Hd'.
Qed.

Lemma rstrip_digits (s : string) (n : Z) :
  Py.digits s = Some n -> Py.rstrip s = s /\ s <> "".
Proof.
  unfold Py.digits. destruct s as [|c s]; [discriminate|].
  destruct (Py.digit_of c) as [d|] eqn:Hd; [|discriminate].
  intro H. split; [|discriminate].
  apply rstrip_cons; [eapply digit_not_space; eassumption|].
  eapply rstrip_digits_tail; eassumption.
Qed.

(** [int] reads a minus sign in front of digits: the result is negative. *)
Lemma int_reads_negative (text : string) (n : Z) :
  Py.digits text = Some n ->
  Py.int (String "-" text) = Some (- n).
Proof.
  intro H. destruct (rstrip_digits text n H) as [Hr Hne].
  unfold Py.int. cbn [Py.lstrip].
  change (Py.is_space "-") with false. cbv iota.
  cbn [Py.rstrip]. rewrite Hr.
  destruct text as [|c t]; [congruence|].
  change (Py.is_space "-") with false. cbv iota.
  now rewrite H.
Qed.

(** ** Registering an event *)

(** C9, as stated, fails: the trigger text [-5] is read as the integer -5
    and the event is appended. *)
Lemma negative_trigger_is_registered :
  Py.int "-5" = Some (-5)
  /\ Schedule.register (B := nat) "save@-5" "save" "-5" [("eval", 9)]
     = ([("eval", 9); ("save", -5)], LogInfo "Event save@-5 registered.").
Proof. split; reflexivity. Qed.

(** The registration block on a command with a single [@]. *)
Lemma register_block_single_at {B} (what when : string) (s : Trainer.State (B := B)) :
  Py.contains "@" what = false ->
  Py.contains "@" when = false ->
  Trainer.register_block (what ++ String "@" when) s
  = Trainer.Next ""
      match Py.int when with
      | Some n =>
          Trainer.emit
            (LogInfo ("Event " ++ (what ++ String "@" when) ++ " registered.")%string)
            (Trainer.set_events (Trainer.events s ++ [(what, n)]) s)
      | None => Trainer.emit LogError (Trainer.set_events (Trainer.events s) s)
      end.
Proof.
  intros Hwhat Hwhen.
  unfold Trainer.register_block.
  rewrite contains_at_inserted, split_one_at by assumption.
  cbn [Trainer.unpack2]. unfold Schedule.register.
  destruct (Py.int when); reflexivity.
Qed.

(** C9, amended: for a command [what@when] with a single [@] whose trigger
    text [when] is ASCII text within the digit limit, the event [(what, n)]
    is appended to the list, whatever the list already holds, exactly when
    [int] reads the text [when] as an integer [n], of either sign; when
    [int] does not read it the error is logged and the list is left as it
    is.  Either way no exception leaves the block and the live command of
    the tick is the empty one. *)
Theorem registration_follows_int :
  forall (B : Type) (what when : string) (s : Trainer.State (B := B)),
    Py.contains "@" what = false ->
    Py.contains "@" when = false ->
    Py.int_text when = true ->
    let command := (what ++ String "@" when)%string in
    Trainer.register_block command s
    = Trainer.Next ""
        match Py.int when with
        | Some n =>
            Trainer.emit (LogInfo ("Event " ++ command ++ " registered.")%string)
              (Trainer.set_events (Trainer.events s ++ [(what, n)]) s)
        | None => Trainer.emit LogError (Trainer.set_events (Trainer.events s) s)
        end.
Proof.
  intros B what when s Hwhat Hwhen _ command. subst command.
  now apply register_block_single_at.
Qed.

Lemma registration_follows_int_witness :
  let s := {| Trainer.engines :=
                {| global_step := 3;
                   cfg := {| cfg_name := "run"; max_iter := 10;
                             save_ckpt_every := Some 2; eval_every := 5;
                             save_on_quit := false |} |};
              Trainer.events := [("save", -5)];
              Trainer.rest := [1%nat];
              Trainer.console := {| global_leader := true; local_leader := true;
                                    stdin := [] |};
              Trainer.trace := [] |} in
  Trainer.register_block "save@-5" s
  = Trainer.Next ""
      (Trainer.emit (LogInfo "Event save@-5 registered.")
         (Trainer.set_events [("save", -5); ("save", -5)] s)).
Proof.
  intro s. apply (registration_follows_int nat "save" "-5" s); reflexivity.
Defined.

(** A minus sign in front of any digits that [int] reads gives an event
    with a negative trigger. *)
Lemma negative_triggers_are_registered {B} (what text : string) (n : Z)
      (evs : list Schedule.Event) :
  Py.int_text (String "-" text) = true ->
  Py.digits text = Some n ->
  fst (Schedule.register (B := B) (what ++ "@-" ++ text)%string what
         (String "-" text) evs)
  = evs ++ [(what, - n)].
Proof.
  intros _ H. unfold Schedule.register.
  now rewrite (int_reads_negative text n H).
Qed.

(** ** A command with more than one [@] *)

(** Unpacking stands outside the [try]: on a command with two [@] the
    block raises [ValueError] and nothing is logged. *)
Lemma two_at_signs_raise {B} (s : Trainer.State (B := B)) :
  Trainer.register_block "a@1@2" s
  = Trainer.Raise (ValueError "too many values to unpack (expected 2)") s.
Proof. reflexivity. Qed.

(** With at most one [@], and whatever stands after it, the block does not
    raise. *)
Lemma one_at_sign_never_raises {B} (what when : string) (s : Trainer.State (B := B)) :
  Py.contains "@" what = false ->
  Py.contains "@" when = false ->
  exists s', Trainer.register_block (what ++ String "@" when) s = Trainer.Next "" s'.
Proof.
  intros Hwhat Hwhen. rewrite register_block_single_at by assumption.
  eexists; reflexivity.
Qed.

(** ** Leaving the loop *)

(** C5, as stated, fails: [train] is entered with the step already at
    [max_iter]; a batch is fetched from the generator all the same, and only
    then does the loop stop. *)
Lemma batch_is_fetched_at_max :
  let loaded := {| global_step := 5;
                   cfg := {| cfg_name := "run"; max_iter := 5;
                             save_ckpt_every := Some 2; eval_every := 5;
                             save_on_quit := false |} |} in
  let w := {| global_leader := true; local_leader := false; stdin := [] |} in
  exists s,
    Trainer.train (fun _ _ => None) [7%nat; 8%nat] 3 loaded w = Trainer.Finished s
    /\ Trainer.trace s = [WriterOpen; LogNewEpoch; Fetched 7%nat; WriterFlush]
    /\ Trainer.fetches s = 1%nat
    /\ Trainer.steps s = 0%nat.
Proof. eexists. repeat split. Qed.

(** With the step at [max_iter] or beyond, one round of the loop fetches one
    batch, trains on nothing and breaks. *)
Lemma round_at_max {B} (estimate : Z -> Z -> option Exn)
      (poll : Console -> string * Console) (dl : list B)
      (fuel : nat) (s : Trainer.State (B := B)) :
  dl <> [] ->
  max_iter (Trainer.cfg_of s) <= Trainer.step_of s ->
  exists logged b r,
    Epochs.next dl (Trainer.rest s) = Some (logged, b, r)
    /\ Trainer.loop estimate poll dl (S fuel) s
       = Trainer.Broke (Trainer.emits (logged ++ [Fetched b]) (Trainer.set_rest r s)).
Proof.
  intros Hne Hmax.
  assert (Hnext : exists logged b r,
             Epochs.next dl (Trainer.rest s) = Some (logged, b, r)).
  { unfold Epochs.next. destruct (Trainer.rest s) as [|b r]; [|eauto].
    destruct dl as [|b r]; [congruence | eauto]. }
  destruct Hnext as (logged & b & r & Hnext).
  exists logged, b, r. split; [exact Hnext|].
  cbn [Trainer.loop]. rewrite Hnext.
  change (Trainer.cfg_of (Trainer.emits (logged ++ [Fetched b]) (Trainer.set_rest r s)))
    with (Trainer.cfg_of s).
  change (Trainer.step_of (Trainer.emits (logged ++ [Fetched b]) (Trainer.set_rest r s)))
    with (Trainer.step_of s).
  apply Z.leb_le in Hmax. now rewrite Hmax.
Qed.

(** C5, amended: every round of the loop fetches the next batch first and
    compares the step with [max_iter] afterwards.  Entered with the step at
    [max_iter] or beyond, a round fetches one batch, trains on nothing and
    breaks.  And whenever the loop is left by [break], the step has reached
    [max_iter], the last thing done was to fetch a batch that is never
    trained on, and one more batch has been fetched than training steps were
    made. *)
Theorem loop_fetches_before_the_test :
  forall (B : Type) (estimate : Z -> Z -> option Exn)
         (poll : Console -> string * Console) (dl : list B)
         (fuel : nat) (s : Trainer.State (B := B)),
    dl <> [] ->
    (max_iter (Trainer.cfg_of s) <= Trainer.step_of s ->
     exists logged b r,
       Epochs.next dl (Trainer.rest s) = Some (logged, b, r)
       /\ Trainer.loop estimate poll dl (S fuel) s
          = Trainer.Broke
              (Trainer.emits (logged ++ [Fetched b]) (Trainer.set_rest r s)))
    /\ (forall s',
          Trainer.loop estimate poll dl fuel s = Trainer.Broke s' ->
          max_iter (Trainer.cfg_of s') <= Trainer.step_of s'
          /\ (exists t b, Trainer.trace s' = t ++ [Fetched b])
          /\ (Trainer.fetches s' + Trainer.steps s
              = Trainer.fetches s + Trainer.steps s' + 1)%nat).
Proof.
  intros B estimate poll dl fuel s Hne. split.
  - intro Hmax. now apply round_at_max.
  - intros s' H.
    pose proof (loop_counts estimate poll dl fuel s) as Hc. rewrite H in Hc.
    tauto.
Qed.

Lemma loop_fetches_before_the_test_witness :
  let s := {| Trainer.engines :=
                {| global_step := 5;
                   cfg := {| cfg_name := "run"; max_iter := 5;
                             save_ckpt_every := Some 2; eval_every := 5;
                             save_on_quit := false |} |};
              Trainer.events := [];
              Trainer.rest := [8%nat];
              Trainer.console := {| global_leader := true; local_leader := true;
                                    stdin := [] |};
              Trainer.trace := [] |} in
  (exists logged b r,
     Epochs.next [7%nat; 8%nat] (Trainer.rest s) = Some (logged, b, r)
     /\ Trainer.loop (fun _ _ => None) _non_blocking_input [7%nat; 8%nat] 3 s
        = Trainer.Broke
            (Trainer.emits (logged ++ [Fetched b]) (Trainer.set_rest r s)))
  /\ exists s',
       Trainer.loop (fun _ _ => None) _non_blocking_input [7%nat; 8%nat] 2 s
       = Trainer.Broke s'
       /\ max_iter (Trainer.cfg_of s') <= Trainer.step_of s'
       /\ (exists t b, Trainer.trace s' = t ++ [Fetched b])
       /\ (Trainer.fetches s' + Trainer.steps s
           = Trainer.fetches s + Trainer.steps s' + 1)%nat.
Proof.
  intro s.
  destruct (loop_fetches_before_the_test nat (fun _ _ => None) _non_blocking_input
              [7%nat; 8%nat] 2 s ltac:(discriminate)) as [H1 H2].
  split.
  - apply H1. vm_compute. discriminate.
  - eexists. split; [vm_compute; reflexivity|].
    apply H2. vm_compute. reflexivity.
Defined.

(** ** The flush after the loop *)

(** Whatever the commands: a [return] inside the loop leaves as many flushes
    as training steps, a [break] followed by line 262 one more. *)
Lemma flushes_by_exit {B} (estimate : Z -> Z -> option Exn)
      (poll : Console -> string * Console) (dl : list B)
      (fuel : nat) (s : Trainer.State (B := B)) :
  match Trainer.loop estimate poll dl fuel s with
  | Trainer.Broke s' =>
      (Trainer.flushes (Trainer.emit WriterFlush s') + Trainer.steps s
       = Trainer.flushes s + Trainer.steps (Trainer.emit WriterFlush s') + 1)%nat
  | Trainer.Returned s' =>
      (Trainer.flushes s' + Trainer.steps s
       = Trainer.flushes s + Trainer.steps s')%nat
  | _ => True
  end.
Proof.
  pose proof (loop_counts estimate poll dl fuel s) as Hc.
  destruct (Trainer.loop estimate poll dl fuel s) as [s'|s'|e s'|s'|s']; try exact I.
  - destruct Hc as (_ & _ & _ & Hl).
    unfold Trainer.flushes, Trainer.steps in *. simpl.
    rewrite !count_app.
    change (Trainer.count Trainer.is_flush [WriterFlush (B := B)]) with 1%nat.
    change (Trainer.count Trainer.is_step [WriterFlush (B := B)]) with 0%nat.
    lia.
  - tauto.
Qed.

(** The generator over a data loader that is not empty always yields. *)
Lemma loop_never_starves {B} (estimate : Z -> Z -> option Exn)
      (poll : Console -> string * Console) (dl : list B) :
  dl <> [] ->
  forall (fuel : nat) (s s' : Trainer.State (B := B)),
    Trainer.loop estimate poll dl fuel s <> Trainer.Starved s'.
Proof.
  intros Hne fuel. induction fuel as [|fuel IH]; intros s s'; [discriminate|].
  cbn [Trainer.loop].
  destruct (Epochs.next dl (Trainer.rest s)) as [[[logged b] r]|] eqn:Hnext.
  - destruct (_ <=? _); [discriminate|].
    destruct (Trainer.tick estimate _ _ _) as [[] s2|s2|e s2]; try discriminate.
    apply IH.
  - exfalso. unfold Epochs.next in Hnext.
    destruct (Trainer.rest s); [|discriminate].
    destruct dl; [congruence | discriminate].
Qed.

(** A non-zero [eval_every] makes the checkpoint cadence non-zero. *)
Lemma cadence_nonzero (c : Config) : eval_every c <> 0 -> Trainer.cadence c <> 0.
Proof.
  unfold Trainer.cadence, Py.or_int. intro H.
  destruct (save_ckpt_every c) as [n|]; [|exact H].
  destruct (Z.eqb_spec n 0); assumption.
Qed.

(** ** [train] with the input function of the file *)

Section Shipped.
Context {B : Type}.
Variable estimate : Z -> Z -> option Exn.
Variable dl : list B.

Lemma saved_at_app (t1 t2 : list (Effect B)) :
  Trainer.saved_at (t1 ++ t2) = Trainer.saved_at t1 ++ Trainer.saved_at t2.
Proof.
  induction t1 as [|e t1 IH]; simpl; [reflexivity|].
  destruct e; simpl; rewrite IH; reflexivity.
Qed.

Lemma space_is_no_saving_command (c : Config) :
  Trainer.mem " " (Trainer.saving_commands c) = false.
Proof. unfold Trainer.saving_commands. destruct (save_on_quit c); reflexivity. Qed.

(** What lines 254 to 256 add to the trace: the two mode switches, and
    between them the run of [eval_fn] on the global leader. *)
Lemma evaluate_emits (s : Trainer.State (B := B)) :
  Trainer.evaluate s
  = Trainer.emits
      (EnginesEval
       :: (if global_leader (Trainer.console s)
           then [EvalFn (Trainer.step_of s)] else [])
       ++ [EnginesTrain]) s.
Proof.
  unfold Trainer.evaluate, Trainer.eval_fn, Trainer.global_leader_only,
    Trainer.emit, Trainer.emits.
  cbn [Trainer.console].
  destruct (global_leader (Trainer.console s)); simpl;
    rewrite <- !app_assoc; reflexivity.
Qed.

Lemma evaluate_keeps (s : Trainer.State (B := B)) :
  Trainer.events (Trainer.evaluate s) = Trainer.events s
  /\ Trainer.console (Trainer.evaluate s) = Trainer.console s.
Proof. rewrite evaluate_emits. split; reflexivity. Qed.

Lemma saved_at_evaluate_count (s : Trainer.State (B := B)) :
  Trainer.count Trainer.is_save (Trainer.trace (Trainer.evaluate s))
  = Trainer.count Trainer.is_save (Trainer.trace s).
Proof.
  rewrite evaluate_emits. cbn [Trainer.trace Trainer.emits].
  rewrite count_app.
  destruct (global_leader _); cbn; lia.
Qed.

Lemma saved_at_evaluate (s : Trainer.State (B := B)) :
  Trainer.saved_at (Trainer.trace (Trainer.evaluate s))
  = Trainer.saved_at (Trainer.trace s).
Proof.
  rewrite evaluate_emits. cbn [Trainer.trace Trainer.emits].
  rewrite saved_at_app.
  destruct (global_leader _); cbn; now rewrite app_nil_r.
Qed.

(** The one-space command triggers nothing by itself: it never returns from
    [train], it leaves the event list and the surroundings alone, and the
    only exception it can meet is the division by a cadence of zero. *)
Lemma space_never_returns (s : Trainer.State (B := B)) :
  match Trainer.process_command estimate " " s with
  | Trainer.Return_ _ => False
  | Trainer.Next _ s' =>
      Trainer.events s' = Trainer.events s /\ Trainer.console s' = Trainer.console s
  | Trainer.Raise e s' =>
      Trainer.events s' = Trainer.events s /\ Trainer.console s' = Trainer.console s
      /\ e = ZeroDivisionError /\ eval_every (Trainer.cfg_of s) = 0
  end.
Proof.
  unfold Trainer.process_command.
  change (Trainer.time_query estimate " "
            (Trainer.clear_events " " (Trainer.show_events " " s)))
    with (Trainer.Next (B := B) tt s).
  cbn [Trainer.bind].
  unfold Trainer.checkpoint.
  destruct (Z.eqb_spec (Trainer.cadence (Trainer.cfg_of s)) 0) as [Hc|Hc].
  { cbn [Trainer.bind]. repeat split.
    destruct (Z.eq_dec (eval_every (Trainer.cfg_of s)) 0) as [H|H]; [exact H|].
    now apply cadence_nonzero in H. }
  rewrite space_is_no_saving_command.
  match goal with |- context [if ?c then _ else _] => destruct c end;
    cbn [Trainer.bind]; unfold Trainer.evaluation;
    change (Trainer.cfg_of (Trainer.emit _ (Trainer.emit _ s)))
      with (Trainer.cfg_of s);
    (destruct (Z.eqb_spec (eval_every (Trainer.cfg_of s)) 0) as [He|He];
     [cbn [Trainer.bind]; repeat split; exact He|]);
    match goal with |- context [if ?c then _ else _] => destruct c end;
    cbn [Trainer.bind Trainer.quit Trainer.mem existsb String.eqb Ascii.eqb
         Bool.eqb orb];
    try (split; reflexivity).
  all: match goal with
       | |- context [Trainer.evaluate ?x] =>
           destruct (evaluate_keeps x) as [H1 H2]; rewrite H1, H2
       end; split; reflexivity.
Qed.

Lemma shipped_tick_flow (b : B) (s : Trainer.State (B := B)) :
  Trainer.events s = [] ->
  match Trainer.tick estimate _non_blocking_input b s with
  | Trainer.Return_ _ => False
  | Trainer.Next _ s' =>
      Trainer.events s' = [] /\ Trainer.console s' = Trainer.console s
  | Trainer.Raise e s' =>
      Trainer.events s' = [] /\ Trainer.console s' = Trainer.console s
      /\ e = ZeroDivisionError /\ eval_every (Trainer.cfg_of s) = 0
  end.
Proof.
  intro Hev. unfold Trainer.tick, Trainer.poll_command, _non_blocking_input.
  unfold Trainer.register_block.
  change (Py.contains "@" " ") with false. cbv iota. cbn [Trainer.bind].
  unfold Schedule.resolve.
  change (Trainer.events (Trainer.set_console _ (Trainer.train_step b s)))
    with (Trainer.events s).
  rewrite Hev. cbn [Schedule.prune Schedule.fired Schedule.due filter map].
  cbn [Trainer.process_commands].
  match goal with
  | |- context [Trainer.process_command estimate " " ?x] =>
      pose proof (space_never_returns x) as H;
      destruct (Trainer.process_command estimate " " x) as [[] s'|s'|e s']
  end; cbn [Trainer.bind]; exact H.
Qed.

(** With the input function of the file and no event pending, the commands
    of a tick are the one-space command alone. *)
Lemma shipped_tick_commands (b : B) (s : Trainer.State (B := B)) :
  Trainer.events s = [] ->
  Trainer.tick estimate _non_blocking_input b s
  = Trainer.process_commands estimate [" "]
      (Trainer.set_events []
         (Trainer.set_console (Trainer.console s) (Trainer.train_step b s))).
Proof.
  intro Hev. unfold Trainer.tick, Trainer.poll_command, _non_blocking_input.
  unfold Trainer.register_block.
  change (Py.contains "@" " ") with false. cbv iota. cbn [Trainer.bind].
  unfold Schedule.resolve.
  change (Trainer.events (Trainer.set_console _ (Trainer.train_step b s)))
    with (Trainer.events s).
  rewrite Hev. reflexivity.
Qed.

(** With the input function of the file no event is ever registered and the
    loop is never left by [return]. *)
Lemma shipped_loop_never_returns (fuel : nat) :
  forall s : Trainer.State (B := B),
    Trainer.events s = [] ->
    match Trainer.loop estimate _non_blocking_input dl fuel s with
    | Trainer.Returned _ => False
    | _ => True
    end.
Proof.
  induction fuel as [|fuel IH]; intros s Hev; simpl; [exact I|].
  destruct (Epochs.next dl (Trainer.rest s)) as [[[logged b] r]|]; [|exact I].
  set (s1 := Trainer.emits (logged ++ [Fetched b]) (Trainer.set_rest r s)).
  destruct (max_iter (Trainer.cfg_of s1) <=? Trainer.step_of s1); [exact I|].
  pose proof (shipped_tick_flow b s1 Hev) as Ht.
  destruct (Trainer.tick estimate _non_blocking_input b s1) as [[] s2|s2|e s2];
    [apply IH; exact (proj1 Ht) | contradiction | exact I].
Qed.

(** X15: whenever [train] returns, the last thing it did was the flush of line
    262, which comes on top of one flush per training step. *)
Lemma train_returns_after_the_last_flush (fuel : nat) (loaded : Engines)
      (w : Console) (s : Trainer.State (B := B)) :
  Trainer.train estimate dl fuel loaded w = Trainer.Finished s ->
  (exists t, Trainer.trace s = t ++ [WriterFlush])
  /\ Trainer.flushes s = S (Trainer.steps s).
Proof.
  unfold Trainer.train, Trainer.train_from, Trainer.poll_command.
  unfold _non_blocking_input at 1.
  change (Trainer.mem " " ["eval"; "eval_quit"]) with false.
  change (Trainer.mem " " ["quit"; "eval_quit"]) with false. cbv iota.
  match goal with
  | |- context [Trainer.loop estimate ?p dl fuel ?x] =>
      set (s0 := x);
      pose proof (shipped_loop_never_returns fuel s0) as Hnr;
      pose proof (loop_counts estimate p dl fuel s0) as Hc;
      destruct (Trainer.loop estimate p dl fuel s0) as [s'|s'|e s'|s'|s']
  end; intro H; try discriminate.
  - inversion H; subst s. clear H. split.
    + eexists. reflexivity.
    + destruct Hc as (_ & _ & _ & Hl).
      assert (H0 : Trainer.flushes s0 = 0%nat /\ Trainer.steps s0 = 0%nat).
      { subst s0. destruct (local_leader w); split; reflexivity. }
      destruct H0 as [Hf0 Hs0].
      unfold Trainer.flushes, Trainer.steps in *. simpl.
      rewrite !count_app.
      change (Trainer.count Trainer.is_flush [WriterFlush (B := B)]) with 1%nat.
      change (Trainer.count Trainer.is_step [WriterFlush (B := B)]) with 0%nat.
      lia.
  - exfalso. apply Hnr. subst s0. destruct (local_leader w); reflexivity.
Qed.

(** With a data loader that is not empty and [fuel] beyond the number of
    steps up to [max_iter], [train] comes to an end: it returns or an
    exception leaves it. *)
Lemma train_ends (fuel : nat) (loaded : Engines) (w : Console) :
  dl <> [] ->
  (Z.to_nat (max_iter (cfg loaded) - global_step loaded) < fuel)%nat ->
  exists s, Trainer.train estimate dl fuel loaded w = Trainer.Finished s
            \/ exists e, Trainer.train estimate dl fuel loaded w = Trainer.Failed e s.
Proof.
  intros Hne Hfuel.
  destruct (Trainer.train estimate dl fuel loaded w) as [s|e s|s|s] eqn:H.
  - exists s. now left.
  - exists s. right. now exists e.
  - exfalso. revert H.
    unfold Trainer.train, Trainer.train_from, Trainer.poll_command.
    unfold _non_blocking_input at 1.
    change (Trainer.mem " " ["eval"; "eval_quit"]) with false.
    change (Trainer.mem " " ["quit"; "eval_quit"]) with false. cbv iota.
    match goal with
    | |- context [Trainer.loop estimate ?p dl fuel ?x] =>
        pose proof (loop_never_starves estimate p dl Hne fuel x) as Hs;
        destruct (Trainer.loop estimate p dl fuel x) as [s'|s'|e s'|s'|s']
    end; intro H; try discriminate.
    apply (Hs s'). reflexivity.
  - exfalso. revert H.
    unfold Trainer.train, Trainer.train_from, Trainer.poll_command.
    unfold _non_blocking_input at 1.
    change (Trainer.mem " " ["eval"; "eval_quit"]) with false.
    change (Trainer.mem " " ["quit"; "eval_quit"]) with false. cbv iota.
    match goal with
    | |- context [Trainer.loop estimate ?p dl fuel ?x] =>
        pose proof (loop_is_left estimate p dl fuel x) as Hleft;
        destruct (Trainer.loop estimate p dl fuel x) as [s'|s'|e s'|s'|s']
    end; intro H; try discriminate.
    apply (Hleft ltac:(destruct (local_leader w); exact Hfuel) s').
    reflexivity.
Qed.

(** With the input function of the file the loop never touches the event
    list or the surroundings, and the only exception that can leave it is
    the division by a cadence of zero. *)
Lemma shipped_loop_keeps (fuel : nat) :
  forall s : Trainer.State (B := B),
    Trainer.events s = [] ->
    let x := Trainer.loop estimate _non_blocking_input dl fuel s in
    Trainer.events (Trainer.exit_state x) = []
    /\ Trainer.console (Trainer.exit_state x) = Trainer.console s
    /\ forall e s', x = Trainer.Crashed e s' ->
                    e = ZeroDivisionError /\ eval_every (Trainer.cfg_of s) = 0.
Proof.
  induction fuel as [|fuel IH]; intros s Hev; cbv zeta;
    cbn [Trainer.loop Trainer.exit_state].
  { repeat split; try assumption; discriminate. }
  destruct (Epochs.next dl (Trainer.rest s)) as [[[logged b] r]|];
    [|cbn [Trainer.exit_state]; repeat split; try assumption; discriminate].
  set (s1 := Trainer.emits (logged ++ [Fetched b]) (Trainer.set_rest r s)).
  destruct (max_iter (Trainer.cfg_of s1) <=? Trainer.step_of s1);
    [cbn [Trainer.exit_state]; repeat split; try assumption; discriminate|].
  pose proof (shipped_tick_flow b s1 Hev) as Ht.
  pose proof (tick_counts estimate _non_blocking_input b s1) as Hc.
  cbv zeta in Hc. destruct Hc as (_ & _ & _ & _ & Hcfg).
  destruct (Trainer.tick estimate _non_blocking_input b s1) as [[] s2|s2|e s2];
    cbn [Trainer.flow_state Trainer.exit_state] in *.
  - destruct Ht as [Hev2 Hw2].
    specialize (IH s2 Hev2). cbv zeta in IH. destruct IH as (H1 & H2 & H3).
    split; [exact H1|]. split; [now rewrite H2, Hw2|].
    intros e x H. destruct (H3 e x H) as [He Hz]. split; [exact He|].
    now rewrite <- Hz, Hcfg.
  - contradiction.
  - destruct Ht as (Hev2 & Hw2 & He & Hz).
    split; [exact Hev2|]. split; [exact Hw2|].
    intros e' x H. inversion H; subst. split; [reflexivity | exact Hz].
Qed.

(** The same for [train] as a whole: what waits on standard input is still
    there when [train] ends, no event was ever registered, and [train] fails
    only by the division by a cadence of zero. *)
Lemma shipped_train_keeps (fuel : nat) (loaded : Engines) (w : Console) :
  let r := Trainer.train estimate dl fuel loaded w in
  Trainer.events (Trainer.result_state r) = []
  /\ Trainer.console (Trainer.result_state r) = w
  /\ forall e s, r = Trainer.Failed e s ->
                 e = ZeroDivisionError /\ eval_every (cfg loaded) = 0.
Proof.
  cbv zeta.
  unfold Trainer.train, Trainer.train_from, Trainer.poll_command.
  unfold _non_blocking_input at 1 3 5.
  change (Trainer.mem " " ["eval"; "eval_quit"]) with false.
  change (Trainer.mem " " ["quit"; "eval_quit"]) with false. cbv iota.
  match goal with
  | |- context [Trainer.loop estimate _ dl fuel ?x] =>
      set (s0 := x);
      assert (H0 : Trainer.engines s0 = loaded /\ Trainer.events s0 = []
                   /\ Trainer.console s0 = w)
        by (subst s0; destruct (local_leader w); repeat split)
  end.
  destruct H0 as (Heng & Hev & Hw).
  pose proof (shipped_loop_keeps fuel s0 Hev) as Hk. cbv zeta in Hk.
  destruct Hk as (H1 & H2 & H3). rewrite Hw in H2.
  unfold Trainer.cfg_of in H3. rewrite Heng in H3.
  destruct (Trainer.loop estimate _non_blocking_input dl fuel s0)
    as [s'|s'|e s'|s'|s']; cbn [Trainer.exit_state Trainer.result_state] in *;
    (split; [exact H1|]); (split; [exact H2|]); intros e0 x H; try discriminate.
  inversion H as [[He Hx]]. rewrite <- He. exact (H3 e s' eq_refl).
Qed.

End Shipped.

(** C2, amended: in every tick of [train] the command that is handled is the
    one-space string that [_non_blocking_input] returns, on every rank and
    whatever waits on standard input.  With no event pending, as is always
    the case in [train], the tick reads nothing, its commands are the
    one-space command alone, the tick never returns from [train], and after
    it there is still no event pending and the input is still unread; so it
    is when [train] ends. *)
Theorem every_tick_handles_one_space :
  forall (B : Type) (estimate : Z -> Z -> option Exn) (dl : list B) (b : B)
         (s : Trainer.State (B := B)) (other : Console),
    Trainer.events s = [] ->
    let s1 := Trainer.train_step b s in
    Trainer.poll_command _non_blocking_input s1 = (" ", s1)
    /\ fst (_non_blocking_input (Trainer.console s1))
       = fst (_non_blocking_input other)
    /\ Trainer.tick estimate _non_blocking_input b s
       = Trainer.process_commands estimate [" "] s1
    /\ match Trainer.tick estimate _non_blocking_input b s with
       | Trainer.Return_ _ => False
       | Trainer.Next _ s' | Trainer.Raise _ s' =>
           Trainer.events s' = [] /\ Trainer.console s' = Trainer.console s
       end
    /\ forall (fuel : nat) (loaded : Engines) (w : Console),
         let r := Trainer.train estimate dl fuel loaded w in
         Trainer.events (Trainer.result_state r) = []
         /\ Trainer.console (Trainer.result_state r) = w.
Proof.
  intros B estimate dl b s other Hev s1.
  split; [reflexivity|]. split; [reflexivity|]. split; [|split].
  - rewrite (shipped_tick_commands estimate b s Hev). f_equal.
    subst s1. unfold Trainer.set_events, Trainer.set_console, Trainer.train_step,
      Trainer.emits. cbn. now rewrite Hev.
  - pose proof (shipped_tick_flow estimate b s Hev) as H.
    destruct (Trainer.tick estimate _non_blocking_input b s) as [[] s'|s'|e s'];
      [exact H | exact H | split; apply H].
  - intros fuel loaded w.
    pose proof (shipped_train_keeps estimate dl fuel loaded w) as H.
    cbv zeta in *. split; apply H.
Qed.

Lemma every_tick_handles_one_space_witness :
  let s := {| Trainer.engines :=
                {| global_step := 0;
                   cfg := {| cfg_name := "run"; max_iter := 5;
                             save_ckpt_every := Some 2; eval_every := 5;
                             save_on_quit := false |} |};
              Trainer.events := [];
              Trainer.rest := [];
              Trainer.console := {| global_leader := true; local_leader := true;
                                    stdin := ["quit"] |};
              Trainer.trace := [] |} in
  let follower := {| global_leader := false; local_leader := false; stdin := [] |} in
  let s1 := Trainer.train_step 7%nat s in
  Trainer.poll_command _non_blocking_input s1 = (" ", s1)
  /\ fst (_non_blocking_input (Trainer.console s1))
     = fst (_non_blocking_input follower)
  /\ Trainer.tick (fun _ _ => None) _non_blocking_input 7%nat s
     = Trainer.process_commands (fun _ _ => None) [" "] s1
  /\ match Trainer.tick (fun _ _ => None) _non_blocking_input 7%nat s with
     | Trainer.Return_ _ => False
     | Trainer.Next _ s' | Trainer.Raise _ s' =>
         Trainer.events s' = [] /\ Trainer.console s' = Trainer.console s
     end
  /\ forall (fuel : nat) (loaded : Engines) (w : Console),
       let r := Trainer.train (fun _ _ => None) [7%nat] fuel loaded w in
       Trainer.events (Trainer.result_state r) = []
       /\ Trainer.console (Trainer.result_state r) = w.
Proof.
  intros s follower.
  exact (every_tick_handles_one_space nat (fun _ _ => None) [7%nat] 7%nat s
           follower eq_refl).
Defined.


(** C6: whenever [train] returns, the loop was left by [break] at
    [max_iter], right after a batch was fetched, and the flush of line 262
    followed: the writer was flushed once per training step and once more
    after the loop.  The [return] of line 259 is never taken, whatever waits
    on standard input, since no tick of [train] handles a [quit]. *)
Theorem train_flushes_after_the_loop :
  forall (B : Type) (estimate : Z -> Z -> option Exn) (dl : list B)
         (fuel : nat) (loaded : Engines) (w : Console) (s : Trainer.State (B := B)),
    Trainer.train estimate dl fuel loaded w = Trainer.Finished s ->
    let s0 := {| Trainer.engines := loaded; Trainer.events := [];
                 Trainer.rest := []; Trainer.console := w; Trainer.trace := [] |} in
    let entry :=
      Trainer.emit WriterOpen (if local_leader w then Trainer.emit CfgDump s0 else s0) in
    exists s',
      Trainer.loop estimate _non_blocking_input dl fuel entry = Trainer.Broke s'
      /\ s = Trainer.emit WriterFlush s'
      /\ max_iter (Trainer.cfg_of s') <= Trainer.step_of s'
      /\ (exists t b, Trainer.trace s = t ++ [Fetched b; WriterFlush])
      /\ Trainer.flushes s = S (Trainer.steps s).
Proof.
  intros B estimate dl fuel loaded w s. cbv zeta.
  unfold Trainer.train, Trainer.train_from, Trainer.poll_command.
  unfold _non_blocking_input at 1.
  change (Trainer.mem " " ["eval"; "eval_quit"]) with false.
  change (Trainer.mem " " ["quit"; "eval_quit"]) with false. cbv iota.
  set (s0 := {| Trainer.engines := loaded; Trainer.events := [];
                Trainer.rest := []; Trainer.console := w; Trainer.trace := [] |}).
  replace (Trainer.set_console
             (Trainer.console (if local_leader w then Trainer.emit CfgDump s0 else s0))
             (if local_leader w then Trainer.emit CfgDump s0 else s0))
    with (if local_leader w then Trainer.emit CfgDump s0 else s0)
    by (destruct (local_leader w); reflexivity).
  set (entry := Trainer.emit WriterOpen
                  (if local_leader w then Trainer.emit CfgDump s0 else s0)).
  assert (Hev : Trainer.events entry = [])
    by (subst entry; destruct (local_leader w); reflexivity).
  assert (H0 : Trainer.flushes entry = 0%nat /\ Trainer.steps entry = 0%nat)
    by (subst entry; destruct (local_leader w); split; reflexivity).
  destruct H0 as [Hf0 Hs0].
  pose proof (shipped_loop_never_returns estimate dl fuel entry Hev) as Hnr.
  pose proof (loop_counts estimate _non_blocking_input dl fuel entry) as Hc.
  destruct (Trainer.loop estimate _non_blocking_input dl fuel entry)
    as [s'|s'|e s'|s'|s']; intro H; try discriminate; [|contradiction].
  inversion H; subst s. clear H.
  destruct Hc as (Hmax & (t & b & Ht) & _ & Hl).
  exists s'. split; [reflexivity|]. split; [reflexivity|]. split; [exact Hmax|].
  split.
  - exists t, b. cbn [Trainer.trace Trainer.emit]. rewrite Ht.
    now rewrite <- app_assoc.
  - unfold Trainer.flushes, Trainer.steps in *. cbn [Trainer.trace Trainer.emit].
    rewrite !count_app.
    change (Trainer.count Trainer.is_flush [WriterFlush (B := B)]) with 1%nat.
    change (Trainer.count Trainer.is_step [WriterFlush (B := B)]) with 0%nat.
    lia.
Qed.

Lemma train_flushes_after_the_loop_witness :
  let loaded := {| global_step := 3;
                   cfg := {| cfg_name := "run"; max_iter := 5;
                             save_ckpt_every := Some 2; eval_every := 5;
                             save_on_quit := false |} |} in
  let w := {| global_leader := true; local_leader := false; stdin := ["quit"] |} in
  exists s,
    Trainer.train (fun _ _ => None) [7%nat] 4 loaded w = Trainer.Finished s
    /\ Trainer.steps s = 2%nat
    /\ Trainer.flushes s = 3%nat
    /\ exists t b, Trainer.trace s = t ++ [Fetched b; WriterFlush].
Proof.
  intros loaded w. eexists. split; [vm_compute; reflexivity|].
  split; [reflexivity|]. split; [reflexivity|].
  destruct (train_flushes_after_the_loop nat (fun _ _ => None) [7%nat] 4 loaded w _
              eq_refl) as (s' & _ & _ & _ & Ht & _).
  exact Ht.
Defined.

(** ** When a checkpoint is saved *)

Section Cadence.
Context {B : Type}.
Variable estimate : Z -> Z -> option Exn.
Variable dl : list B.

(** What the one-space command does in a tick: a checkpoint exactly when
    line 216 holds for the step, that is on the cadence or at one of the
    three debugging steps. *)
Lemma space_command_saves (s : Trainer.State (B := B)) :
  Trainer.cadence (Trainer.cfg_of s) <> 0 ->
  eval_every (Trainer.cfg_of s) <> 0 ->
  exists s',
    Trainer.process_command estimate " " s = Trainer.Next tt s'
    /\ Trainer.events s' = Trainer.events s
    /\ Trainer.engines s' = Trainer.engines s
    /\ Trainer.rest s' = Trainer.rest s
    /\ Trainer.saved_at (Trainer.trace s')
       = Trainer.saved_at (Trainer.trace s)
         ++ (if Trainer.save_due (Trainer.cadence (Trainer.cfg_of s)) (Trainer.step_of s)
             then [Trainer.step_of s] else []).
Proof.
  intros Hevery Heval.
  unfold Trainer.process_command.
  change (Trainer.time_query estimate " "
            (Trainer.clear_events " " (Trainer.show_events " " s)))
    with (Trainer.Next (B := B) tt s).
  cbn [Trainer.bind].
  unfold Trainer.checkpoint.
  apply Z.eqb_neq in Hevery. rewrite Hevery.
  rewrite space_is_no_saving_command, orb_false_r.
  fold (Trainer.save_due (Trainer.cadence (Trainer.cfg_of s)) (Trainer.step_of s)).
  apply Z.eqb_neq in Heval.
  destruct (Trainer.save_due _ _); cbn [Trainer.bind];
    unfold Trainer.evaluation;
    change (Trainer.cfg_of (Trainer.emit _ (Trainer.emit PrintDebug s)))
      with (Trainer.cfg_of s);
    rewrite Heval;
    match goal with |- context [if ?c then _ else _] => destruct c end;
    cbn [Trainer.bind Trainer.quit Trainer.mem existsb String.eqb];
    eexists; (split; [reflexivity|]);
    rewrite ?saved_at_evaluate, ?evaluate_emits; repeat split;
    cbn [Trainer.trace Trainer.emit];
    rewrite ?saved_at_app; cbn [Trainer.saved_at]; rewrite ?app_nil_r;
    reflexivity.
Qed.

Lemma shipped_tick_saves (b : B) (s : Trainer.State (B := B)) :
  Trainer.events s = [] ->
  Trainer.cadence (Trainer.cfg_of s) <> 0 ->
  eval_every (Trainer.cfg_of s) <> 0 ->
  exists s',
    Trainer.tick estimate _non_blocking_input b s = Trainer.Next tt s'
    /\ Trainer.events s' = []
    /\ Trainer.cfg_of s' = Trainer.cfg_of s
    /\ Trainer.step_of s' = Trainer.step_of s + 1
    /\ Trainer.saved_at (Trainer.trace s')
       = Trainer.saved_at (Trainer.trace s)
         ++ (if Trainer.save_due (Trainer.cadence (Trainer.cfg_of s)) (Trainer.step_of s + 1)
             then [Trainer.step_of s + 1] else []).
Proof.
  intros Hev Hevery Heval.
  unfold Trainer.tick, Trainer.poll_command, _non_blocking_input.
  unfold Trainer.register_block.
  change (Py.contains "@" " ") with false. cbv iota. cbn [Trainer.bind].
  unfold Schedule.resolve.
  change (Trainer.events (Trainer.set_console _ (Trainer.train_step b s)))
    with (Trainer.events s).
  rewrite Hev. cbn [Schedule.prune Schedule.fired Schedule.due filter map].
  cbn [Trainer.process_commands].
  match goal with
  | |- context [Trainer.process_command estimate " " ?x] =>
      destruct (space_command_saves x Hevery Heval)
        as (s' & Hrun & Hevs & Heng & _ & Hsaved);
      rewrite Hrun
  end.
  cbn [Trainer.bind]. exists s'. split; [reflexivity|].
  split; [exact Hevs|].
  unfold Trainer.cfg_of, Trainer.step_of. rewrite Heng.
  split; [reflexivity|]. split; [reflexivity|].
  rewrite Hsaved. cbn [Trainer.trace Trainer.set_events Trainer.set_console
                       Trainer.train_step Trainer.emits].
  rewrite saved_at_app. cbn [Trainer.saved_at]. rewrite app_nil_r.
  reflexivity.
Qed.

(** The whole loop: it is left by [break], and the checkpoints are those of
    the steps made for which line 216 holds. *)
Lemma shipped_loop_saves (n : nat) :
  forall (fuel : nat) (s : Trainer.State (B := B)),
    dl <> [] ->
    Trainer.events s = [] ->
    Trainer.cadence (Trainer.cfg_of s) <> 0 ->
    eval_every (Trainer.cfg_of s) <> 0 ->
    Z.to_nat (max_iter (Trainer.cfg_of s) - Trainer.step_of s) = n ->
    (n < fuel)%nat ->
    exists s',
      Trainer.loop estimate _non_blocking_input dl fuel s = Trainer.Broke s'
      /\ Trainer.saved_at (Trainer.trace s')
         = Trainer.saved_at (Trainer.trace s)
           ++ filter (Trainer.save_due (Trainer.cadence (Trainer.cfg_of s)))
                (Trainer.steps_after (Trainer.step_of s) n).
Proof.
  induction n as [|n IH]; intros fuel s Hne Hev Hevery Heval Hn Hfuel;
    (destruct fuel as [|fuel]; [lia|]).
  - destruct (round_at_max estimate _non_blocking_input dl fuel s Hne ltac:(lia))
      as (logged & b & r & Hnext & Hloop).
    rewrite Hloop. eexists. split; [reflexivity|].
    cbn [Trainer.trace Trainer.emits Trainer.set_rest Trainer.steps_after filter].
    rewrite !saved_at_app, app_nil_r.
    destruct (next_logged dl _ _ _ _ Hnext) as [-> | ->]; cbn [Trainer.saved_at];
      now rewrite app_nil_r.
  - cbn [Trainer.loop].
    assert (Hnext : exists logged b r,
               Epochs.next dl (Trainer.rest s) = Some (logged, b, r)).
    { unfold Epochs.next. destruct (Trainer.rest s) as [|b r]; [|eauto].
      destruct dl as [|b r]; [congruence | eauto]. }
    destruct Hnext as (logged & b & r & Hnext). rewrite Hnext.
    set (s1 := Trainer.emits (logged ++ [Fetched b]) (Trainer.set_rest r s)).
    change (Trainer.cfg_of s1) with (Trainer.cfg_of s).
    change (Trainer.step_of s1) with (Trainer.step_of s).
    destruct (Z.leb_spec (max_iter (Trainer.cfg_of s)) (Trainer.step_of s)); [lia|].
    destruct (shipped_tick_saves b s1 Hev Hevery Heval)
      as (s2 & Htick & Hev2 & Hcfg2 & Hstep2 & Hsaved2).
    rewrite Htick.
    change (Trainer.cfg_of s1) with (Trainer.cfg_of s) in *.
    change (Trainer.step_of s1) with (Trainer.step_of s) in *.
    assert (Hevery2 : Trainer.cadence (Trainer.cfg_of s2)
                      = Trainer.cadence (Trainer.cfg_of s)) by (now rewrite Hcfg2).
    destruct (IH fuel s2 Hne Hev2) as (s' & Hloop & Hsaved').
    + now rewrite Hevery2.
    + now rewrite Hcfg2.
    + rewrite Hcfg2, Hstep2. lia.
    + lia.
    + exists s'. split; [exact Hloop|].
      rewrite Hsaved', Hsaved2, Hevery2, Hstep2.
      change (Trainer.cadence (Trainer.cfg_of s1)) with (Trainer.cadence (Trainer.cfg_of s)).
      assert (Hs1 : Trainer.saved_at (Trainer.trace s1)
                    = Trainer.saved_at (Trainer.trace s)).
      { subst s1. cbn [Trainer.trace Trainer.emits Trainer.set_rest].
        rewrite !saved_at_app.
        destruct (next_logged dl _ _ _ _ Hnext) as [-> | ->];
          cbn [Trainer.saved_at]; now rewrite !app_nil_r. }
      rewrite Hs1. cbn [Trainer.steps_after filter].
      rewrite <- app_assoc. f_equal.
      destruct (Trainer.save_due (Trainer.cadence (Trainer.cfg_of s))
                  (Trainer.step_of s + 1)); reflexivity.
Qed.

(** X1: [train] as a whole: it returns, and [save_checkpoint] was called at the
    steps made that are on the cadence or are one of 100, 300 and 500, in
    order, once each, and at no other step. *)
Lemma train_saves (fuel : nat) (loaded : Engines) (w : Console) :
  let cadence := Trainer.cadence (cfg loaded) in
  let n := Z.to_nat (max_iter (cfg loaded) - global_step loaded) in
  dl <> [] ->
  cadence <> 0 ->
  eval_every (cfg loaded) <> 0 ->
  (n < fuel)%nat ->
  exists s,
    Trainer.train estimate dl fuel loaded w = Trainer.Finished s
    /\ Trainer.saved_at (Trainer.trace s)
       = filter (Trainer.save_due cadence)
           (Trainer.steps_after (global_step loaded) n).
Proof.
  intros cadence n Hne Hcad Heval Hfuel.
  unfold Trainer.train, Trainer.train_from, Trainer.poll_command.
  unfold _non_blocking_input at 1.
  change (Trainer.mem " " ["eval"; "eval_quit"]) with false.
  change (Trainer.mem " " ["quit"; "eval_quit"]) with false. cbv iota.
  match goal with
  | |- context [Trainer.loop estimate _ dl fuel ?x] =>
      set (s0 := x);
      assert (H0 : Trainer.engines s0 = loaded /\ Trainer.events s0 = []
                   /\ Trainer.saved_at (Trainer.trace s0) = [])
        by (subst s0; destruct (local_leader w); repeat split)
  end.
  destruct H0 as (Heng & Hev & Hsaved0).
  destruct (shipped_loop_saves n fuel s0 Hne Hev) as (s' & Hloop & Hsaved).
  - unfold Trainer.cfg_of. now rewrite Heng.
  - unfold Trainer.cfg_of. now rewrite Heng.
  - unfold Trainer.cfg_of, Trainer.step_of. now rewrite Heng.
  - exact Hfuel.
  - rewrite Hloop. eexists. split; [reflexivity|].
    cbn [Trainer.trace Trainer.emit]. rewrite saved_at_app, Hsaved, Hsaved0.
    cbn [Trainer.saved_at]. rewrite app_nil_r. cbn [app].
    unfold Trainer.cfg_of, Trainer.step_of. now rewrite Heng.
Qed.

End Cadence.

(** C1, evaluated where it fails: cadence 7, no operator command at all, one
    hundred steps.  Checkpoints are saved at the multiples of 7 and, by the
    debugging clause of line 216, at step 100 as well, which is no multiple
    of 7; its tag is that of step 98. *)
Theorem checkpoint_saved_off_cadence :
  forall estimate : Z -> Z -> option Exn,
  let loaded := {| global_step := 0;
                   cfg := {| cfg_name := "run"; max_iter := 100;
                             save_ckpt_every := Some 7; eval_every := 1000;
                             save_on_quit := false |} |} in
  let w := {| global_leader := true; local_leader := false; stdin := [] |} in
  exists s,
    Trainer.train estimate [0%nat] 101 loaded w = Trainer.Finished s
    /\ Trainer.saved_at (Trainer.trace s)
       = [7; 14; 21; 28; 35; 42; 49; 56; 63; 70; 77; 84; 91; 98; 100]
    /\ filter Trainer.is_save (Trainer.trace s)
       = [SaveCheckpoint 7 "ckpt_1";
          SaveCheckpoint 14 "ckpt_2";
          SaveCheckpoint 21 "ckpt_3";
          SaveCheckpoint 28 "ckpt_4";
          SaveCheckpoint 35 "ckpt_5";
          SaveCheckpoint 42 "ckpt_6";
          SaveCheckpoint 49 "ckpt_7";
          SaveCheckpoint 56 "ckpt_8";
          SaveCheckpoint 63 "ckpt_9";
          SaveCheckpoint 70 "ckpt_10";
          SaveCheckpoint 77 "ckpt_11";
          SaveCheckpoint 84 "ckpt_12";
          SaveCheckpoint 91 "ckpt_13";
          SaveCheckpoint 98 "ckpt_14";
          SaveCheckpoint 100 "ckpt_14"]
    /\ 100 mod 7 = 2.
Proof.
  intro estimate. eexists. split; [vm_compute; reflexivity|].
  split; [vm_compute; reflexivity|].
  split; [vm_compute; reflexivity | reflexivity].
Qed.

(** In the tick in which [save@5] fires, the command [event] still lists
    it: the commands of the tick at step 5 with the live command [event],
    and what handling them does. *)
Example fired_event_is_shown :
  let s := {| Trainer.engines :=
                {| global_step := 5;
                   cfg := {| cfg_name := "run"; max_iter := 10;
                             save_ckpt_every := Some 1000; eval_every := 1000;
                             save_on_quit := false |} |};
              Trainer.events := [("save", 5)];
              Trainer.rest := [7%nat];
              Trainer.console := {| global_leader := true; local_leader := true;
                                    stdin := [] |};
              Trainer.trace := [] |} in
  forall estimate : Z -> Z -> option Exn,
    Schedule.resolve (Trainer.step_of s) "event" (Trainer.events s)
    = ([("save", 5)], ["event"; "save"])
    /\ exists s',
         Trainer.process_commands estimate ["event"; "save"]
           (Trainer.set_events [("save", 5)] s)
         = Trainer.Next tt s'
         /\ Trainer.trace s'
            = [LogInfo ("Events:" ++ Trainer.nl ++ "save@5");
               PrintDebug; SaveCheckpoint 5 "ckpt_0"]
         /\ Trainer.events s' = [("save", 5)].
Proof. intros s estimate. split; [reflexivity|]. eexists. repeat split. Qed.

(** ** The event list across ticks *)

Section EventsAcrossTicks.
Context {B : Type}.
Variable estimate : Z -> Z -> option Exn.
Variable poll : Console -> string * Console.

(** Handling a command leaves the event list as it is, unless the command
    is [event clear], which empties it. *)
Lemma events_process_command (command : string) (s : Trainer.State (B := B)) :
  Trainer.events (Trainer.flow_state (Trainer.process_command estimate command s))
  = if String.eqb command "event clear" then [] else Trainer.events s.
Proof.
  unfold Trainer.process_command.
  set (s0 := Trainer.clear_events command (Trainer.show_events command s)).
  assert (H0 : Trainer.events s0
               = if String.eqb command "event clear" then [] else Trainer.events s).
  { subst s0. unfold Trainer.clear_events, Trainer.show_events.
    destruct (String.eqb command "event clear");
      destruct (Trainer.mem command ["event show"; "event"]); reflexivity. }
  assert (Ht : Trainer.events
                 (Trainer.flow_state (Trainer.time_query estimate command s0))
               = Trainer.events s0).
  { unfold Trainer.time_query, Trainer.time_target.
    destruct (Py.contains "time" command); [|reflexivity].
    destruct (Py.contains " to " command); [destruct Py.int|];
      destruct estimate; reflexivity. }
  assert (H1 : forall x : Trainer.State (B := B),
             Trainer.events (Trainer.flow_state (Trainer.checkpoint command x))
             = Trainer.events x).
  { intro x. unfold Trainer.checkpoint. destruct (_ =? 0); [reflexivity|].
    match goal with |- context [if ?c then _ else _] => destruct c end; reflexivity. }
  assert (H2 : forall x : Trainer.State (B := B),
             Trainer.events (Trainer.flow_state (Trainer.evaluation command x))
             = Trainer.events x).
  { intro x. unfold Trainer.evaluation. destruct (_ =? 0); [reflexivity|].
    match goal with |- context [if ?c then _ else _] => destruct c end;
      cbn [Trainer.flow_state]; [apply evaluate_keeps | reflexivity]. }
  assert (H3 : forall x : Trainer.State (B := B),
             Trainer.events (Trainer.flow_state (Trainer.quit command x))
             = Trainer.events x).
  { intro x. unfold Trainer.quit. destruct Trainer.mem; reflexivity. }
  rewrite <- H0.
  destruct (Trainer.time_query estimate command s0) as [[] s0'|s0'|e s0'];
    cbn [Trainer.bind Trainer.flow_state] in *; try exact Ht.
  specialize (H1 s0').
  destruct (Trainer.checkpoint command s0') as [[] s1|s1|e s1];
    cbn [Trainer.bind Trainer.flow_state] in *; try (rewrite H1; exact Ht).
  specialize (H2 s1).
  destruct (Trainer.evaluation command s1) as [[] s2|s2|e s2];
    cbn [Trainer.bind Trainer.flow_state] in *;
    try (rewrite H2, H1; exact Ht).
  rewrite H3, H2, H1. exact Ht.
Qed.

(** Handling the commands of a tick leaves the event list as it is, or
    empties it when [event clear] is among them. *)
Lemma events_process_commands (commands : list string) :
  forall s : Trainer.State (B := B),
    let s' := Trainer.flow_state (Trainer.process_commands estimate commands s) in
    Trainer.events s' = Trainer.events s
    \/ (Trainer.events s' = [] /\ In "event clear" commands).
Proof.
  induction commands as [|c cs IH]; intro s; cbv zeta; [left; reflexivity|].
  cbn [Trainer.process_commands].
  pose proof (events_process_command c s) as Hc.
  assert (Hc' : Trainer.events
                  (Trainer.flow_state (Trainer.process_command estimate c s))
                = Trainer.events s
                \/ (Trainer.events
                      (Trainer.flow_state (Trainer.process_command estimate c s))
                    = [] /\ In "event clear" (c :: cs))).
  { rewrite Hc. destruct (String.eqb_spec c "event clear") as [->|_];
      [right; split; [reflexivity | now left] | now left]. }
  clear Hc.
  destruct (Trainer.process_command estimate c s) as [[] s1|s1|e s1];
    cbn [Trainer.bind Trainer.flow_state] in *; try exact Hc'.
  specialize (IH s1). cbv zeta in IH.
  destruct IH as [IH|[IH Hin]].
  - rewrite IH. exact Hc'.
  - right. split; [exact IH | now right].
Qed.

(** X10: after a tick that falls through, no event with a trigger before the
    step of that tick is left.  The step grows by one per tick, so an event
    that was due in a tick has gone from the list by the end of the next one. *)
Lemma tick_leaves_no_stale_event (b : B) (s s' : Trainer.State (B := B)) :
  Trainer.tick estimate poll b s = Trainer.Next tt s' ->
  Trainer.step_of s' = Trainer.step_of s + 1
  /\ Forall (fun e => Trainer.step_of s' <= snd e) (Trainer.events s').
Proof.
  intro Htick.
  pose proof (tick_counts estimate poll b s) as Hc. cbv zeta in Hc.
  rewrite Htick in Hc. cbn [Trainer.flow_state] in Hc.
  destruct Hc as (_ & _ & _ & Hstep & _). split; [exact Hstep|].
  revert Htick. unfold Trainer.tick, Trainer.poll_command.
  destruct (poll (Trainer.console (Trainer.train_step b s))) as [command w].
  set (s1 := Trainer.set_console w (Trainer.train_step b s)).
  pose proof (handled_register_block command s1) as Hreg.
  destruct (Trainer.register_block command s1) as [live s2|s2|e s2];
    cbn [Trainer.bind]; try discriminate.
  unfold Schedule.resolve.
  set (kept := Schedule.prune (Trainer.step_of s2) (Trainer.events s2)).
  set (commands := live :: Schedule.fired (Trainer.step_of s2) kept).
  pose proof (events_process_commands commands (Trainer.set_events kept s2)) as Hev.
  pose proof (handled_process_commands estimate commands (Trainer.set_events kept s2)) as Hh.
  cbv zeta in Hev. intro Htick. rewrite Htick in Hev, Hh.
  cbn [Trainer.flow_state] in Hev, Hh.
  destruct Hh as (Heng & _).
  assert (Hs2 : Trainer.step_of s' = Trainer.step_of s2).
  { unfold Trainer.step_of. now rewrite Heng. }
  rewrite Hs2.
  destruct Hev as [Hev|[Hev _]]; rewrite Hev; [|constructor].
  apply prune_all_pending.
Qed.

End EventsAcrossTicks.

(* ====================================================================== *)
(** * Further properties of [train] *)
(* ====================================================================== *)

(** ** A whole run with the input function of the file *)

Lemma train_saves_witness :
  exists s,
    Trainer.train (fun _ _ => None) [0%nat] 11
      {| global_step := 0;
         cfg := {| cfg_name := "run"; max_iter := 10; save_ckpt_every := Some 3;
                   eval_every := 4; save_on_quit := false |} |}
      {| global_leader := true; local_leader := true; stdin := [] |}
    = Trainer.Finished s
    /\ Trainer.saved_at (Trainer.trace s)
       = filter (Trainer.save_due 3) (Trainer.steps_after 0 10).
Proof.
  apply (train_saves (fun _ _ => None) [0%nat] 11
           {| global_step := 0;
              cfg := {| cfg_name := "run"; max_iter := 10; save_ckpt_every := Some 3;
                        eval_every := 4; save_on_quit := false |} |}
           {| global_leader := true; local_leader := true; stdin := [] |});
    vm_compute; try discriminate; lia.
Defined.

Section WholeRun.
Context {B : Type}.
Variable estimate : Z -> Z -> option Exn.
Variable dl : list B.

(** The loop makes one training step per round until the step reaches
    [max_iter] and then breaks. *)
Lemma shipped_loop_runs (n : nat) :
  forall (fuel : nat) (s : Trainer.State (B := B)),
    dl <> [] ->
    Trainer.events s = [] ->
    eval_every (Trainer.cfg_of s) <> 0 ->
    Z.to_nat (max_iter (Trainer.cfg_of s) - Trainer.step_of s) = n ->
    (n < fuel)%nat ->
    exists s',
      Trainer.loop estimate _non_blocking_input dl fuel s = Trainer.Broke s'
      /\ Trainer.step_of s' = Trainer.step_of s + Z.of_nat n
      /\ Trainer.steps s' = (Trainer.steps s + n)%nat.
Proof.
  induction n as [|n IH]; intros fuel s Hne Hev Heval Hn Hfuel;
    (destruct fuel as [|fuel]; [lia|]).
  - destruct (round_at_max estimate _non_blocking_input dl fuel s Hne ltac:(lia))
      as (logged & b & r & Hnext & Hloop).
    rewrite Hloop. eexists. split; [reflexivity|].
    pose proof (fetch_counts logged b r s (next_logged dl _ _ _ _ Hnext)) as Hc.
    cbv zeta in Hc. destruct Hc as (_ & Hs & _ & He).
    split; [|lia]. unfold Trainer.step_of. rewrite He. lia.
  - cbn [Trainer.loop].
    assert (Hnext : exists logged b r,
               Epochs.next dl (Trainer.rest s) = Some (logged, b, r)).
    { unfold Epochs.next. destruct (Trainer.rest s) as [|b r]; [|eauto].
      destruct dl as [|b r]; [congruence | eauto]. }
    destruct Hnext as (logged & b & r & Hnext). rewrite Hnext.
    pose proof (fetch_counts logged b r s (next_logged dl _ _ _ _ Hnext)) as Hc.
    cbv zeta in Hc. destruct Hc as (_ & Hs1 & _ & _).
    set (s1 := Trainer.emits (logged ++ [Fetched b]) (Trainer.set_rest r s)) in *.
    change (Trainer.cfg_of s1) with (Trainer.cfg_of s).
    change (Trainer.step_of s1) with (Trainer.step_of s).
    destruct (Z.leb_spec (max_iter (Trainer.cfg_of s)) (Trainer.step_of s)); [lia|].
    destruct (shipped_tick_saves estimate b s1 Hev (cadence_nonzero _ Heval) Heval)
      as (s2 & Htick & Hev2 & Hcfg2 & Hstep2 & _).
    pose proof (tick_counts estimate _non_blocking_input b s1) as Ht. cbv zeta in Ht.
    rewrite Htick in Ht. cbn [Trainer.flow_state] in Ht.
    destruct Ht as (_ & Hs2 & _).
    rewrite Htick.
    change (Trainer.cfg_of s1) with (Trainer.cfg_of s) in *.
    change (Trainer.step_of s1) with (Trainer.step_of s) in *.
    destruct (IH fuel s2 Hne Hev2) as (s' & Hloop & Hstep' & Hsteps').
    + now rewrite Hcfg2.
    + rewrite Hcfg2, Hstep2. lia.
    + lia.
    + exists s'. split; [exact Hloop|]. split; lia.
Qed.

(** X2: with a data loader that is not empty, a non-zero [eval_every] and
    the input function of the file, [train] returns; it has then made one
    training step for each step from the loaded one up to [max_iter] (none
    when the loaded step is already there), has fetched one batch more than
    that, and [get_global_step] reads the larger of the loaded step and
    [max_iter]. *)
Theorem train_runs_to_max_iter :
  forall (fuel : nat) (loaded : Engines) (w : Console),
    dl <> [] ->
    eval_every (cfg loaded) <> 0 ->
    (Z.to_nat (max_iter (cfg loaded) - global_step loaded) < fuel)%nat ->
    exists s,
      Trainer.train estimate dl fuel loaded w = Trainer.Finished s
      /\ Trainer.steps s = Z.to_nat (max_iter (cfg loaded) - global_step loaded)
      /\ Trainer.fetches s = S (Trainer.steps s)
      /\ Accessors.get_global_step (Trainer.globals_of s)
         = Returns (Some (Z.max (global_step loaded) (max_iter (cfg loaded)))).
Proof.
  intros fuel loaded w Hne Heval Hfuel.
  unfold Trainer.train, Trainer.train_from, Trainer.poll_command.
  unfold _non_blocking_input at 1.
  change (Trainer.mem " " ["eval"; "eval_quit"]) with false.
  change (Trainer.mem " " ["quit"; "eval_quit"]) with false. cbv iota.
  match goal with
  | |- context [Trainer.loop estimate _ dl fuel ?x] =>
      set (s0 := x);
      assert (H0 : Trainer.engines s0 = loaded /\ Trainer.events s0 = []
                   /\ Trainer.steps s0 = 0%nat /\ Trainer.fetches s0 = 0%nat)
        by (subst s0; destruct (local_leader w); repeat split)
  end.
  destruct H0 as (Heng & Hev & Hs0 & Hf0).
  destruct (shipped_loop_runs
              (Z.to_nat (max_iter (cfg loaded) - global_step loaded)) fuel s0 Hne Hev)
    as (s' & Hloop & Hstep & Hsteps).
  - unfold Trainer.cfg_of. now rewrite Heng.
  - unfold Trainer.cfg_of, Trainer.step_of. now rewrite Heng.
  - exact Hfuel.
  - pose proof (loop_counts estimate _non_blocking_input dl fuel s0) as Hc.
    rewrite Hloop in Hc. destruct Hc as (_ & _ & Hfetch & _).
    rewrite Hloop. eexists. split; [reflexivity|].
    assert (Hst : Trainer.steps (Trainer.emit WriterFlush s') = Trainer.steps s'
                  /\ Trainer.fetches (Trainer.emit WriterFlush s') = Trainer.fetches s').
    { unfold Trainer.steps, Trainer.fetches. cbn [Trainer.trace Trainer.emit].
      rewrite !count_app. split; unfold Trainer.count; simpl; lia. }
    destruct Hst as [Hst Hft]. rewrite Hst, Hft.
    split; [lia|]. split; [lia|].
    unfold Accessors.get_global_step, Trainer.globals_of. cbn [Accessors._engines].
    change (global_step (Trainer.engines (Trainer.emit WriterFlush s')))
      with (Trainer.step_of s').
    rewrite Hstep. unfold Trainer.step_of. rewrite Heng. do 2 f_equal. lia.
Qed.

End WholeRun.

Lemma train_runs_to_max_iter_witness :
  exists s,
    Trainer.train (fun _ _ => None) [0%nat; 1%nat] 6
      {| global_step := 2;
         cfg := {| cfg_name := "run"; max_iter := 5; save_ckpt_every := None;
                   eval_every := 2; save_on_quit := true |} |}
      {| global_leader := false; local_leader := false; stdin := ["quit"] |}
    = Trainer.Finished s
    /\ Trainer.steps s = 3%nat
    /\ Trainer.fetches s = S (Trainer.steps s)
    /\ Accessors.get_global_step (Trainer.globals_of s) = Returns (Some 5).
Proof.
  apply (train_runs_to_max_iter (fun _ _ => None) [0%nat; 1%nat] 6
           {| global_step := 2;
              cfg := {| cfg_name := "run"; max_iter := 5; save_ckpt_every := None;
                        eval_every := 2; save_on_quit := true |} |}
           {| global_leader := false; local_leader := false; stdin := ["quit"] |});
    vm_compute; try discriminate; lia.
Defined.

(** ** A zero [eval_every], an empty data loader *)

Section Edges.
Context {B : Type}.
Variable estimate : Z -> Z -> option Exn.

Lemma zero_eval_every_raises (s : Trainer.State (B := B)) :
  eval_every (Trainer.cfg_of s) = 0 ->
  exists s', Trainer.process_command estimate " " s = Trainer.Raise ZeroDivisionError s'.
Proof.
  intro Hz. unfold Trainer.process_command.
  change (Trainer.time_query estimate " "
            (Trainer.clear_events " " (Trainer.show_events " " s)))
    with (Trainer.Next (B := B) tt s).
  cbn [Trainer.bind].
  unfold Trainer.checkpoint.
  destruct (_ =? 0); [eexists; reflexivity|].
  match goal with |- context [if ?c then _ else _] => destruct c end;
    cbn [Trainer.bind]; unfold Trainer.evaluation;
    match goal with |- context [eval_every ?c =? 0] =>
      change (eval_every c) with (eval_every (Trainer.cfg_of s)) end;
    rewrite Hz; cbn [Z.eqb Trainer.bind]; eexists; reflexivity.
Qed.

(** X3: with [cfg.eval_every] equal to zero and a step below [max_iter],
    [train] does not survive its first tick: it makes one training step and
    then the modulo of line 216 or of line 253 raises [ZeroDivisionError]. *)
Theorem zero_eval_every_stops_the_first_tick :
  forall (dl : list B) (fuel : nat) (loaded : Engines) (w : Console),
    dl <> [] ->
    eval_every (cfg loaded) = 0 ->
    global_step loaded < max_iter (cfg loaded) ->
    (1 <= fuel)%nat ->
    exists s,
      Trainer.train estimate dl fuel loaded w = Trainer.Failed ZeroDivisionError s
      /\ Trainer.steps s = 1%nat
      /\ Trainer.step_of s = global_step loaded + 1.
Proof.
  intros dl fuel loaded w Hne Hz Hlt Hfuel.
  destruct fuel as [|fuel]; [lia|].
  unfold Trainer.train, Trainer.train_from, Trainer.poll_command.
  unfold _non_blocking_input at 1.
  change (Trainer.mem " " ["eval"; "eval_quit"]) with false.
  change (Trainer.mem " " ["quit"; "eval_quit"]) with false. cbv iota.
  match goal with
  | |- context [Trainer.loop estimate _ dl (S fuel) ?x] =>
      set (s0 := x);
      assert (H0 : Trainer.engines s0 = loaded /\ Trainer.events s0 = []
                   /\ Trainer.steps s0 = 0%nat)
        by (subst s0; destruct (local_leader w); repeat split)
  end.
  destruct H0 as (Heng & Hev & Hs0).
  cbn [Trainer.loop].
  assert (Hnext : exists logged b r,
             Epochs.next dl (Trainer.rest s0) = Some (logged, b, r)).
  { unfold Epochs.next. destruct (Trainer.rest s0) as [|b r]; [|eauto].
    destruct dl as [|b r]; [congruence | eauto]. }
  destruct Hnext as (logged & b & r & Hnext). rewrite Hnext.
  pose proof (fetch_counts logged b r s0 (next_logged dl _ _ _ _ Hnext)) as Hc.
  cbv zeta in Hc. destruct Hc as (_ & Hs1 & _ & He1).
  set (s1 := Trainer.emits (logged ++ [Fetched b]) (Trainer.set_rest r s0)) in *.
  assert (Hcfg1 : Trainer.cfg_of s1 = cfg loaded)
    by (unfold Trainer.cfg_of; now rewrite He1, Heng).
  assert (Hstep1 : Trainer.step_of s1 = global_step loaded)
    by (unfold Trainer.step_of; now rewrite He1, Heng).
  rewrite Hcfg1, Hstep1.
  destruct (Z.leb_spec (max_iter (cfg loaded)) (global_step loaded)); [lia|].
  pose proof (tick_counts estimate _non_blocking_input b s1) as Ht. cbv zeta in Ht.
  destruct Ht as (_ & Hsteps & _ & Hstep & Hcfg).
  assert (Hraise : exists s', Trainer.tick estimate _non_blocking_input b s1
                              = Trainer.Raise ZeroDivisionError s').
  { rewrite (shipped_tick_commands estimate b s1 Hev). cbn [Trainer.process_commands].
    match goal with
    | |- context [Trainer.process_command estimate " " ?x] =>
        destruct (zero_eval_every_raises x) as (s' & Hr);
        [change (Trainer.cfg_of x) with (Trainer.cfg_of s1); now rewrite Hcfg1|];
        rewrite Hr
    end.
    eexists; reflexivity. }
  destruct Hraise as (s' & Hraise). rewrite Hraise in *.
  cbn [Trainer.flow_state] in *.
  exists s'. split; [reflexivity|]. split; lia.
Qed.

(** X4: with an empty data loader the generator never yields, so [train]
    neither trains nor returns; this holds whatever the loaded step is, also
    when it has reached [max_iter], since the batch is asked for first. *)
Theorem empty_loader_hangs :
  forall (fuel : nat) (loaded : Engines) (w : Console),
    (1 <= fuel)%nat ->
    exists s,
      Trainer.train (B := B) estimate [] fuel loaded w = Trainer.Hangs s
      /\ Trainer.fetches s = 0%nat
      /\ Trainer.steps s = 0%nat
      /\ Trainer.step_of s = global_step loaded.
Proof.
  intros fuel loaded w Hfuel. destruct fuel as [|fuel]; [lia|].
  unfold Trainer.train, Trainer.train_from, Trainer.poll_command.
  unfold _non_blocking_input at 1.
  change (Trainer.mem " " ["eval"; "eval_quit"]) with false.
  change (Trainer.mem " " ["quit"; "eval_quit"]) with false. cbv iota.
  destruct (local_leader w); cbn; eexists; repeat split.
Qed.

End Edges.

Lemma zero_eval_every_stops_the_first_tick_witness :
  exists s,
    Trainer.train (fun _ _ => None) [0%nat] 3
      {| global_step := 6;
         cfg := {| cfg_name := "run"; max_iter := 10; save_ckpt_every := Some 7;
                   eval_every := 0; save_on_quit := false |} |}
      {| global_leader := true; local_leader := true; stdin := [] |}
    = Trainer.Failed ZeroDivisionError s
    /\ Trainer.steps s = 1%nat
    /\ Trainer.step_of s = 6 + 1.
Proof.
  apply (zero_eval_every_stops_the_first_tick (fun _ _ => None) [0%nat] 3
           {| global_step := 6;
              cfg := {| cfg_name := "run"; max_iter := 10; save_ckpt_every := Some 7;
                        eval_every := 0; save_on_quit := false |} |}
           {| global_leader := true; local_leader := true; stdin := [] |});
    vm_compute; try discriminate; try reflexivity; lia.
Defined.

Lemma empty_loader_hangs_witness :
  exists s,
    Trainer.train (B := nat) (fun _ _ => None) [] 4
      {| global_step := 9;
         cfg := {| cfg_name := "run"; max_iter := 5; save_ckpt_every := None;
                   eval_every := 2; save_on_quit := false |} |}
      {| global_leader := true; local_leader := true; stdin := [] |}
    = Trainer.Hangs s
    /\ Trainer.fetches s = 0%nat
    /\ Trainer.steps s = 0%nat
    /\ Trainer.step_of s = 9.
Proof.
  apply (empty_loader_hangs (fun _ _ => None) (B := nat) 4
           {| global_step := 9;
              cfg := {| cfg_name := "run"; max_iter := 5; save_ckpt_every := None;
                        eval_every := 2; save_on_quit := false |} |}
           {| global_leader := true; local_leader := true; stdin := [] |}).
  lia.
Defined.

(** ** The mode of the engines *)

Section Mode.
Context {B : Type}.
Variable estimate : Z -> Z -> option Exn.
Variable poll : Console -> string * Console.
Variable dl : list B.




















End Mode.

(** ** What one command of a tick does *)

Section Commands.
Context {B : Type}.
Variable estimate : Z -> Z -> option Exn.

Lemma saves_emit (e : Effect B) (s : Trainer.State (B := B)) :
  Trainer.saves (Trainer.emit e s)
  = (Trainer.saves s + if Trainer.is_save e then 1 else 0)%nat.
Proof.
  unfold Trainer.saves. cbn [Trainer.trace Trainer.emit]. rewrite count_app.
  unfold Trainer.count at 2. simpl. destruct (Trainer.is_save e); reflexivity.
Qed.

Lemma evaluations_emit (e : Effect B) (s : Trainer.State (B := B)) :
  Trainer.evaluations (Trainer.emit e s)
  = (Trainer.evaluations s + if Trainer.is_eval_fn e then 1 else 0)%nat.
Proof.
  unfold Trainer.evaluations. cbn [Trainer.trace Trainer.emit]. rewrite count_app.
  unfold Trainer.count at 2. simpl. destruct (Trainer.is_eval_fn e); reflexivity.
Qed.

(** Lines 191 to 207 save nothing, evaluate nothing and leave the engines
    and the surroundings alone. *)
Lemma prelude_counts (command : string) (s : Trainer.State (B := B)) :
  let s0 := Trainer.flow_state
              (Trainer.time_query estimate command
                 (Trainer.clear_events command (Trainer.show_events command s))) in
  Trainer.engines s0 = Trainer.engines s
  /\ Trainer.console s0 = Trainer.console s
  /\ Trainer.saves s0 = Trainer.saves s
  /\ Trainer.evaluations s0 = Trainer.evaluations s.
Proof.
  cbv zeta. unfold Trainer.time_query, Trainer.time_target,
    Trainer.clear_events, Trainer.show_events.
  destruct (Py.contains "time" command);
    [destruct (Py.contains " to " command); [destruct Py.int|]; destruct estimate|];
    destruct (String.eqb command "event clear");
    destruct (Trainer.mem command ["event show"; "event"]);
    repeat split; unfold Trainer.saves, Trainer.evaluations;
    cbn [Trainer.trace Trainer.emit Trainer.set_events Trainer.flow_state];
    rewrite ?count_app; unfold Trainer.count; cbn [filter Trainer.is_save
      Trainer.is_eval_fn List.length]; lia.
Qed.

(** Lines 198 to 207 fall through for a command without ["time"], and for
    any command when the estimate of the step raises nothing. *)
Lemma time_query_falls_through (command : string) (x : Trainer.State (B := B)) :
  Py.contains "time" command = false
  \/ (forall n, estimate (Trainer.step_of x) n = None) ->
  exists x', Trainer.time_query estimate command x = Trainer.Next tt x'.
Proof.
  intro H. unfold Trainer.time_query.
  destruct (Py.contains "time" command); [|eexists; reflexivity].
  destruct H as [H|H]; [discriminate|].
  destruct (Trainer.time_target command x) as [target_iter x1].
  rewrite H. eexists; reflexivity.
Qed.

Lemma checkpoint_counts (command : string) (x : Trainer.State (B := B)) :
  Trainer.cadence (Trainer.cfg_of x) <> 0 ->
  exists x',
    Trainer.checkpoint command x = Trainer.Next tt x'
    /\ Trainer.engines x' = Trainer.engines x
    /\ Trainer.console x' = Trainer.console x
    /\ Trainer.saves x'
       = (Trainer.saves x
          + if Trainer.save_wanted (Trainer.cfg_of x) (Trainer.step_of x) command
            then 1 else 0)%nat
    /\ Trainer.evaluations x' = Trainer.evaluations x.
Proof.
  intro Hc. unfold Trainer.checkpoint. apply Z.eqb_neq in Hc. rewrite Hc.
  fold (Trainer.save_wanted (Trainer.cfg_of x) (Trainer.step_of x) command).
  destruct (Trainer.save_wanted _ _ _); eexists; (split; [reflexivity|]);
    repeat split; rewrite ?saves_emit, ?evaluations_emit;
    cbn [Trainer.is_save Trainer.is_eval_fn]; lia.
Qed.

(** Lines 253 to 256: on the global leader one run of [eval_fn] when the
    test holds, on the other ranks none. *)
Lemma evaluation_counts (command : string) (x : Trainer.State (B := B)) :
  eval_every (Trainer.cfg_of x) <> 0 ->
  exists x',
    Trainer.evaluation command x = Trainer.Next tt x'
    /\ Trainer.engines x' = Trainer.engines x
    /\ Trainer.console x' = Trainer.console x
    /\ Trainer.saves x' = Trainer.saves x
    /\ Trainer.evaluations x'
       = (Trainer.evaluations x
          + if Trainer.eval_wanted (Trainer.cfg_of x) (Trainer.step_of x) command
               && global_leader (Trainer.console x)
            then 1 else 0)%nat.
Proof.
  intro Hc. unfold Trainer.evaluation. apply Z.eqb_neq in Hc. rewrite Hc.
  fold (Trainer.eval_wanted (Trainer.cfg_of x) (Trainer.step_of x) command).
  destruct (Trainer.eval_wanted _ _ _); eexists; (split; [reflexivity|]);
    unfold Trainer.evaluate, Trainer.eval_fn, Trainer.global_leader_only;
    cbn [Trainer.console Trainer.emit];
    destruct (global_leader (Trainer.console x));
    repeat split; rewrite ?saves_emit, ?evaluations_emit;
    cbn [Trainer.is_save Trainer.is_eval_fn andb]; lia.
Qed.

(** One command whose time estimate, if it asks for one, raises nothing: it
    ends the run exactly when it is [quit]; before that it has saved once if
    line 216 holds and, on the global leader, evaluated once if line 253
    holds. *)
Lemma process_command_counts (command : string) (s : Trainer.State (B := B)) :
  eval_every (Trainer.cfg_of s) <> 0 ->
  Py.contains "time" command = false
  \/ (forall n, estimate (Trainer.step_of s) n = None) ->
  exists s',
    Trainer.process_command estimate command s
    = (if Trainer.mem command ["quit"] then Trainer.Return_ s' else Trainer.Next tt s')
    /\ Trainer.engines s' = Trainer.engines s
    /\ Trainer.console s' = Trainer.console s
    /\ Trainer.saves s'
       = (Trainer.saves s
          + if Trainer.save_wanted (Trainer.cfg_of s) (Trainer.step_of s) command
            then 1 else 0)%nat
    /\ Trainer.evaluations s'
       = (Trainer.evaluations s
          + if Trainer.eval_wanted (Trainer.cfg_of s) (Trainer.step_of s) command
               && global_leader (Trainer.console s)
            then 1 else 0)%nat.
Proof.
  intros Heval Hquiet. unfold Trainer.process_command.
  pose proof (prelude_counts command s) as H0. cbv zeta in H0.
  destruct (time_query_falls_through command
              (Trainer.clear_events command (Trainer.show_events command s)))
    as (s0 & Hrun0).
  { destruct Hquiet as [H|H]; [now left | right].
    replace (Trainer.step_of
               (Trainer.clear_events command (Trainer.show_events command s)))
      with (Trainer.step_of s); [exact H|].
    unfold Trainer.clear_events, Trainer.show_events.
    destruct (String.eqb command "event clear");
      destruct (Trainer.mem command ["event show"; "event"]); reflexivity. }
  rewrite Hrun0 in H0 |- *. cbn [Trainer.flow_state Trainer.bind] in H0 |- *.
  destruct H0 as (He0 & Hw0 & Hs0 & Hv0).
  assert (Hcfg0 : Trainer.cfg_of s0 = Trainer.cfg_of s)
    by (unfold Trainer.cfg_of; now rewrite He0).
  assert (Hstep0 : Trainer.step_of s0 = Trainer.step_of s)
    by (unfold Trainer.step_of; now rewrite He0).
  destruct (checkpoint_counts command s0) as (s1 & Hrun1 & He1 & Hw1 & Hs1 & Hv1).
  { rewrite Hcfg0. now apply cadence_nonzero. }
  assert (Hcfg1 : Trainer.cfg_of s1 = Trainer.cfg_of s)
    by (unfold Trainer.cfg_of in *; now rewrite He1).
  assert (Hstep1 : Trainer.step_of s1 = Trainer.step_of s)
    by (unfold Trainer.step_of in *; now rewrite He1).
  destruct (evaluation_counts command s1) as (s2 & Hrun2 & He2 & Hw2 & Hs2 & Hv2).
  { now rewrite Hcfg1. }
  rewrite Hrun1. cbn [Trainer.bind]. rewrite Hrun2. cbn [Trainer.bind].
  exists s2. unfold Trainer.quit.
  split; [destruct (Trainer.mem command ["quit"]); reflexivity|].
  split; [congruence|]. split; [congruence|].
  rewrite Hs2, Hs1, Hs0, Hv2, Hv1, Hv0, Hcfg0, Hstep0, Hcfg1, Hstep1, Hw1, Hw0.
  split; reflexivity.
Qed.

Lemma process_commands_counts (commands : list string) :
  forall s : Trainer.State (B := B),
    eval_every (Trainer.cfg_of s) <> 0 ->
    ~ In "quit" commands ->
    (forall n, estimate (Trainer.step_of s) n = None) ->
    exists s',
      Trainer.process_commands estimate commands s = Trainer.Next tt s'
      /\ Trainer.engines s' = Trainer.engines s
      /\ Trainer.console s' = Trainer.console s
      /\ Trainer.saves s'
         = (Trainer.saves s
            + List.length
                (filter (Trainer.save_wanted (Trainer.cfg_of s) (Trainer.step_of s))
                   commands))%nat
      /\ Trainer.evaluations s'
         = (Trainer.evaluations s
            + if global_leader (Trainer.console s)
              then List.length
                     (filter (Trainer.eval_wanted (Trainer.cfg_of s) (Trainer.step_of s))
                        commands)
              else 0)%nat.
Proof.
  induction commands as [|c cs IH]; intros s Heval Hq Hest.
  - exists s. cbn. repeat split; try lia.
    destruct (global_leader _); lia.
  - cbn [Trainer.process_commands].
    destruct (process_command_counts c s Heval (or_intror Hest))
      as (s1 & Hrun & He & Hw & Hs & Hv).
    assert (Hc : Trainer.mem c ["quit"] = false).
    { cbn. destruct (String.eqb_spec c "quit") as [->|]; [|reflexivity].
      exfalso. apply Hq. now left. }
    rewrite Hc in Hrun. rewrite Hrun. cbn [Trainer.bind].
    assert (Hcfg : Trainer.cfg_of s1 = Trainer.cfg_of s)
      by (unfold Trainer.cfg_of; now rewrite He).
    assert (Hstep : Trainer.step_of s1 = Trainer.step_of s)
      by (unfold Trainer.step_of; now rewrite He).
    destruct (IH s1) as (s' & Hrun' & He' & Hw' & Hs' & Hv').
    + now rewrite Hcfg.
    + intro H. apply Hq. now right.
    + now rewrite Hstep.
    + exists s'. split; [exact Hrun'|]. split; [congruence|].
      split; [congruence|].
      rewrite Hs', Hv', Hs, Hv, Hcfg, Hstep, Hw. cbn [filter].
      destruct (Trainer.save_wanted _ _ c), (Trainer.eval_wanted _ _ c),
        (global_leader (Trainer.console s));
        cbn [List.length andb]; split; lia.
Qed.

(** A command that falls through has saved once if line 216 holds, and
    not otherwise. *)
Lemma process_command_saves (command : string) (s s' : Trainer.State (B := B)) :
  Trainer.process_command estimate command s = Trainer.Next tt s' ->
  Trainer.engines s' = Trainer.engines s
  /\ Trainer.saves s'
     = (Trainer.saves s
        + if Trainer.save_wanted (Trainer.cfg_of s) (Trainer.step_of s) command
          then 1 else 0)%nat.
Proof.
  unfold Trainer.process_command.
  pose proof (prelude_counts command s) as H0. cbv zeta in H0.
  destruct (Trainer.time_query estimate command _) as [[] s0|s0|e s0];
    cbn [Trainer.bind Trainer.flow_state] in *; try discriminate.
  destruct H0 as (He0 & _ & Hs0 & _).
  assert (Hcfg0 : Trainer.cfg_of s0 = Trainer.cfg_of s)
    by (unfold Trainer.cfg_of; now rewrite He0).
  assert (Hstep0 : Trainer.step_of s0 = Trainer.step_of s)
    by (unfold Trainer.step_of; now rewrite He0).
  destruct (Z.eq_dec (Trainer.cadence (Trainer.cfg_of s0)) 0) as [Hz|Hnz].
  { unfold Trainer.checkpoint. apply Z.eqb_eq in Hz. rewrite Hz.
    cbn [Trainer.bind]. discriminate. }
  destruct (checkpoint_counts command s0 Hnz) as (s1 & Hrun1 & He1 & _ & Hs1 & _).
  rewrite Hrun1. cbn [Trainer.bind].
  unfold Trainer.evaluation.
  destruct (eval_every (Trainer.cfg_of s1) =? 0); cbn [Trainer.bind];
    [discriminate|].
  assert (Hquit : forall x : Trainer.State (B := B),
             Trainer.quit command x = Trainer.Next tt s' -> x = s').
  { intro x. unfold Trainer.quit. destruct Trainer.mem; [discriminate|].
    intro H. now inversion H. }
  match goal with |- context [if ?c then _ else _] => destruct c end;
    cbn [Trainer.bind]; intro H; apply Hquit in H; subst s'.
  - split; [rewrite evaluate_emits; cbn [Trainer.engines Trainer.emits]; congruence|].
    unfold Trainer.saves in *. rewrite saved_at_evaluate_count.
    rewrite Hs1, Hs0, Hcfg0, Hstep0. reflexivity.
  - split; [congruence|]. rewrite Hs1, Hs0, Hcfg0, Hstep0. reflexivity.
Qed.

Lemma process_commands_saves (commands : list string) :
  forall s s' : Trainer.State (B := B),
    Trainer.process_commands estimate commands s = Trainer.Next tt s' ->
    Trainer.engines s' = Trainer.engines s
    /\ Trainer.saves s'
       = (Trainer.saves s
          + List.length
              (filter (Trainer.save_wanted (Trainer.cfg_of s) (Trainer.step_of s))
                 commands))%nat.
Proof.
  induction commands as [|c cs IH]; intros s s'; cbn [Trainer.process_commands].
  - intro H. inversion H; subst. cbn. split; [reflexivity | lia].
  - destruct (Trainer.process_command estimate c s) as [[] s1|s1|e s1] eqn:Hc;
      cbn [Trainer.bind]; try discriminate.
    intro Hrest.
    destruct (process_command_saves c s s1 Hc) as [He Hs].
    destruct (IH s1 s' Hrest) as [He' Hs'].
    assert (Hcfg : Trainer.cfg_of s1 = Trainer.cfg_of s)
      by (unfold Trainer.cfg_of; now rewrite He).
    assert (Hstep : Trainer.step_of s1 = Trainer.step_of s)
      by (unfold Trainer.step_of; now rewrite He).
    split; [congruence|].
    rewrite Hs', Hs, Hcfg, Hstep. cbn [filter].
    destruct (Trainer.save_wanted _ _ c); cbn [List.length]; lia.
Qed.

(** X6: the checkpoint test and the evaluation test are made anew for every
    command of a tick.  Take a tick whose commands do not include [quit],
    with a non-zero [eval_every] and a time estimate that raises nothing at
    this step: every command falls through; on a step that is on the
    checkpoint cadence the checkpoint is saved once per command of the tick;
    and on a step that is on the evaluation cadence the [eval_fn] given to
    [train] runs once per command on the global leader and not at all on the
    other ranks.  So a tick in which scheduled events fire besides the live
    command saves and evaluates several times. *)
Theorem once_per_command :
  forall (commands : list string) (s : Trainer.State (B := B)),
    eval_every (Trainer.cfg_of s) <> 0 ->
    ~ In "quit" commands ->
    (forall n, estimate (Trainer.step_of s) n = None) ->
    exists s',
      Trainer.process_commands estimate commands s = Trainer.Next tt s'
      /\ (Trainer.step_of s mod Trainer.cadence (Trainer.cfg_of s) = 0 ->
          Trainer.saves s' = (Trainer.saves s + List.length commands)%nat)
      /\ (Trainer.step_of s mod eval_every (Trainer.cfg_of s) = 0 ->
          Trainer.evaluations s'
          = (Trainer.evaluations s
             + if global_leader (Trainer.console s)
               then List.length commands else 0)%nat).
Proof.
  intros commands s Heval Hq Hest.
  destruct (process_commands_counts commands s Heval Hq Hest)
    as (s' & Hrun & _ & _ & Hs & Hv).
  exists s'. split; [exact Hrun|]. split; intro Hmod.
  - rewrite Hs. f_equal. f_equal. apply forallb_filter_id.
    apply forallb_forall. intros c _. unfold Trainer.save_wanted.
    apply Z.eqb_eq in Hmod. now rewrite Hmod.
  - rewrite Hv. f_equal. destruct (global_leader _); [|reflexivity].
    f_equal. apply forallb_filter_id.
    apply forallb_forall. intros c _. unfold Trainer.eval_wanted.
    apply Z.eqb_eq in Hmod. now rewrite Hmod.
Qed.

(** X8: the command [quit] ends the run, and before that it saves a
    checkpoint when [cfg.save_on_quit] is set, whatever the step; when it is
    not set, a checkpoint is saved only if the step is due anyway. *)
Theorem quit_saves_when_configured :
  forall s : Trainer.State (B := B),
    eval_every (Trainer.cfg_of s) <> 0 ->
    exists s',
      Trainer.process_command estimate "quit" s = Trainer.Return_ s'
      /\ Trainer.step_of s' = Trainer.step_of s
      /\ Trainer.saves s'
         = (Trainer.saves s
            + if save_on_quit (Trainer.cfg_of s)
                 || Trainer.save_due (Trainer.cadence (Trainer.cfg_of s)) (Trainer.step_of s)
              then 1 else 0)%nat.
Proof.
  intros s Heval.
  destruct (process_command_counts "quit" s Heval (or_introl eq_refl))
    as (s' & Hrun & He & _ & Hs & _).
  exists s'. split; [exact Hrun|].
  split; [unfold Trainer.step_of; now rewrite He|].
  rewrite Hs. f_equal.
  unfold Trainer.save_wanted, Trainer.save_due, Trainer.saving_commands.
  destruct (save_on_quit (Trainer.cfg_of s)); cbn [app Trainer.mem existsb String.eqb];
    repeat match goal with |- context [?a =? ?b] =>
             destruct (a =? b); cbn [orb] end; reflexivity.
Qed.

End Commands.

Lemma once_per_command_witness :
  let s := {| Trainer.engines :=
                {| global_step := 6;
                   cfg := {| cfg_name := "run"; max_iter := 10;
                             save_ckpt_every := Some 3; eval_every := 2;
                             save_on_quit := false |} |};
              Trainer.events := [("time", 6); ("event", 6)];
              Trainer.rest := [1%nat];
              Trainer.console := {| global_leader := true; local_leader := true;
                                    stdin := [] |};
              Trainer.trace := [] |} in
  exists s',
    Trainer.process_commands (fun _ _ => None) [" "; "time"; "event"] s
    = Trainer.Next tt s'
    /\ Trainer.saves s' = 3%nat
    /\ Trainer.evaluations s' = 3%nat.
Proof.
  intro s.
  destruct (once_per_command (fun _ _ => None) [" "; "time"; "event"] s)
    as (s' & Hrun & Hs & Hv).
  - vm_compute. discriminate.
  - vm_compute. intros [H|[H|[H|[]]]]; discriminate.
  - reflexivity.
  - exists s'. split; [exact Hrun|].
    split; [apply Hs | apply Hv]; reflexivity.
Defined.

Lemma quit_saves_when_configured_witness :
  let s := {| Trainer.engines :=
                {| global_step := 7;
                   cfg := {| cfg_name := "run"; max_iter := 10;
                             save_ckpt_every := Some 3; eval_every := 2;
                             save_on_quit := true |} |};
              Trainer.events := [];
              Trainer.rest := [1%nat];
              Trainer.console := {| global_leader := true; local_leader := true;
                                    stdin := [] |};
              Trainer.trace := [] |} in
  exists s',
    Trainer.process_command (fun _ _ => None) "quit" s = Trainer.Return_ s'
    /\ Trainer.step_of s' = 7
    /\ Trainer.saves s' = 1%nat.
Proof.
  intro s. apply (quit_saves_when_configured (fun _ _ => None) s). vm_compute. discriminate.
Defined.

(** ** Scheduled commands and the event list within a tick *)

Section Scheduled.
Context {B : Type}.
Variable estimate : Z -> Z -> option Exn.
Variable poll : Console -> string * Console.

Lemma quit_never_falls_through (s : Trainer.State (B := B)) :
  forall (a : unit) (s' : Trainer.State (B := B)),
    Trainer.process_command estimate "quit" s <> Trainer.Next a s'.
Proof.
  intros a s'. unfold Trainer.process_command.
  destruct (Trainer.time_query estimate "quit" _) as [[] s0|s0|e s0];
    cbn [Trainer.bind]; try discriminate.
  destruct (Trainer.checkpoint "quit" s0) as [[] s1|s1|e s1];
    cbn [Trainer.bind]; try discriminate.
  destruct (Trainer.evaluation "quit" s1) as [[] s2|s2|e s2];
    cbn [Trainer.bind]; discriminate.
Qed.

Lemma quit_among_commands (commands : list string) :
  In "quit" commands ->
  forall (s s' : Trainer.State (B := B)) (a : unit),
    Trainer.process_commands estimate commands s <> Trainer.Next a s'.
Proof.
  induction commands as [|c cs IH]; intros Hin s s' a; [destruct Hin|].
  cbn [Trainer.process_commands].
  destruct Hin as [->|Hin].
  - pose proof (quit_never_falls_through s) as Hq.
    destruct (Trainer.process_command estimate "quit" s) as [[] s1|s1|e s1];
      cbn [Trainer.bind]; try discriminate.
    exfalso. exact (Hq tt s1 eq_refl).
  - destruct (Trainer.process_command estimate c s) as [[] s1|s1|e s1];
      cbn [Trainer.bind]; try discriminate.
    now apply IH.
Qed.

(** What the registration block hands on: the command itself when it has
    no [@]; otherwise the empty command, and the event list as it was or
    with the one event that the command names at its end. *)
Lemma register_block_cases (command live : string) (s s2 : Trainer.State (B := B)) :
  Trainer.register_block command s = Trainer.Next live s2 ->
  (live = command /\ Trainer.events s2 = Trainer.events s)
  \/ (live = ""
      /\ exists what when,
           Py.split "@" command = [what; when]
           /\ (Trainer.events s2 = Trainer.events s
               \/ exists n, Py.int when = Some n
                            /\ Trainer.events s2 = Trainer.events s ++ [(what, n)])).
Proof.
  unfold Trainer.register_block.
  destruct (Py.contains "@" command).
  - destruct (Py.split "@" command) as [|what [|when [|third more]]];
      cbn [Trainer.unpack2]; try discriminate.
    unfold Schedule.register.
    destruct (Py.int when) as [n|] eqn:Hint; intro H; inversion H; subst; right;
      (split; [reflexivity|]); exists what, when; (split; [reflexivity|]).
    + right. exists n. split; [exact Hint | reflexivity].
    + left. reflexivity.
  - intro H. inversion H; subst. left. split; reflexivity.
Qed.

(** The registration block only ever adds to the event list. *)
Lemma register_block_keeps (command live : string) (s s2 : Trainer.State (B := B)) :
  Trainer.register_block command s = Trainer.Next live s2 ->
  Trainer.engines s2 = Trainer.engines s
  /\ forall e, In e (Trainer.events s) -> In e (Trainer.events s2).
Proof.
  unfold Trainer.register_block.
  destruct (Py.contains "@" command).
  - destruct Trainer.unpack2 as [[what when]|e]; [|discriminate].
    unfold Schedule.register. destruct (Py.int when); intro H; inversion H; subst;
      cbn; split; auto.
    intros e He. apply in_or_app. now left.
  - intro H. inversion H; subst. split; auto.
Qed.

(** X7: a [quit] that is scheduled for the next step ends the run in the
    tick of that step, whatever the live command of that tick is: after one
    more training step [train] returns from inside the loop, or an exception
    raised earlier in that tick leaves it; the loop does not go on. *)
Theorem scheduled_quit_ends_the_run :
  forall (dl : list B) (fuel : nat) (s : Trainer.State (B := B)),
    dl <> [] ->
    Trainer.step_of s < max_iter (Trainer.cfg_of s) ->
    In ("quit", Trainer.step_of s + 1) (Trainer.events s) ->
    exists s',
      (Trainer.loop estimate poll dl (S fuel) s = Trainer.Returned s'
       \/ exists e, Trainer.loop estimate poll dl (S fuel) s = Trainer.Crashed e s')
      /\ Trainer.step_of s' = Trainer.step_of s + 1
      /\ Trainer.steps s' = S (Trainer.steps s).
Proof.
  intros dl fuel s Hne Hlt Hin.
  cbn [Trainer.loop].
  assert (Hnext : exists logged b r,
             Epochs.next dl (Trainer.rest s) = Some (logged, b, r)).
  { unfold Epochs.next. destruct (Trainer.rest s) as [|b r]; [|eauto].
    destruct dl as [|b r]; [congruence | eauto]. }
  destruct Hnext as (logged & b & r & Hnext). rewrite Hnext.
  pose proof (fetch_counts logged b r s (next_logged dl _ _ _ _ Hnext)) as Hc.
  cbv zeta in Hc. destruct Hc as (_ & Hs1 & _ & _).
  set (s1 := Trainer.emits (logged ++ [Fetched b]) (Trainer.set_rest r s)) in *.
  change (Trainer.cfg_of s1) with (Trainer.cfg_of s).
  change (Trainer.step_of s1) with (Trainer.step_of s).
  destruct (Z.leb_spec (max_iter (Trainer.cfg_of s)) (Trainer.step_of s)); [lia|].
  pose proof (tick_counts estimate poll b s1) as Ht. cbv zeta in Ht.
  destruct Ht as (_ & Hsteps & _ & Hstep & _).
  change (Trainer.step_of s1) with (Trainer.step_of s) in Hstep.
  assert (Hnot : forall s', Trainer.tick estimate poll b s1 <> Trainer.Next tt s').
  { intro s'. unfold Trainer.tick, Trainer.poll_command.
    destruct (poll (Trainer.console (Trainer.train_step b s1))) as [command w].
    set (s2 := Trainer.set_console w (Trainer.train_step b s1)).
    destruct (Trainer.register_block command s2) as [live s3|s3|e s3] eqn:Hreg;
      cbn [Trainer.bind]; try discriminate.
    destruct (register_block_keeps _ _ _ _ Hreg) as [He3 Hkeep].
    unfold Schedule.resolve. apply quit_among_commands. right.
    assert (Hstep3 : Trainer.step_of s3 = Trainer.step_of s + 1)
      by (unfold Trainer.step_of; rewrite He3; reflexivity).
    unfold Schedule.fired.
    change "quit" with (fst ("quit", Trainer.step_of s + 1)).
    apply in_map. apply in_due. split; [|now rewrite Hstep3].
    apply in_prune. split; [|rewrite Hstep3; cbn; lia].
    apply Hkeep. exact Hin. }
  destruct (Trainer.tick estimate poll b s1) as [[] s2|s2|e s2];
    cbn [Trainer.flow_state] in *.
  - exfalso. exact (Hnot s2 eq_refl).
  - exists s2. split; [now left|]. split; lia.
  - exists s2. split; [right; now exists e|]. split; lia.
Qed.

(** X9: once the command [event clear] has been handled the event list is
    empty, and it is still empty when the commands of the tick have all been
    handled, however that ends; the commands that were due in the tick are
    not affected, their list was made before. *)
Theorem event_clear_empties_the_list :
  forall (later : list string) (s : Trainer.State (B := B)),
    Trainer.events
      (Trainer.flow_state (Trainer.process_commands estimate ("event clear" :: later) s))
    = [].
Proof.
  intros later s. cbn [Trainer.process_commands].
  pose proof (events_process_command estimate "event clear" s) as Hnil.
  change (String.eqb "event clear" "event clear") with true in Hnil.
  cbv iota in Hnil.
  destruct (Trainer.process_command estimate "event clear" s)
    as [[] s1|s1|e s1]; cbn [Trainer.bind Trainer.flow_state] in *; try exact Hnil.
  pose proof (events_process_commands estimate later s1) as Hl. cbv zeta in Hl.
  destruct Hl as [Hl|[Hl _]]; [now rewrite Hl | exact Hl].
Qed.

(** X11: an event that is not yet overdue at the next step is still in the
    list after the tick of that step, provided the tick falls through and
    [event clear] is not among its commands: it is not the live command, no
    [event clear] is scheduled for that step, and the live command, ASCII
    text within the digit limit, does not itself schedule one for that
    step. *)
Theorem pending_event_is_kept :
  forall (b : B) (s s' : Trainer.State (B := B)) (e : Schedule.Event),
    let command := fst (poll (Trainer.console (Trainer.train_step b s))) in
    Trainer.tick estimate poll b s = Trainer.Next tt s' ->
    In e (Trainer.events s) ->
    Trainer.step_of s + 1 <= snd e ->
    command <> "event clear" ->
    ~ In ("event clear", Trainer.step_of s + 1) (Trainer.events s) ->
    Py.int_text command = true ->
    (forall when, Py.split "@" command = ["event clear"; when] ->
                  Py.int when <> Some (Trainer.step_of s + 1)) ->
    In e (Trainer.events s').
Proof.
  intros b s s' e. cbv zeta. unfold Trainer.tick, Trainer.poll_command.
  destruct (poll (Trainer.console (Trainer.train_step b s))) as [command w].
  cbn [fst].
  set (s1 := Trainer.set_console w (Trainer.train_step b s)).
  destruct (Trainer.register_block command s1) as [live s2|s2|x s2] eqn:Hreg;
    cbn [Trainer.bind]; try discriminate.
  destruct (register_block_keeps _ _ _ _ Hreg) as [He2 Hkeep].
  pose proof (register_block_cases _ _ _ _ Hreg) as Hcases.
  assert (Hstep2 : Trainer.step_of s2 = Trainer.step_of s + 1)
    by (unfold Trainer.step_of; rewrite He2; reflexivity).
  unfold Schedule.resolve.
  set (kept := Schedule.prune (Trainer.step_of s2) (Trainer.events s2)).
  set (commands := live :: Schedule.fired (Trainer.step_of s2) kept).
  intros Htick Hin Hle Hlive Hsched _ Hreg'.
  pose proof (events_process_commands estimate commands (Trainer.set_events kept s2)) as Hev.
  cbv zeta in Hev. rewrite Htick in Hev. cbn [Trainer.flow_state] in Hev.
  destruct Hev as [Hev|[_ Hclear]].
  - rewrite Hev. cbn [Trainer.events Trainer.set_events]. subst kept.
    apply in_prune. split; [apply Hkeep; exact Hin|].
    rewrite Hstep2. exact Hle.
  - exfalso. subst commands. destruct Hclear as [Hclear|Hclear].
    + destruct Hcases as [[Hl _]|[Hl _]]; [|subst live; discriminate].
      apply Hlive. now rewrite <- Hl.
    + unfold Schedule.fired in Hclear. apply in_map_iff in Hclear.
      destruct Hclear as ([what n] & Hfst & Hdue). cbn [fst] in Hfst. subst what.
      apply in_due in Hdue. destruct Hdue as [Hk Hn]. cbn [snd] in Hn.
      subst kept. apply in_prune in Hk. destruct Hk as [Hk _].
      rewrite Hstep2 in Hn. subst n.
      destruct Hcases as [[_ Hevs]|[_ (what & when & Hsplit & Hevs)]].
      * rewrite Hevs in Hk. exact (Hsched Hk).
      * destruct Hevs as [Hevs|(n & Hint & Hevs)].
        -- rewrite Hevs in Hk. exact (Hsched Hk).
        -- rewrite Hevs in Hk. apply in_app_or in Hk.
           destruct Hk as [Hk|[Hk|[]]]; [exact (Hsched Hk)|].
           inversion Hk; subst what n.
           exact (Hreg' when Hsplit Hint).
Qed.

End Scheduled.

Lemma scheduled_quit_ends_the_run_witness :
  let s := {| Trainer.engines :=
                {| global_step := 3;
                   cfg := {| cfg_name := "run"; max_iter := 10;
                             save_ckpt_every := Some 3; eval_every := 2;
                             save_on_quit := false |} |};
              Trainer.events := [("quit", 4)];
              Trainer.rest := [];
              Trainer.console := {| global_leader := true; local_leader := true;
                                    stdin := [] |};
              Trainer.trace := [] |} in
  exists s',
    (Trainer.loop (fun _ _ => None) _non_blocking_input [0%nat] 5 s
     = Trainer.Returned s'
     \/ exists e,
          Trainer.loop (fun _ _ => None) _non_blocking_input [0%nat] 5 s
          = Trainer.Crashed e s')
    /\ Trainer.step_of s' = 3 + 1
    /\ Trainer.steps s' = 1%nat.
Proof.
  intro s.
  apply (scheduled_quit_ends_the_run (fun _ _ => None) _non_blocking_input
           [0%nat] 4 s).
  - discriminate.
  - vm_compute. reflexivity.
  - left. reflexivity.
Defined.

Lemma pending_event_is_kept_witness :
  let s := {| Trainer.engines :=
                {| global_step := 3;
                   cfg := {| cfg_name := "run"; max_iter := 10;
                             save_ckpt_every := Some 3; eval_every := 2;
                             save_on_quit := false |} |};
              Trainer.events := [("eval", 4); ("save", 7)];
              Trainer.rest := [];
              Trainer.console := {| global_leader := true; local_leader := true;
                                    stdin := [] |};
              Trainer.trace := [] |} in
  exists s',
    Trainer.tick (fun _ _ => None) _non_blocking_input 0%nat s = Trainer.Next tt s'
    /\ In ("save", 7) (Trainer.events s').
Proof.
  intro s. eexists. split; [vm_compute; reflexivity|].
  apply (pending_event_is_kept (fun _ _ => None) _non_blocking_input 0%nat s _
           ("save", 7)).
  - vm_compute. reflexivity.
  - right. left. reflexivity.
  - vm_compute. discriminate.
  - discriminate.
  - intros [H|[H|[]]]; discriminate.
  - reflexivity.
  - intros when H. discriminate.
Defined.

Lemma tick_leaves_no_stale_event_witness :
  let s := {| Trainer.engines :=
                {| global_step := 3;
                   cfg := {| cfg_name := "run"; max_iter := 10;
                             save_ckpt_every := Some 3; eval_every := 2;
                             save_on_quit := false |} |};
              Trainer.events := [("save", 2); ("eval", 4); ("save", 7)];
              Trainer.rest := [];
              Trainer.console := {| global_leader := true; local_leader := true;
                                    stdin := [] |};
              Trainer.trace := [] |} in
  exists s',
    Trainer.tick (fun _ _ => None) _non_blocking_input 0%nat s = Trainer.Next tt s'
    /\ Trainer.step_of s' = Trainer.step_of s + 1
    /\ Forall (fun e => Trainer.step_of s' <= snd e) (Trainer.events s').
Proof.
  intro s. eexists. split; [vm_compute; reflexivity|].
  apply (tick_leaves_no_stale_event (fun _ _ => None) _non_blocking_input 0%nat s).
  vm_compute. reflexivity.
Defined.

Lemma train_returns_after_the_last_flush_witness :
  exists s,
    Trainer.train (fun _ _ => None) [0%nat] 4
      {| global_step := 1;
         cfg := {| cfg_name := "run"; max_iter := 3; save_ckpt_every := None;
                   eval_every := 2; save_on_quit := false |} |}
      {| global_leader := true; local_leader := true; stdin := [] |}
    = Trainer.Finished s
    /\ (exists t, Trainer.trace s = t ++ [WriterFlush])
    /\ Trainer.flushes s = S (Trainer.steps s).
Proof.
  eexists. split; [vm_compute; reflexivity|].
  apply (train_returns_after_the_last_flush (fun _ _ => None) [0%nat] 4
           {| global_step := 1;
              cfg := {| cfg_name := "run"; max_iter := 3; save_ckpt_every := None;
                        eval_every := 2; save_on_quit := false |} |}
           {| global_leader := true; local_leader := true; stdin := [] |}).
  vm_compute. reflexivity.
Defined.

(** ** Fetches, training steps and flushes of any run *)


(** ** The generator, item by item *)

Section Cycle.
Context {B : Type}.

Lemma items_passes (dl : list B) (q : nat) :
  Epochs.items (List.concat (repeat (Epochs.pass dl) q)) = List.concat (repeat dl q).
Proof.
  induction q as [|q IH]; [reflexivity|].
  cbn [repeat List.concat]. now rewrite items_app, items_pass, IH.
Qed.

Lemma notifications_passes (dl : list B) (q : nat) :
  Epochs.notifications (List.concat (repeat (Epochs.pass dl) q)) = q.
Proof.
  induction q as [|q IH]; [reflexivity|].
  cbn [repeat List.concat]. now rewrite notifications_app, notifications_pass, IH.
Qed.

Lemma length_cycles (dl : list B) (q : nat) :
  List.length (List.concat (repeat dl q)) = (q * List.length dl)%nat.
Proof.
  induction q as [|q IH]; [reflexivity|].
  cbn [repeat List.concat]. rewrite length_app, IH. cbn. lia.
Qed.

(** In a list made of [q] copies of [dl] and the first [r] items of one more,
    position [k] holds item [k mod L] of [dl]. *)
Lemma nth_error_cycle (dl : list B) (q : nat) :
  forall r k : nat,
    (r <= List.length dl)%nat ->
    (k < q * List.length dl + r)%nat ->
    nth_error (List.concat (repeat dl q) ++ firstn r dl) k
    = nth_error dl (k mod List.length dl).
Proof.
  induction q as [|q IH]; intros r k Hr Hk.
  - cbn [repeat List.concat app]. cbn in Hk.
    rewrite Nat.mod_small by lia.
    rewrite nth_error_firstn. destruct (Nat.ltb_spec k r); [reflexivity | lia].
  - cbn [repeat List.concat]. rewrite <- app_assoc.
    destruct (Nat.lt_ge_cases k (List.length dl)) as [Hlt|Hge].
    + rewrite nth_error_app1 by exact Hlt. now rewrite Nat.mod_small.
    + rewrite nth_error_app2 by exact Hge.
      rewrite IH by (cbn in Hk; lia).
      f_equal.
      replace k with ((k - List.length dl) + 1 * List.length dl)%nat at 2 by lia.
      rewrite Nat.Div0.mod_add. reflexivity.
Qed.

(** X12: over a data loader of [L] >= 1 items the generator yields for ever:
    any number [n] of items can be pulled; the item at position [k] (from 0)
    is item [k mod L] of the loader, so every pass goes through the loader in
    order; and "New epoch starts." has been logged once per pass begun, that
    is [n / L] times, plus one when [n] is not a multiple of [L]. *)
Theorem generator_cycles_through_the_loader :
  forall (dl : list B) (n : nat),
    dl <> [] ->
    exists t,
      Epochs._make_infinite_epochs dl n = Some t
      /\ List.length (Epochs.items t) = n
      /\ (forall k, (k < n)%nat ->
            nth_error (Epochs.items t) k = nth_error dl (k mod List.length dl))
      /\ Epochs.notifications t
         = (n / List.length dl + if (n mod List.length dl =? 0)%nat then 0 else 1)%nat.
Proof.
  intros dl n Hne. unfold Epochs._make_infinite_epochs.
  set (L := List.length dl).
  assert (HL : (0 < L)%nat) by (subst L; destruct dl; [congruence | cbn; lia]).
  pose proof (Nat.div_mod_eq n L) as Hdiv.
  pose proof (Nat.mod_upper_bound n L ltac:(lia)) as Hr.
  set (q := (n / L)%nat) in *. set (r := (n mod L)%nat) in *.
  assert (Hn : n = (q * L + r)%nat) by lia.
  assert (Htail : Epochs.pull dl r []
                  = Some (if (r =? 0)%nat then []
                          else LogNewEpoch :: map Fetched (firstn r dl))).
  { destruct (Nat.eqb_spec r 0) as [->|Hr0]; [reflexivity|].
    apply pull_begun_pass. fold L. lia. }
  eexists. split.
  { rewrite Hn. fold L in Htail |- *. unfold L at 1.
    rewrite (pull_passes dl q r Hne), Htail. reflexivity. }
  assert (Hitems : Epochs.items
                     (List.concat (repeat (Epochs.pass dl) q)
                      ++ (if (r =? 0)%nat then []
                          else LogNewEpoch :: map Fetched (firstn r dl)))
                   = List.concat (repeat dl q) ++ firstn r dl).
  { rewrite items_app, items_passes. f_equal.
    destruct (Nat.eqb_spec r 0) as [->|Hr0]; [reflexivity|].
    cbn [Epochs.items]. apply items_fetched. }
  split; [|split].
  - rewrite Hitems, length_app, length_firstn, length_cycles.
    fold L. rewrite Nat.min_l by lia. lia.
  - intros k Hk. rewrite Hitems. apply nth_error_cycle; fold L; lia.
  - rewrite notifications_app, notifications_passes.
    destruct (Nat.eqb_spec r 0) as [->|Hr0]; [reflexivity|].
    cbn [Epochs.notifications]. now rewrite notifications_fetched.
Qed.

End Cycle.

Lemma generator_cycles_through_the_loader_witness :
  exists t,
    Epochs._make_infinite_epochs [10; 20; 30] 7 = Some t
    /\ List.length (Epochs.items t) = 7%nat
    /\ (forall k, (k < 7)%nat ->
          nth_error (Epochs.items t) k = nth_error [10; 20; 30] (k mod 3))
    /\ Epochs.notifications t = 3%nat.
Proof.
  apply (generator_cycles_through_the_loader [10; 20; 30] 7). discriminate.
Defined.

(** ** The [time] command *)

Lemma prefix_append (p s : string) : String.prefix p (p ++ s) = true.
Proof.
  induction p as [|c p IH]; cbn [append String.prefix]; [destruct s; reflexivity|].
  destruct (ascii_dec c c); [exact IH | congruence].
Qed.

Lemma contains_prefix (sub s : string) :
  String.prefix sub s = true -> Py.contains sub s = true.
Proof. intro H. destruct s; cbn [Py.contains]; now rewrite H. Qed.

(** A text without the separator is one piece, for any separator. *)
Lemma split_go_without (sep s : string) :
  forall cur : string,
    Py.contains sep s = false ->
    Py.split_go sep O cur s = [(cur ++ s)%string].
Proof.
  induction s as [|c s IH]; intros cur Hno.
  - cbn. now rewrite append_empty_r.
  - cbn [Py.contains] in Hno. cbn [Py.split_go].
    destruct (String.prefix sep (String c s)); [discriminate|].
    rewrite IH by assumption. now rewrite append_assoc3.
Qed.

Lemma split_time_to (text : string) :
  Py.contains " to " text = false ->
  Py.split " to " ("time to " ++ text) = ["time"; text].
Proof.
  intro Hno. unfold Py.split.
  change ("time to " ++ text)%string
    with (String "t" (String "i" (String "m" (String "e" (" to " ++ text))))).
  do 4 (cbn [Py.split_go];
        match goal with |- context [String.prefix " to " (String ?c ?x)] =>
          change (String.prefix " to " (String c x)) with false end;
        cbv iota).
  change (String "t" (String "i" (String "m" (String "e" "")))) with "time".
  change (" to " ++ text)%string
    with (String " " (String "t" (String "o" (String " " text)))).
  cbn [Py.split_go].
  change (String " " (String "t" (String "o" (String " " text))))
    with (" to " ++ text)%string.
  rewrite prefix_append. cbn [String.length Nat.pred Py.split_go].
  rewrite (split_go_without " to " text "" Hno). reflexivity.
Qed.

(** X13: take a command [time to <text>] whose [text] is ASCII text within
    the digit limit and has no [ to ] inside.  Its target is what [int]
    reads from the text; when [int] does not read it, the error is logged
    and the target is [max_iter].  The estimate is asked for the steps from
    the current one to the target, both counted: [target - step + 1];
    nothing requires the target to lie ahead.  What the estimate raises
    leaves the loop, lines 205 to 207 standing outside the [try]; otherwise
    the estimate is logged and nothing else changes. *)
Theorem time_to_target :
  forall (B : Type) (estimate : Z -> Z -> option Exn) (text : string)
         (s : Trainer.State (B := B)),
    Py.contains " to " text = false ->
    Py.int_text text = true ->
    let target :=
      match Py.int text with Some n => n | None => max_iter (Trainer.cfg_of s) end in
    let s1 :=
      match Py.int text with Some _ => s | None => Trainer.emit LogError s end in
    let remaining_iters := target - Trainer.step_of s + 1 in
    Trainer.time_target ("time to " ++ text) s = (target, s1)
    /\ Trainer.time_query estimate ("time to " ++ text) s
       = match estimate (Trainer.step_of s) remaining_iters with
         | Some e => Trainer.Raise e s1
         | None => Trainer.Next tt (Trainer.emit (LogRemaining remaining_iters) s1)
         end.
Proof.
  intros B estimate text s Hno _. cbv zeta.
  assert (Htime : Py.contains "time" ("time to " ++ text) = true)
    by (apply contains_prefix; reflexivity).
  assert (Hto : Py.contains " to " ("time to " ++ text) = true).
  { change ("time to " ++ text)%string
      with (String "t" (String "i" (String "m" (String "e" (" to " ++ text))))).
    do 4 (cbn [Py.contains];
          match goal with |- context [String.prefix " to " (String ?c ?x)] =>
            change (String.prefix " to " (String c x)) with false end;
          cbv iota).
    apply contains_prefix, prefix_append. }
  assert (Htarget : Trainer.time_target ("time to " ++ text) s
                    = (match Py.int text with
                       | Some n => n
                       | None => max_iter (Trainer.cfg_of s)
                       end,
                       match Py.int text with
                       | Some _ => s
                       | None => Trainer.emit LogError s
                       end)).
  { unfold Trainer.time_target. rewrite Hto, (split_time_to text Hno).
    cbn [Py.last_piece List.last]. destruct (Py.int text); reflexivity. }
  split; [exact Htarget|].
  unfold Trainer.time_query. rewrite Htime, Htarget. reflexivity.
Qed.

Lemma time_to_target_witness :
  let s := {| Trainer.engines :=
                {| global_step := 10;
                   cfg := {| cfg_name := "run"; max_iter := 200;
                             save_ckpt_every := Some 3; eval_every := 2;
                             save_on_quit := false |} |};
              Trainer.events := [];
              Trainer.rest := [1%nat];
              Trainer.console := {| global_leader := true; local_leader := true;
                                    stdin := [] |};
              Trainer.trace := [] |} in
  Trainer.time_target "time to 90" s = (90, s)
  /\ Trainer.time_query (fun _ _ => None) "time to 90" s
     = Trainer.Next tt (Trainer.emit (LogRemaining 81) s).
Proof.
  intro s. apply (time_to_target nat (fun _ _ => None) "90" s); reflexivity.
Defined.

(** ** What [event show] prints can be registered again *)

Lemma value_of_uint_acc (d : Decimal.uint) :
  forall acc : positive,
    Z.pos (Pos.of_uint_acc d acc) = Py.value_acc d (Z.pos acc).
Proof.
  induction d as [|d IH|d IH|d IH|d IH|d IH|d IH|d IH|d IH|d IH|d IH];
    intro acc; cbn [Pos.of_uint_acc Py.value_acc]; [reflexivity|..];
    rewrite IH; f_equal; lia.
Qed.

Lemma value_of_uint (d : Decimal.uint) :
  Z.of_N (Pos.of_uint d) = Py.value_acc d 0.
Proof.
  induction d as [|d IH|d IH|d IH|d IH|d IH|d IH|d IH|d IH|d IH|d IH];
    cbn [Pos.of_uint Py.value_acc]; [reflexivity | exact IH |..];
    cbn [Z.of_N]; rewrite value_of_uint_acc; reflexivity.
Qed.

Lemma digits_tail_of_uint (d : Decimal.uint) :
  forall acc : Z,
    Py.digits_tail acc (NilEmpty.string_of_uint d) = Some (Py.value_acc d acc).
Proof.
  induction d as [|d IH|d IH|d IH|d IH|d IH|d IH|d IH|d IH|d IH|d IH];
    intro acc; cbn [NilEmpty.string_of_uint Py.value_acc]; [reflexivity|..];
    cbn [Py.digits_tail];
    match goal with |- context [Py.digit_of ?c] =>
      let v := eval vm_compute in (Py.digit_of c) in
      change (Py.digit_of c) with v end;
    cbv iota; apply IH.
Qed.

Lemma digits_of_uint (d : Decimal.uint) :
  d <> Decimal.Nil ->
  Py.digits (NilEmpty.string_of_uint d) = Some (Z.of_N (Pos.of_uint d)).
Proof.
  intro Hne. rewrite value_of_uint.
  destruct d; [congruence|..];
    cbn [NilEmpty.string_of_uint Py.digits Py.value_acc];
    match goal with |- context [Py.digit_of ?c] =>
      let v := eval vm_compute in (Py.digit_of c) in
      change (Py.digit_of c) with v end;
    cbv iota; apply digits_tail_of_uint.
Qed.

(** [int] reads a text of digits that has no sign and no white space. *)
Lemma int_of_digits (text : string) (n : Z) :
  Py.digits text = Some n -> Py.int text = Some n.
Proof.
  intro H. destruct (rstrip_digits text n H) as [Hr _].
  unfold Py.int.
  destruct text as [|c t]; [discriminate|].
  assert (Hd : exists d, Py.digit_of c = Some d).
  { cbn [Py.digits] in H. destruct (Py.digit_of c); [eauto | discriminate]. }
  destruct Hd as [d Hd].
  cbn [Py.lstrip]. rewrite (digit_not_space c d Hd), Hr.
  assert (Hminus : c <> "-"%char) by (intros ->; discriminate).
  assert (Hplus : c <> "+"%char) by (intros ->; discriminate).
  destruct c as [[] [] [] [] [] [] [] []]; try exact H; congruence.
Qed.

(** [int(str(n))] is [n]. *)
Lemma int_of_str (n : Z) : Py.int (Py.str n) = Some n.
Proof.
  unfold Py.str. destruct n as [|p|p]; [reflexivity|..];
    cbn [Z.to_int NilZero.string_of_int];
    pose proof (DecimalPos.Unsigned.to_uint_nonnil p) as Hne;
    pose proof (DecimalPos.Unsigned.of_to p) as Hof;
    pose proof (digits_of_uint (Pos.to_uint p) Hne) as Hd;
    rewrite Hof in Hd; cbn [Z.of_N] in Hd;
    unfold NilZero.string_of_uint;
    destruct (Pos.to_uint p) eqn:Hu; try congruence;
    rewrite <- Hu in *.
  all: first [ now apply int_of_digits
             | now apply (int_reads_negative _ (Z.pos p)) ].
Qed.

Lemma no_at_in_digits (d : Decimal.uint) :
  Py.contains "@" (NilEmpty.string_of_uint d) = false.
Proof.
  induction d as [|d IH|d IH|d IH|d IH|d IH|d IH|d IH|d IH|d IH|d IH];
    cbn [NilEmpty.string_of_uint]; [reflexivity|..];
    rewrite contains_at_cons;
    match goal with |- context [ascii_dec ?a ?b] =>
      destruct (ascii_dec a b) as [Heq|_]; [discriminate Heq | exact IH] end.
Qed.

Lemma no_at_in_str (n : Z) : Py.contains "@" (Py.str n) = false.
Proof.
  unfold Py.str. destruct n as [|p|p]; [reflexivity|..];
    cbn [Z.to_int NilZero.string_of_int]; unfold NilZero.string_of_uint;
    destruct (Pos.to_uint p) eqn:Hu; try reflexivity; rewrite <- Hu;
    rewrite ?contains_at_cons;
    repeat match goal with |- context [ascii_dec ?a ?b] =>
      destruct (ascii_dec a b) as [Heq|_]; [discriminate Heq|] end;
    apply no_at_in_digits.
Qed.

(** X14: the line that [event] / [event show] prints for an event, taken as
    a command, registers that very event again: [command@trigger] is read
    back to the same command and the same trigger, negative triggers
    included.  (The command of a registered event never holds an [@].) *)
Theorem shown_event_registers_again :
  forall (B : Type) (what : string) (trigger : Z) (s : Trainer.State (B := B)),
    Py.contains "@" what = false ->
    Trainer.register_block (Schedule.show (what, trigger)) s
    = Trainer.Next ""
        (Trainer.emit
           (LogInfo ("Event " ++ Schedule.show (what, trigger) ++ " registered.")%string)
           (Trainer.set_events (Trainer.events s ++ [(what, trigger)]) s)).
Proof.
  intros B what trigger s Hwhat.
  assert (Hshow : Schedule.show (what, trigger)
                  = (what ++ String "@" (Py.str trigger))%string) by reflexivity.
  rewrite Hshow.
  rewrite (register_block_single_at what (Py.str trigger) s Hwhat (no_at_in_str trigger)).
  now rewrite int_of_str.
Qed.

Lemma shown_event_registers_again_witness :
  let s := {| Trainer.engines :=
                {| global_step := 10;
                   cfg := {| cfg_name := "run"; max_iter := 200;
                             save_ckpt_every := Some 3; eval_every := 2;
                             save_on_quit := false |} |};
              Trainer.events := [("save", 120)];
              Trainer.rest := [1%nat];
              Trainer.console := {| global_leader := true; local_leader := true;
                                    stdin := [] |};
              Trainer.trace := [] |} in
  Trainer.register_block (Schedule.show ("save", 120)) s
  = Trainer.Next ""
      (Trainer.emit (LogInfo "Event save@120 registered.")
         (Trainer.set_events [("save", 120); ("save", 120)] s)).
Proof.
  intro s. apply (shown_event_registers_again nat "save" 120 s). reflexivity.
Defined.

(** ** A scheduled [save] *)

Section ScheduledSave.
Context {B : Type}.
Variable estimate : Z -> Z -> option Exn.
Variable poll : Console -> string * Console.

Lemma saves_unchanged (s s' : Trainer.State (B := B)) (t : list (Effect B)) :
  Trainer.trace s' = Trainer.trace s ++ t ->
  Trainer.count Trainer.is_save t = 0%nat ->
  Trainer.saves s' = Trainer.saves s.
Proof.
  intros Ht H0. unfold Trainer.saves. rewrite Ht, count_app, H0. lia.
Qed.

Lemma register_block_saves (command live : string) (s s2 : Trainer.State (B := B)) :
  Trainer.register_block command s = Trainer.Next live s2 ->
  Trainer.saves s2 = Trainer.saves s.
Proof.
  unfold Trainer.register_block.
  destruct (Py.contains "@" command).
  - destruct Trainer.unpack2 as [[what when]|e]; [|discriminate].
    unfold Schedule.register. destruct (Py.int when); intro H; inversion H; subst;
      rewrite saves_emit; cbn [Trainer.is_save]; unfold Trainer.saves;
      cbn [Trainer.trace Trainer.set_events]; lia.
  - intro H. now inversion H.
Qed.

(** X19: when [save] is scheduled for the next step, the tick of that step
    saves a checkpoint, on the cadence or off it, provided the tick is not cut
    short by [quit] or an exception. *)
Theorem scheduled_save_fires :
  forall (b : B) (s s' : Trainer.State (B := B)),
    eval_every (Trainer.cfg_of s) <> 0 ->
    In ("save", Trainer.step_of s + 1) (Trainer.events s) ->
    Trainer.tick estimate poll b s = Trainer.Next tt s' ->
    (Trainer.saves s < Trainer.saves s')%nat.
Proof.
  intros b s s' Heval Hin. unfold Trainer.tick, Trainer.poll_command.
  destruct (poll (Trainer.console (Trainer.train_step b s))) as [command w].
  set (s1 := Trainer.set_console w (Trainer.train_step b s)).
  assert (Hs1 : Trainer.saves s1 = Trainer.saves s).
  { apply (saves_unchanged s s1
             [EngineStep b; WriterAddScalar (Trainer.step_of s + 1); WriterFlush;
              LoggerStats (Trainer.step_of s + 1)]); reflexivity. }
  destruct (Trainer.register_block command s1) as [live s2|s2|e s2] eqn:Hreg;
    cbn [Trainer.bind]; try discriminate.
  destruct (register_block_keeps _ _ _ _ Hreg) as [He2 Hkeep].
  pose proof (register_block_saves _ _ _ _ Hreg) as Hs2.
  unfold Schedule.resolve.
  set (kept := Schedule.prune (Trainer.step_of s2) (Trainer.events s2)).
  set (commands := live :: Schedule.fired (Trainer.step_of s2) kept).
  set (x := Trainer.set_events kept s2).
  intro Htick.
  assert (Hstep2 : Trainer.step_of s2 = Trainer.step_of s + 1)
    by (unfold Trainer.step_of; rewrite He2; reflexivity).
  assert (Hcfg2 : Trainer.cfg_of s2 = Trainer.cfg_of s)
    by (unfold Trainer.cfg_of; rewrite He2; reflexivity).
  assert (Hsave : In "save" commands).
  { right. unfold Schedule.fired.
    change "save" with (fst ("save", Trainer.step_of s + 1)).
    apply in_map. apply in_due. split; [|now rewrite Hstep2].
    apply in_prune. split; [now apply Hkeep|]. rewrite Hstep2. cbn. lia. }
  destruct (process_commands_saves estimate commands x s' Htick) as [_ Hsaves].
  change (Trainer.saves x) with (Trainer.saves s2) in Hsaves.
  rewrite Hsaves, Hs2, Hs1.
  assert (Hpos : (0 < List.length
                     (filter (Trainer.save_wanted (Trainer.cfg_of x) (Trainer.step_of x))
                        commands))%nat).
  { assert (Hf : In "save"
                   (filter (Trainer.save_wanted (Trainer.cfg_of x) (Trainer.step_of x))
                      commands)).
    { apply filter_In. split; [exact Hsave|].
      unfold Trainer.save_wanted, Trainer.saving_commands.
      cbn [app Trainer.mem existsb String.eqb Ascii.eqb Bool.eqb].
      now rewrite orb_true_r. }
    destruct (filter _ commands); [destruct Hf | cbn; lia]. }
  lia.
Qed.

End ScheduledSave.

Lemma scheduled_save_fires_witness :
  let s := {| Trainer.engines :=
                {| global_step := 3;
                   cfg := {| cfg_name := "run"; max_iter := 10;
                             save_ckpt_every := Some 50; eval_every := 20;
                             save_on_quit := false |} |};
              Trainer.events := [("save", 4)];
              Trainer.rest := [];
              Trainer.console := {| global_leader := true; local_leader := true;
                                    stdin := [] |};
              Trainer.trace := [] |} in
  exists s',
    Trainer.tick (fun _ _ => None) _non_blocking_input 0%nat s = Trainer.Next tt s'
    /\ (Trainer.saves s < Trainer.saves s')%nat.
Proof.
  intro s. eexists. split; [vm_compute; reflexivity|].
  apply (scheduled_save_fires (fun _ _ => None) _non_blocking_input 0%nat s).
  - vm_compute. discriminate.
  - left. reflexivity.
  - vm_compute. reflexivity.
Defined.

(** ** The command before the loop *)

(** X18: when the command read before the loop is [quit] or [eval_quit],
    [train] returns at once: no writer is opened, no batch is fetched, no
    training step is made.  For [eval_quit] the engines are switched to
    evaluation mode and back to training mode, and between the two the
    [eval_fn] given to [train] runs once on the global leader and not at all
    on another rank; for [quit] none of this happens. *)
Theorem quit_before_the_loop :
  forall (B : Type) (estimate : Z -> Z -> option Exn)
         (poll : Console -> string * Console) (dl : list B)
         (fuel : nat) (loaded : Engines) (w : Console),
    Trainer.mem (fst (poll w)) ["quit"; "eval_quit"] = true ->
    exists s,
      Trainer.train_from estimate poll dl fuel loaded w = Trainer.Finished s
      /\ Trainer.trace s
         = (if local_leader w then [CfgDump] else [])
           ++ (if String.eqb (fst (poll w)) "eval_quit"
               then EnginesEval
                    :: (if global_leader (snd (poll w))
                        then [EvalFn (global_step loaded)] else [])
                    ++ [EnginesTrain]
               else [])
      /\ Trainer.step_of s = global_step loaded.
Proof.
  intros B estimate poll dl fuel loaded w Hq.
  unfold Trainer.train_from, Trainer.poll_command.
  assert (Hw : Trainer.console
                 (if local_leader w
                  then Trainer.emit CfgDump
                         {| Trainer.engines := loaded; Trainer.events := [];
                            Trainer.rest := []; Trainer.console := w;
                            Trainer.trace := ([] : list (Effect B)) |}
                  else {| Trainer.engines := loaded; Trainer.events := [];
                          Trainer.rest := []; Trainer.console := w;
                          Trainer.trace := [] |}) = w)
    by (destruct (local_leader w); reflexivity).
  rewrite Hw. destruct (poll w) as [command w']. cbn [fst snd] in *.
  rewrite Hq.
  assert (Hc : command = "quit" \/ command = "eval_quit").
  { cbn in Hq. destruct (String.eqb_spec command "quit"); [now left|].
    destruct (String.eqb_spec command "eval_quit"); [now right | discriminate]. }
  destruct Hc as [-> | ->]; destruct (local_leader w);
    cbn [Trainer.mem existsb String.eqb Ascii.eqb Bool.eqb orb andb];
    rewrite ?evaluate_emits;
    cbn [Trainer.console Trainer.set_console Trainer.emit Trainer.emits
         Trainer.trace Trainer.step_of Trainer.engines];
    destruct (global_leader w'); eexists; repeat split.
Qed.

Lemma quit_before_the_loop_witness :
  exists s,
    Trainer.train_from (fun _ _ => None) (fun w => ("eval_quit", w)) [0%nat] 5
      {| global_step := 3;
         cfg := {| cfg_name := "run"; max_iter := 10; save_ckpt_every := None;
                   eval_every := 2; save_on_quit := true |} |}
      {| global_leader := false; local_leader := true; stdin := [] |}
    = Trainer.Finished s
    /\ Trainer.trace s = [CfgDump; EnginesEval; EnginesTrain]
    /\ Trainer.step_of s = 3.
Proof.
  apply (quit_before_the_loop nat (fun _ _ => None) (fun w => ("eval_quit", w))
           [0%nat] 5
           {| global_step := 3;
              cfg := {| cfg_name := "run"; max_iter := 10; save_ckpt_every := None;
                        eval_every := 2; save_on_quit := true |} |}
           {| global_leader := false; local_leader := true; stdin := [] |}).
  reflexivity.
Defined.

(** ** When [eval_fn] is called *)

Section EvalCadence.
Context {B : Type}.
Variable estimate : Z -> Z -> option Exn.
Variable dl : list B.

Lemma evaluated_at_app (t1 t2 : list (Effect B)) :
  Trainer.evaluated_at (t1 ++ t2)
  = Trainer.evaluated_at t1 ++ Trainer.evaluated_at t2.
Proof.
  induction t1 as [|e t1 IH]; simpl; [reflexivity|].
  destruct e; simpl; rewrite IH; reflexivity.
Qed.

(** What the one-space command does in a tick on the global leader: a run
    of [eval_fn] exactly when the step is on the evaluation cadence; on
    another rank none. *)
Lemma space_command_evaluates (s : Trainer.State (B := B)) :
  eval_every (Trainer.cfg_of s) <> 0 ->
  exists s',
    Trainer.process_command estimate " " s = Trainer.Next tt s'
    /\ Trainer.evaluated_at (Trainer.trace s')
       = Trainer.evaluated_at (Trainer.trace s)
         ++ (if (Trainer.step_of s mod eval_every (Trainer.cfg_of s) =? 0)
                && global_leader (Trainer.console s)
             then [Trainer.step_of s] else []).
Proof.
  intro Heval.
  pose proof (cadence_nonzero _ Heval) as Hevery.
  unfold Trainer.process_command.
  change (Trainer.time_query estimate " "
            (Trainer.clear_events " " (Trainer.show_events " " s)))
    with (Trainer.Next (B := B) tt s).
  cbn [Trainer.bind].
  unfold Trainer.checkpoint.
  apply Z.eqb_neq in Hevery. rewrite Hevery.
  apply Z.eqb_neq in Heval.
  match goal with |- context [if ?c then _ else _] => destruct c end;
    cbn [Trainer.bind];
    unfold Trainer.evaluation;
    change (Trainer.cfg_of (Trainer.emit _ (Trainer.emit PrintDebug s)))
      with (Trainer.cfg_of s);
    change (Trainer.step_of (Trainer.emit _ (Trainer.emit PrintDebug s)))
      with (Trainer.step_of s);
    rewrite Heval;
    change (Trainer.mem " " ["eval"]) with false; rewrite orb_false_r;
    destruct (Trainer.step_of s mod eval_every (Trainer.cfg_of s) =? 0);
    cbn [Trainer.bind Trainer.quit Trainer.mem existsb String.eqb Ascii.eqb
         Bool.eqb orb andb];
    eexists; (split; [reflexivity|]);
    rewrite ?evaluate_emits;
    cbn [Trainer.trace Trainer.emit Trainer.emits Trainer.console Trainer.step_of
         Trainer.engines];
    rewrite ?evaluated_at_app; cbn [Trainer.evaluated_at];
    try (destruct (global_leader (Trainer.console s)));
    cbn [Trainer.evaluated_at app]; rewrite ?app_nil_r; reflexivity.
Qed.

Lemma shipped_tick_evaluates (b : B) (s : Trainer.State (B := B)) :
  Trainer.events s = [] ->
  eval_every (Trainer.cfg_of s) <> 0 ->
  exists s',
    Trainer.tick estimate _non_blocking_input b s = Trainer.Next tt s'
    /\ Trainer.evaluated_at (Trainer.trace s')
       = Trainer.evaluated_at (Trainer.trace s)
         ++ (if ((Trainer.step_of s + 1) mod eval_every (Trainer.cfg_of s) =? 0)
                && global_leader (Trainer.console s)
             then [Trainer.step_of s + 1] else []).
Proof.
  intros Hev Heval. rewrite (shipped_tick_commands estimate b s Hev).
  set (x := Trainer.set_events []
              (Trainer.set_console (Trainer.console s) (Trainer.train_step b s))).
  cbn [Trainer.process_commands].
  destruct (space_command_evaluates x Heval) as (s' & Hrun & Hv).
  rewrite Hrun. cbn [Trainer.bind]. exists s'. split; [reflexivity|].
  rewrite Hv.
  change (Trainer.cfg_of x) with (Trainer.cfg_of s).
  change (Trainer.step_of x) with (Trainer.step_of s + 1).
  change (Trainer.console x) with (Trainer.console s).
  f_equal. subst x.
  cbn [Trainer.trace Trainer.set_events Trainer.set_console Trainer.train_step
       Trainer.emits].
  rewrite evaluated_at_app. cbn [Trainer.evaluated_at]. now rewrite app_nil_r.
Qed.

Lemma shipped_loop_evaluates (n : nat) :
  forall (fuel : nat) (s : Trainer.State (B := B)),
    dl <> [] ->
    Trainer.events s = [] ->
    eval_every (Trainer.cfg_of s) <> 0 ->
    Z.to_nat (max_iter (Trainer.cfg_of s) - Trainer.step_of s) = n ->
    (n < fuel)%nat ->
    exists s',
      Trainer.loop estimate _non_blocking_input dl fuel s = Trainer.Broke s'
      /\ Trainer.evaluated_at (Trainer.trace s')
         = Trainer.evaluated_at (Trainer.trace s)
           ++ (if global_leader (Trainer.console s)
               then filter (fun step => step mod eval_every (Trainer.cfg_of s) =? 0)
                      (Trainer.steps_after (Trainer.step_of s) n)
               else []).
Proof.
  induction n as [|n IH]; intros fuel s Hne Hev Heval Hn Hfuel;
    (destruct fuel as [|fuel]; [lia|]).
  - destruct (round_at_max estimate _non_blocking_input dl fuel s Hne ltac:(lia))
      as (logged & b & r & Hnext & Hloop).
    rewrite Hloop. eexists. split; [reflexivity|].
    cbn [Trainer.trace Trainer.emits Trainer.set_rest Trainer.steps_after filter].
    rewrite !evaluated_at_app.
    destruct (next_logged dl _ _ _ _ Hnext) as [-> | ->];
      destruct (global_leader _); cbn [Trainer.evaluated_at app];
      now rewrite ?app_nil_r.
  - cbn [Trainer.loop].
    assert (Hnext : exists logged b r,
               Epochs.next dl (Trainer.rest s) = Some (logged, b, r)).
    { unfold Epochs.next. destruct (Trainer.rest s) as [|b r]; [|eauto].
      destruct dl as [|b r]; [congruence | eauto]. }
    destruct Hnext as (logged & b & r & Hnext). rewrite Hnext.
    set (s1 := Trainer.emits (logged ++ [Fetched b]) (Trainer.set_rest r s)).
    assert (Hv1 : Trainer.evaluated_at (Trainer.trace s1)
                  = Trainer.evaluated_at (Trainer.trace s)).
    { subst s1. cbn [Trainer.trace Trainer.emits Trainer.set_rest].
      rewrite !evaluated_at_app.
      destruct (next_logged dl _ _ _ _ Hnext) as [-> | ->];
        cbn [Trainer.evaluated_at app]; now rewrite ?app_nil_r. }
    change (Trainer.cfg_of s1) with (Trainer.cfg_of s).
    change (Trainer.step_of s1) with (Trainer.step_of s).
    destruct (Z.leb_spec (max_iter (Trainer.cfg_of s)) (Trainer.step_of s)); [lia|].
    destruct (shipped_tick_saves estimate b s1 Hev (cadence_nonzero _ Heval) Heval)
      as (s2 & Htick & Hev2 & Hcfg2 & Hstep2 & _).
    destruct (shipped_tick_evaluates b s1 Hev Heval) as (s2' & Htick' & Hv2).
    rewrite Htick in Htick'. inversion Htick'; subst s2'. clear Htick'.
    pose proof (shipped_tick_flow estimate b s1 Hev) as Hflow.
    rewrite Htick in Hflow. destruct Hflow as [_ Hw2].
    rewrite Htick.
    change (Trainer.cfg_of s1) with (Trainer.cfg_of s) in *.
    change (Trainer.step_of s1) with (Trainer.step_of s) in *.
    change (Trainer.console s1) with (Trainer.console s) in *.
    destruct (IH fuel s2 Hne Hev2) as (s' & Hloop & Hv').
    + now rewrite Hcfg2.
    + rewrite Hcfg2, Hstep2. lia.
    + lia.
    + exists s'. split; [exact Hloop|].
      rewrite Hv', Hv2, Hv1, Hcfg2, Hstep2, Hw2. cbn [Trainer.steps_after filter].
      rewrite <- app_assoc. f_equal.
      destruct ((Trainer.step_of s + 1) mod eval_every (Trainer.cfg_of s) =? 0),
        (global_leader (Trainer.console s)); reflexivity.
Qed.

(** X17: with the input function of the file, a data loader that is not
    empty and a non-zero [eval_every], [train] returns, and on the global
    leader the [eval_fn] given to [train] has run exactly at the steps made
    that are multiples of [cfg.eval_every], in order, once each; on another
    rank it has not run at all.  The checkpoint cadence plays no part. *)
Theorem train_evaluates_on_cadence :
  forall (fuel : nat) (loaded : Engines) (w : Console),
    dl <> [] ->
    eval_every (cfg loaded) <> 0 ->
    (Z.to_nat (max_iter (cfg loaded) - global_step loaded) < fuel)%nat ->
    exists s,
      Trainer.train estimate dl fuel loaded w = Trainer.Finished s
      /\ Trainer.evaluated_at (Trainer.trace s)
         = if global_leader w
           then filter (fun step => step mod eval_every (cfg loaded) =? 0)
                  (Trainer.steps_after (global_step loaded)
                     (Z.to_nat (max_iter (cfg loaded) - global_step loaded)))
           else [].
Proof.
  intros fuel loaded w Hne Heval Hfuel.
  unfold Trainer.train, Trainer.train_from, Trainer.poll_command.
  unfold _non_blocking_input at 1.
  change (Trainer.mem " " ["eval"; "eval_quit"]) with false.
  change (Trainer.mem " " ["quit"; "eval_quit"]) with false. cbv iota.
  match goal with
  | |- context [Trainer.loop estimate _ dl fuel ?x] =>
      set (s0 := x);
      assert (H0 : Trainer.engines s0 = loaded /\ Trainer.events s0 = []
                   /\ Trainer.console s0 = w
                   /\ Trainer.evaluated_at (Trainer.trace s0) = [])
        by (subst s0; destruct (local_leader w); repeat split)
  end.
  destruct H0 as (Heng & Hev & Hw & Hv0).
  destruct (shipped_loop_evaluates
              (Z.to_nat (max_iter (cfg loaded) - global_step loaded)) fuel s0 Hne Hev)
    as (s' & Hloop & Hv).
  - unfold Trainer.cfg_of. now rewrite Heng.
  - unfold Trainer.cfg_of, Trainer.step_of. now rewrite Heng.
  - exact Hfuel.
  - rewrite Hloop. eexists. split; [reflexivity|].
    cbn [Trainer.trace Trainer.emit]. rewrite evaluated_at_app, Hv, Hv0, Hw.
    cbn [Trainer.evaluated_at app]. rewrite app_nil_r.
    unfold Trainer.cfg_of, Trainer.step_of. now rewrite Heng.
Qed.

End EvalCadence.

Lemma train_evaluates_on_cadence_witness :
  exists s,
    Trainer.train (fun _ _ => None) [0%nat] 11
      {| global_step := 0;
         cfg := {| cfg_name := "run"; max_iter := 10; save_ckpt_every := Some 3;
                   eval_every := 4; save_on_quit := false |} |}
      {| global_leader := true; local_leader := true; stdin := [] |}
    = Trainer.Finished s
    /\ Trainer.evaluated_at (Trainer.trace s) = [4; 8].
Proof.
  apply (train_evaluates_on_cadence (fun _ _ => None) [0%nat] 11
           {| global_step := 0;
              cfg := {| cfg_name := "run"; max_iter := 10; save_ckpt_every := Some 3;
                        eval_every := 4; save_on_quit := false |} |}
           {| global_leader := true; local_leader := true; stdin := [] |});
    vm_compute; try discriminate; lia.
Defined.

(** ** The loop never runs past [max_iter] *)

Section Bound.
Context {B : Type}.
Variable estimate : Z -> Z -> option Exn.
Variable poll : Console -> string * Console.
Variable dl : list B.

Lemma loop_step_bound (fuel : nat) :
  forall s : Trainer.State (B := B),
    let s' := Trainer.exit_state (Trainer.loop estimate poll dl fuel s) in
    Trainer.cfg_of s' = Trainer.cfg_of s
    /\ Trainer.step_of s <= Trainer.step_of s'
       <= Z.max (Trainer.step_of s) (max_iter (Trainer.cfg_of s)).
Proof.
  induction fuel as [|fuel IH]; intro s; cbv zeta;
    cbn [Trainer.loop Trainer.exit_state]; [split; [reflexivity | lia]|].
  destruct (Epochs.next dl (Trainer.rest s)) as [[[logged b] r]|].
  2:{ cbn [Trainer.exit_state].
      change (Trainer.cfg_of (Trainer.emit LogNewEpoch s)) with (Trainer.cfg_of s).
      change (Trainer.step_of (Trainer.emit LogNewEpoch s)) with (Trainer.step_of s).
      split; [reflexivity | lia]. }
  set (s1 := Trainer.emits (logged ++ [Fetched b]) (Trainer.set_rest r s)).
  assert (Hc1 : Trainer.cfg_of s1 = Trainer.cfg_of s) by reflexivity.
  assert (Hs1 : Trainer.step_of s1 = Trainer.step_of s) by reflexivity.
  rewrite Hc1, Hs1.
  destruct (Z.leb_spec (max_iter (Trainer.cfg_of s)) (Trainer.step_of s)).
  { cbn [Trainer.exit_state]. rewrite Hc1, Hs1. split; [reflexivity | lia]. }
  pose proof (tick_counts estimate poll b s1) as Ht. cbv zeta in Ht.
  destruct Ht as (_ & _ & _ & Hstep & Hcfg).
  rewrite Hc1 in Hcfg. rewrite Hs1 in Hstep.
  destruct (Trainer.tick estimate poll b s1) as [[] s2|s2|e s2];
    cbn [Trainer.exit_state Trainer.flow_state] in *;
    try (split; [exact Hcfg | lia]).
  specialize (IH s2). cbv zeta in IH. destruct IH as [IHc IHs].
  rewrite Hcfg, Hstep in *. split; [exact IHc | lia].
Qed.

(** X20: whatever commands arrive, with a data loader that is not empty
    [train] comes to an end within [max_iter - step + 1] rounds of the loop:
    it returns or an exception leaves it; and the step it ends at lies between
    the loaded step and the larger of the loaded step and [max_iter]. *)
Theorem train_stops_by_max_iter :
  forall (fuel : nat) (loaded : Engines) (w : Console),
    dl <> [] ->
    (Z.to_nat (max_iter (cfg loaded) - global_step loaded) < fuel)%nat ->
    exists s,
      (Trainer.train_from estimate poll dl fuel loaded w = Trainer.Finished s
       \/ exists e, Trainer.train_from estimate poll dl fuel loaded w = Trainer.Failed e s)
      /\ global_step loaded <= Trainer.step_of s
         <= Z.max (global_step loaded) (max_iter (cfg loaded)).
Proof.
  intros fuel loaded w Hne Hfuel.
  unfold Trainer.train_from, Trainer.poll_command.
  set (s0 := {| Trainer.engines := loaded; Trainer.events := []; Trainer.rest := [];
                Trainer.console := w; Trainer.trace := [] |}).
  set (s1 := if local_leader w then Trainer.emit CfgDump s0 else s0).
  destruct (poll (Trainer.console s1)) as [command w'].
  set (s2 := Trainer.set_console w' s1).
  set (s3 := if Trainer.mem command ["eval"; "eval_quit"]
             then Trainer.evaluate s2 else s2).
  assert (H3 : Trainer.engines s3 = loaded).
  { subst s3 s2 s1 s0.
    destruct (local_leader w), (Trainer.mem command ["eval"; "eval_quit"]);
      rewrite ?evaluate_emits; reflexivity. }
  destruct (Trainer.mem command ["quit"; "eval_quit"]).
  { exists s3. split; [now left|]. unfold Trainer.step_of. rewrite H3. lia. }
  set (s4 := Trainer.emit WriterOpen s3).
  assert (H4 : Trainer.engines s4 = loaded) by exact H3.
  pose proof (loop_step_bound fuel s4) as Hb. cbv zeta in Hb.
  pose proof (loop_is_left estimate poll dl fuel s4) as Hleft.
  pose proof (loop_never_starves estimate poll dl Hne fuel s4) as Hstarve.
  unfold Trainer.cfg_of, Trainer.step_of in Hb, Hleft. rewrite H4 in Hb, Hleft.
  destruct (Trainer.loop estimate poll dl fuel s4) as [s'|s'|e s'|s'|s'];
    cbn [Trainer.exit_state] in Hb.
  - exists (Trainer.emit WriterFlush s'). split; [now left|]. exact (proj2 Hb).
  - exists s'. split; [now left|]. exact (proj2 Hb).
  - exists s'. split; [right; now exists e|]. exact (proj2 Hb).
  - exfalso. exact (Hstarve s' eq_refl).
  - exfalso. exact (Hleft Hfuel s' eq_refl).
Qed.

End Bound.

Lemma train_stops_by_max_iter_witness :
  exists s,
    (Trainer.train_from (fun _ _ => None) _non_blocking_input [0%nat] 4
       {| global_step := 1;
          cfg := {| cfg_name := "run"; max_iter := 3; save_ckpt_every := None;
                    eval_every := 2; save_on_quit := false |} |}
       {| global_leader := true; local_leader := true; stdin := [] |}
     = Trainer.Finished s
     \/ exists e,
         Trainer.train_from (fun _ _ => None) _non_blocking_input [0%nat] 4
           {| global_step := 1;
              cfg := {| cfg_name := "run"; max_iter := 3; save_ckpt_every := None;
                        eval_every := 2; save_on_quit := false |} |}
           {| global_leader := true; local_leader := true; stdin := [] |}
         = Trainer.Failed e s)
    /\ 1 <= Trainer.step_of s <= Z.max 1 3.
Proof.
  apply (train_stops_by_max_iter (fun _ _ => None) _non_blocking_input [0%nat] 4
           {| global_step := 1;
              cfg := {| cfg_name := "run"; max_iter := 3; save_ckpt_every := None;
                        eval_every := 2; save_on_quit := false |} |}
           {| global_leader := true; local_leader := true; stdin := [] |});
    vm_compute; try discriminate; lia.
Defined.
